(** * NAHRIM harvesting functions: a shallow embedding and its properties

    The Python FunctionGraph handlers of the repository scrape tabular
    data (rainfall, water level, dam level, water quality), encode it as
    CSV, upload it to OBS and, for some domains, start a CDM migration
    job.  This development embeds the functions the specification talks
    about and proves how they behave.

    Conventions of the embedding:
    - a Python [dict] is an insertion-ordered association list with
      unique keys ([Py.dict]); key order matters for the CSV columns;
    - a Python [str] is the [string] of its UTF-8 encoding;
      [str.isdigit], [str.lower] and [repr] follow the Unicode tables of
      the interpreter ([Unicode]);
    - the answers of BeautifulSoup are a small DOM ([Dom.Table],
      [Dom.Cell]): what [find_all], [stripped_strings], [get_text] and
      [get] return;
    - calls to the outside world ([requests.get], [putContent], the CDM
      start request) go through an environment that sees the trace of
      earlier calls; every call is appended to the trace. *)

From Stdlib Require Import ZArith Lia Ascii String DecimalString.
From stdpp Require Import base list strings gmap sorting.

Set Warnings "-clear-no-such-hyp".

Local Open Scope string_scope.
Local Open Scope list_scope.
Local Open Scope Z_scope.
Local Open Scope stdpp_scope.

(* ================================================================== *)
(** * Unicode: the character tables of the interpreter                  *)
(* ================================================================== *)

(** A Python [str] is a sequence of code points; the embedding keeps it
    as the [string] of its UTF-8 encoding.  [str.isdigit], [str.lower]
    and [repr] go by the Unicode database of the interpreter: the tables
    below are those of Unicode 14.0.0, the database of CPython 3.11.  A
    [string] that is not well-formed UTF-8 stands for no Python string;
    the functions are total and treat it as stated at each of them.
    Python strings that hold surrogate code points have no UTF-8 form
    and are outside the embedding. *)

Module Unicode.

Local Open Scope N_scope.

Definition continuation (b : N) : bool := (0x80 <=? b) && (b <=? 0xBF).

(** The code points of a UTF-8 byte sequence: shortest form only, no
    surrogates, nothing above U+10FFFF. *)
Fixpoint decode (bytes : list N) : option (list N) :=
  match bytes with
  | [] => Some []
  | b0 :: rest =>
      if b0 <? 0x80 then cons b0 <$> decode rest
      else if b0 <? 0xC2 then None
      else if b0 <? 0xE0 then
        match rest with
        | b1 :: rest1 =>
            if continuation b1
            then cons ((b0 - 0xC0) * 0x40 + (b1 - 0x80)) <$> decode rest1
            else None
        | _ => None
        end
      else if b0 <? 0xF0 then
        match rest with
        | b1 :: b2 :: rest2 =>
            let c := (b0 - 0xE0) * 0x1000 + (b1 - 0x80) * 0x40 + (b2 - 0x80) in
            if continuation b1 && continuation b2 && (0x800 <=? c)
               && negb ((0xD800 <=? c) && (c <=? 0xDFFF))
            then cons c <$> decode rest2
            else None
        | _ => None
        end
      else if b0 <? 0xF5 then
        match rest with
        | b1 :: b2 :: b3 :: rest3 =>
            let c := (b0 - 0xF0) * 0x40000 + (b1 - 0x80) * 0x1000
                     + (b2 - 0x80) * 0x40 + (b3 - 0x80) in
            if continuation b1 && continuation b2 && continuation b3
               && (0x10000 <=? c) && (c <=? 0x10FFFF)
            then cons c <$> decode rest3
            else None
        | _ => None
        end
      else None
  end.

(** The UTF-8 bytes of one code point. *)
Definition encode_point (c : N) : list N :=
  if c <? 0x80 then [c]
  else if c <? 0x800 then [0xC0 + c / 0x40; 0x80 + c mod 0x40]
  else if c <? 0x10000
  then [0xE0 + c / 0x1000; 0x80 + (c / 0x40) mod 0x40; 0x80 + c mod 0x40]
  else [0xF0 + c / 0x40000; 0x80 + (c / 0x1000) mod 0x40;
        0x80 + (c / 0x40) mod 0x40; 0x80 + c mod 0x40].

Definition code_points (s : string) : option (list N) :=
  decode (N_of_ascii <$> list_ascii_of_string s).

Definition of_code_points (points : list N) : string :=
  string_of_list_ascii (ascii_of_N <$> mjoin (encode_point <$> points)).

(** [chr(c)] *)
Definition chr (c : N) : string := of_code_points [c].

Definition in_ranges (table : list (N * N)) (c : N) : bool :=
  existsb (fun '(lo, hi) => (lo <=? c) && (c <=? hi)) table.

(** The code points with [Numeric_Type] [Decimal] or [Digit], those for
    which [str.isdigit] holds. *)
Definition DIGIT : list (N * N) :=
  [
    (0x30, 0x39); (0xB2, 0xB3); (0xB9, 0xB9); (0x660, 0x669);
    (0x6F0, 0x6F9); (0x7C0, 0x7C9); (0x966, 0x96F); (0x9E6, 0x9EF);
    (0xA66, 0xA6F); (0xAE6, 0xAEF); (0xB66, 0xB6F); (0xBE6, 0xBEF);
    (0xC66, 0xC6F); (0xCE6, 0xCEF); (0xD66, 0xD6F); (0xDE6, 0xDEF);
    (0xE50, 0xE59); (0xED0, 0xED9); (0xF20, 0xF29); (0x1040, 0x1049);
    (0x1090, 0x1099); (0x1369, 0x1371); (0x17E0, 0x17E9); (0x1810, 0x1819);
    (0x1946, 0x194F); (0x19D0, 0x19DA); (0x1A80, 0x1A89); (0x1A90, 0x1A99);
    (0x1B50, 0x1B59); (0x1BB0, 0x1BB9); (0x1C40, 0x1C49); (0x1C50, 0x1C59);
    (0x2070, 0x2070); (0x2074, 0x2079); (0x2080, 0x2089); (0x2460, 0x2468);
    (0x2474, 0x247C); (0x2488, 0x2490); (0x24EA, 0x24EA); (0x24F5, 0x24FD);
    (0x24FF, 0x24FF); (0x2776, 0x277E); (0x2780, 0x2788); (0x278A, 0x2792);
    (0xA620, 0xA629); (0xA8D0, 0xA8D9); (0xA900, 0xA909); (0xA9D0, 0xA9D9);
    (0xA9F0, 0xA9F9); (0xAA50, 0xAA59); (0xABF0, 0xABF9); (0xFF10, 0xFF19);
    (0x104A0, 0x104A9); (0x10A40, 0x10A43); (0x10D30, 0x10D39); (0x10E60, 0x10E68);
    (0x11052, 0x1105A); (0x11066, 0x1106F); (0x110F0, 0x110F9); (0x11136, 0x1113F);
    (0x111D0, 0x111D9); (0x112F0, 0x112F9); (0x11450, 0x11459); (0x114D0, 0x114D9);
    (0x11650, 0x11659); (0x116C0, 0x116C9); (0x11730, 0x11739); (0x118E0, 0x118E9);
    (0x11950, 0x11959); (0x11C50, 0x11C59); (0x11D50, 0x11D59); (0x11DA0, 0x11DA9);
    (0x16A60, 0x16A69); (0x16AC0, 0x16AC9); (0x16B50, 0x16B59); (0x1D7CE, 0x1D7FF);
    (0x1E140, 0x1E149); (0x1E2F0, 0x1E2F9); (0x1E950, 0x1E959); (0x1F100, 0x1F10A);
    (0x1FBF0, 0x1FBF9) ].

Definition is_digit (c : N) : bool := in_ranges DIGIT c.

(** The simple lower-case mapping, as runs [(first, last, step, image
    of first)]: the code points [first], [first + step], ... up to
    [last] map to the image of [first] shifted by the same amount.
    U+0130 and U+03A3 are apart, see [to_lower] and [final_sigma]. *)
Definition LOWER : list (N * N * N * N) :=
  [
    (0x41, 0x5A, 1, 0x61); (0xC0, 0xD6, 1, 0xE0); (0xD8, 0xDE, 1, 0xF8);
    (0x100, 0x12E, 2, 0x101); (0x132, 0x136, 2, 0x133); (0x139, 0x147, 2, 0x13A);
    (0x14A, 0x176, 2, 0x14B); (0x178, 0x178, 1, 0xFF); (0x179, 0x17D, 2, 0x17A);
    (0x181, 0x181, 1, 0x253); (0x182, 0x184, 2, 0x183); (0x186, 0x186, 1, 0x254);
    (0x187, 0x187, 1, 0x188); (0x189, 0x18A, 1, 0x256); (0x18B, 0x18B, 1, 0x18C);
    (0x18E, 0x18E, 1, 0x1DD); (0x18F, 0x18F, 1, 0x259); (0x190, 0x190, 1, 0x25B);
    (0x191, 0x191, 1, 0x192); (0x193, 0x193, 1, 0x260); (0x194, 0x194, 1, 0x263);
    (0x196, 0x196, 1, 0x269); (0x197, 0x197, 1, 0x268); (0x198, 0x198, 1, 0x199);
    (0x19C, 0x19C, 1, 0x26F); (0x19D, 0x19D, 1, 0x272); (0x19F, 0x19F, 1, 0x275);
    (0x1A0, 0x1A4, 2, 0x1A1); (0x1A6, 0x1A6, 1, 0x280); (0x1A7, 0x1A7, 1, 0x1A8);
    (0x1A9, 0x1A9, 1, 0x283); (0x1AC, 0x1AC, 1, 0x1AD); (0x1AE, 0x1AE, 1, 0x288);
    (0x1AF, 0x1AF, 1, 0x1B0); (0x1B1, 0x1B2, 1, 0x28A); (0x1B3, 0x1B5, 2, 0x1B4);
    (0x1B7, 0x1B7, 1, 0x292); (0x1B8, 0x1B8, 1, 0x1B9); (0x1BC, 0x1BC, 1, 0x1BD);
    (0x1C4, 0x1C4, 1, 0x1C6); (0x1C5, 0x1C5, 1, 0x1C6); (0x1C7, 0x1C7, 1, 0x1C9);
    (0x1C8, 0x1C8, 1, 0x1C9); (0x1CA, 0x1CA, 1, 0x1CC); (0x1CB, 0x1DB, 2, 0x1CC);
    (0x1DE, 0x1EE, 2, 0x1DF); (0x1F1, 0x1F1, 1, 0x1F3); (0x1F2, 0x1F4, 2, 0x1F3);
    (0x1F6, 0x1F6, 1, 0x195); (0x1F7, 0x1F7, 1, 0x1BF); (0x1F8, 0x21E, 2, 0x1F9);
    (0x220, 0x220, 1, 0x19E); (0x222, 0x232, 2, 0x223); (0x23A, 0x23A, 1, 0x2C65);
    (0x23B, 0x23B, 1, 0x23C); (0x23D, 0x23D, 1, 0x19A); (0x23E, 0x23E, 1, 0x2C66);
    (0x241, 0x241, 1, 0x242); (0x243, 0x243, 1, 0x180); (0x244, 0x244, 1, 0x289);
    (0x245, 0x245, 1, 0x28C); (0x246, 0x24E, 2, 0x247); (0x370, 0x372, 2, 0x371);
    (0x376, 0x376, 1, 0x377); (0x37F, 0x37F, 1, 0x3F3); (0x386, 0x386, 1, 0x3AC);
    (0x388, 0x38A, 1, 0x3AD); (0x38C, 0x38C, 1, 0x3CC); (0x38E, 0x38F, 1, 0x3CD);
    (0x391, 0x3A1, 1, 0x3B1); (0x3A4, 0x3AB, 1, 0x3C4); (0x3CF, 0x3CF, 1, 0x3D7);
    (0x3D8, 0x3EE, 2, 0x3D9); (0x3F4, 0x3F4, 1, 0x3B8); (0x3F7, 0x3F7, 1, 0x3F8);
    (0x3F9, 0x3F9, 1, 0x3F2); (0x3FA, 0x3FA, 1, 0x3FB); (0x3FD, 0x3FF, 1, 0x37B);
    (0x400, 0x40F, 1, 0x450); (0x410, 0x42F, 1, 0x430); (0x460, 0x480, 2, 0x461);
    (0x48A, 0x4BE, 2, 0x48B); (0x4C0, 0x4C0, 1, 0x4CF); (0x4C1, 0x4CD, 2, 0x4C2);
    (0x4D0, 0x52E, 2, 0x4D1); (0x531, 0x556, 1, 0x561); (0x10A0, 0x10C5, 1, 0x2D00);
    (0x10C7, 0x10C7, 1, 0x2D27); (0x10CD, 0x10CD, 1, 0x2D2D); (0x13A0, 0x13EF, 1, 0xAB70);
    (0x13F0, 0x13F5, 1, 0x13F8); (0x1C90, 0x1CBA, 1, 0x10D0); (0x1CBD, 0x1CBF, 1, 0x10FD);
    (0x1E00, 0x1E94, 2, 0x1E01); (0x1E9E, 0x1E9E, 1, 0xDF); (0x1EA0, 0x1EFE, 2, 0x1EA1);
    (0x1F08, 0x1F0F, 1, 0x1F00); (0x1F18, 0x1F1D, 1, 0x1F10); (0x1F28, 0x1F2F, 1, 0x1F20);
    (0x1F38, 0x1F3F, 1, 0x1F30); (0x1F48, 0x1F4D, 1, 0x1F40); (0x1F59, 0x1F5F, 2, 0x1F51);
    (0x1F68, 0x1F6F, 1, 0x1F60); (0x1F88, 0x1F8F, 1, 0x1F80); (0x1F98, 0x1F9F, 1, 0x1F90);
    (0x1FA8, 0x1FAF, 1, 0x1FA0); (0x1FB8, 0x1FB9, 1, 0x1FB0); (0x1FBA, 0x1FBB, 1, 0x1F70);
    (0x1FBC, 0x1FBC, 1, 0x1FB3); (0x1FC8, 0x1FCB, 1, 0x1F72); (0x1FCC, 0x1FCC, 1, 0x1FC3);
    (0x1FD8, 0x1FD9, 1, 0x1FD0); (0x1FDA, 0x1FDB, 1, 0x1F76); (0x1FE8, 0x1FE9, 1, 0x1FE0);
    (0x1FEA, 0x1FEB, 1, 0x1F7A); (0x1FEC, 0x1FEC, 1, 0x1FE5); (0x1FF8, 0x1FF9, 1, 0x1F78);
    (0x1FFA, 0x1FFB, 1, 0x1F7C); (0x1FFC, 0x1FFC, 1, 0x1FF3); (0x2126, 0x2126, 1, 0x3C9);
    (0x212A, 0x212A, 1, 0x6B); (0x212B, 0x212B, 1, 0xE5); (0x2132, 0x2132, 1, 0x214E);
    (0x2160, 0x216F, 1, 0x2170); (0x2183, 0x2183, 1, 0x2184); (0x24B6, 0x24CF, 1, 0x24D0);
    (0x2C00, 0x2C2F, 1, 0x2C30); (0x2C60, 0x2C60, 1, 0x2C61); (0x2C62, 0x2C62, 1, 0x26B);
    (0x2C63, 0x2C63, 1, 0x1D7D); (0x2C64, 0x2C64, 1, 0x27D); (0x2C67, 0x2C6B, 2, 0x2C68);
    (0x2C6D, 0x2C6D, 1, 0x251); (0x2C6E, 0x2C6E, 1, 0x271); (0x2C6F, 0x2C6F, 1, 0x250);
    (0x2C70, 0x2C70, 1, 0x252); (0x2C72, 0x2C72, 1, 0x2C73); (0x2C75, 0x2C75, 1, 0x2C76);
    (0x2C7E, 0x2C7F, 1, 0x23F); (0x2C80, 0x2CE2, 2, 0x2C81); (0x2CEB, 0x2CED, 2, 0x2CEC);
    (0x2CF2, 0x2CF2, 1, 0x2CF3); (0xA640, 0xA66C, 2, 0xA641); (0xA680, 0xA69A, 2, 0xA681);
    (0xA722, 0xA72E, 2, 0xA723); (0xA732, 0xA76E, 2, 0xA733); (0xA779, 0xA77B, 2, 0xA77A);
    (0xA77D, 0xA77D, 1, 0x1D79); (0xA77E, 0xA786, 2, 0xA77F); (0xA78B, 0xA78B, 1, 0xA78C);
    (0xA78D, 0xA78D, 1, 0x265); (0xA790, 0xA792, 2, 0xA791); (0xA796, 0xA7A8, 2, 0xA797);
    (0xA7AA, 0xA7AA, 1, 0x266); (0xA7AB, 0xA7AB, 1, 0x25C); (0xA7AC, 0xA7AC, 1, 0x261);
    (0xA7AD, 0xA7AD, 1, 0x26C); (0xA7AE, 0xA7AE, 1, 0x26A); (0xA7B0, 0xA7B0, 1, 0x29E);
    (0xA7B1, 0xA7B1, 1, 0x287); (0xA7B2, 0xA7B2, 1, 0x29D); (0xA7B3, 0xA7B3, 1, 0xAB53);
    (0xA7B4, 0xA7C2, 2, 0xA7B5); (0xA7C4, 0xA7C4, 1, 0xA794); (0xA7C5, 0xA7C5, 1, 0x282);
    (0xA7C6, 0xA7C6, 1, 0x1D8E); (0xA7C7, 0xA7C9, 2, 0xA7C8); (0xA7D0, 0xA7D0, 1, 0xA7D1);
    (0xA7D6, 0xA7D8, 2, 0xA7D7); (0xA7F5, 0xA7F5, 1, 0xA7F6); (0xFF21, 0xFF3A, 1, 0xFF41);
    (0x10400, 0x10427, 1, 0x10428); (0x104B0, 0x104D3, 1, 0x104D8); (0x10570, 0x1057A, 1, 0x10597);
    (0x1057C, 0x1058A, 1, 0x105A3); (0x1058C, 0x10592, 1, 0x105B3); (0x10594, 0x10595, 1, 0x105BB);
    (0x10C80, 0x10CB2, 1, 0x10CC0); (0x118A0, 0x118BF, 1, 0x118C0); (0x16E40, 0x16E5F, 1, 0x16E60);
    (0x1E900, 0x1E921, 1, 0x1E922) ].

(** The lower-case form of one code point other than U+03A3. *)
Definition to_lower (c : N) : list N :=
  if c =? 0x130 then [0x69; 0x307]
  else
    match find (fun '(lo, hi, step, _) =>
                  (lo <=? c) && (c <=? hi) && ((c - lo) mod step =? 0)) LOWER with
    | Some (lo, _, _, image) => [image + (c - lo)]
    | None => [c]
    end.

(** The code points with the property [Case_Ignorable]. *)
Definition CASE_IGNORABLE : list (N * N) :=
  [
    (0x27, 0x27); (0x2E, 0x2E); (0x3A, 0x3A); (0x5E, 0x5E);
    (0x60, 0x60); (0xA8, 0xA8); (0xAD, 0xAD); (0xAF, 0xAF);
    (0xB4, 0xB4); (0xB7, 0xB8); (0x2B0, 0x36F); (0x374, 0x375);
    (0x37A, 0x37A); (0x384, 0x385); (0x387, 0x387); (0x483, 0x489);
    (0x559, 0x559); (0x55F, 0x55F); (0x591, 0x5BD); (0x5BF, 0x5BF);
    (0x5C1, 0x5C2); (0x5C4, 0x5C5); (0x5C7, 0x5C7); (0x5F4, 0x5F4);
    (0x600, 0x605); (0x610, 0x61A); (0x61C, 0x61C); (0x640, 0x640);
    (0x64B, 0x65F); (0x670, 0x670); (0x6D6, 0x6DD); (0x6DF, 0x6E8);
    (0x6EA, 0x6ED); (0x70F, 0x70F); (0x711, 0x711); (0x730, 0x74A);
    (0x7A6, 0x7B0); (0x7EB, 0x7F5); (0x7FA, 0x7FA); (0x7FD, 0x7FD);
    (0x816, 0x82D); (0x859, 0x85B); (0x888, 0x888); (0x890, 0x891);
    (0x898, 0x89F); (0x8C9, 0x902); (0x93A, 0x93A); (0x93C, 0x93C);
    (0x941, 0x948); (0x94D, 0x94D); (0x951, 0x957); (0x962, 0x963);
    (0x971, 0x971); (0x981, 0x981); (0x9BC, 0x9BC); (0x9C1, 0x9C4);
    (0x9CD, 0x9CD); (0x9E2, 0x9E3); (0x9FE, 0x9FE); (0xA01, 0xA02);
    (0xA3C, 0xA3C); (0xA41, 0xA42); (0xA47, 0xA48); (0xA4B, 0xA4D);
    (0xA51, 0xA51); (0xA70, 0xA71); (0xA75, 0xA75); (0xA81, 0xA82);
    (0xABC, 0xABC); (0xAC1, 0xAC5); (0xAC7, 0xAC8); (0xACD, 0xACD);
    (0xAE2, 0xAE3); (0xAFA, 0xAFF); (0xB01, 0xB01); (0xB3C, 0xB3C);
    (0xB3F, 0xB3F); (0xB41, 0xB44); (0xB4D, 0xB4D); (0xB55, 0xB56);
    (0xB62, 0xB63); (0xB82, 0xB82); (0xBC0, 0xBC0); (0xBCD, 0xBCD);
    (0xC00, 0xC00); (0xC04, 0xC04); (0xC3C, 0xC3C); (0xC3E, 0xC40);
    (0xC46, 0xC48); (0xC4A, 0xC4D); (0xC55, 0xC56); (0xC62, 0xC63);
    (0xC81, 0xC81); (0xCBC, 0xCBC); (0xCBF, 0xCBF); (0xCC6, 0xCC6);
    (0xCCC, 0xCCD); (0xCE2, 0xCE3); (0xD00, 0xD01); (0xD3B, 0xD3C);
    (0xD41, 0xD44); (0xD4D, 0xD4D); (0xD62, 0xD63); (0xD81, 0xD81);
    (0xDCA, 0xDCA); (0xDD2, 0xDD4); (0xDD6, 0xDD6); (0xE31, 0xE31);
    (0xE34, 0xE3A); (0xE46, 0xE4E); (0xEB1, 0xEB1); (0xEB4, 0xEBC);
    (0xEC6, 0xEC6); (0xEC8, 0xECD); (0xF18, 0xF19); (0xF35, 0xF35);
    (0xF37, 0xF37); (0xF39, 0xF39); (0xF71, 0xF7E); (0xF80, 0xF84);
    (0xF86, 0xF87); (0xF8D, 0xF97); (0xF99, 0xFBC); (0xFC6, 0xFC6);
    (0x102D, 0x1030); (0x1032, 0x1037); (0x1039, 0x103A); (0x103D, 0x103E);
    (0x1058, 0x1059); (0x105E, 0x1060); (0x1071, 0x1074); (0x1082, 0x1082);
    (0x1085, 0x1086); (0x108D, 0x108D); (0x109D, 0x109D); (0x10FC, 0x10FC);
    (0x135D, 0x135F); (0x1712, 0x1714); (0x1732, 0x1733); (0x1752, 0x1753);
    (0x1772, 0x1773); (0x17B4, 0x17B5); (0x17B7, 0x17BD); (0x17C6, 0x17C6);
    (0x17C9, 0x17D3); (0x17D7, 0x17D7); (0x17DD, 0x17DD); (0x180B, 0x180F);
    (0x1843, 0x1843); (0x1885, 0x1886); (0x18A9, 0x18A9); (0x1920, 0x1922);
    (0x1927, 0x1928); (0x1932, 0x1932); (0x1939, 0x193B); (0x1A17, 0x1A18);
    (0x1A1B, 0x1A1B); (0x1A56, 0x1A56); (0x1A58, 0x1A5E); (0x1A60, 0x1A60);
    (0x1A62, 0x1A62); (0x1A65, 0x1A6C); (0x1A73, 0x1A7C); (0x1A7F, 0x1A7F);
    (0x1AA7, 0x1AA7); (0x1AB0, 0x1ACE); (0x1B00, 0x1B03); (0x1B34, 0x1B34);
    (0x1B36, 0x1B3A); (0x1B3C, 0x1B3C); (0x1B42, 0x1B42); (0x1B6B, 0x1B73);
    (0x1B80, 0x1B81); (0x1BA2, 0x1BA5); (0x1BA8, 0x1BA9); (0x1BAB, 0x1BAD);
    (0x1BE6, 0x1BE6); (0x1BE8, 0x1BE9); (0x1BED, 0x1BED); (0x1BEF, 0x1BF1);
    (0x1C2C, 0x1C33); (0x1C36, 0x1C37); (0x1C78, 0x1C7D); (0x1CD0, 0x1CD2);
    (0x1CD4, 0x1CE0); (0x1CE2, 0x1CE8); (0x1CED, 0x1CED); (0x1CF4, 0x1CF4);
    (0x1CF8, 0x1CF9); (0x1D2C, 0x1D6A); (0x1D78, 0x1D78); (0x1D9B, 0x1DFF);
    (0x1FBD, 0x1FBD); (0x1FBF, 0x1FC1); (0x1FCD, 0x1FCF); (0x1FDD, 0x1FDF);
    (0x1FED, 0x1FEF); (0x1FFD, 0x1FFE); (0x200B, 0x200F); (0x2018, 0x2019);
    (0x2024, 0x2024); (0x2027, 0x2027); (0x202A, 0x202E); (0x2060, 0x2064);
    (0x2066, 0x206F); (0x2071, 0x2071); (0x207F, 0x207F); (0x2090, 0x209C);
    (0x20D0, 0x20F0); (0x2C7C, 0x2C7D); (0x2CEF, 0x2CF1); (0x2D6F, 0x2D6F);
    (0x2D7F, 0x2D7F); (0x2DE0, 0x2DFF); (0x2E2F, 0x2E2F); (0x3005, 0x3005);
    (0x302A, 0x302D); (0x3031, 0x3035); (0x303B, 0x303B); (0x3099, 0x309E);
    (0x30FC, 0x30FE); (0xA015, 0xA015); (0xA4F8, 0xA4FD); (0xA60C, 0xA60C);
    (0xA66F, 0xA672); (0xA674, 0xA67D); (0xA67F, 0xA67F); (0xA69C, 0xA69F);
    (0xA6F0, 0xA6F1); (0xA700, 0xA721); (0xA770, 0xA770); (0xA788, 0xA78A);
    (0xA7F2, 0xA7F4); (0xA7F8, 0xA7F9); (0xA802, 0xA802); (0xA806, 0xA806);
    (0xA80B, 0xA80B); (0xA825, 0xA826); (0xA82C, 0xA82C); (0xA8C4, 0xA8C5);
    (0xA8E0, 0xA8F1); (0xA8FF, 0xA8FF); (0xA926, 0xA92D); (0xA947, 0xA951);
    (0xA980, 0xA982); (0xA9B3, 0xA9B3); (0xA9B6, 0xA9B9); (0xA9BC, 0xA9BD);
    (0xA9CF, 0xA9CF); (0xA9E5, 0xA9E6); (0xAA29, 0xAA2E); (0xAA31, 0xAA32);
    (0xAA35, 0xAA36); (0xAA43, 0xAA43); (0xAA4C, 0xAA4C); (0xAA70, 0xAA70);
    (0xAA7C, 0xAA7C); (0xAAB0, 0xAAB0); (0xAAB2, 0xAAB4); (0xAAB7, 0xAAB8);
    (0xAABE, 0xAABF); (0xAAC1, 0xAAC1); (0xAADD, 0xAADD); (0xAAEC, 0xAAED);
    (0xAAF3, 0xAAF4); (0xAAF6, 0xAAF6); (0xAB5B, 0xAB5F); (0xAB69, 0xAB6B);
    (0xABE5, 0xABE5); (0xABE8, 0xABE8); (0xABED, 0xABED); (0xFB1E, 0xFB1E);
    (0xFBB2, 0xFBC2); (0xFE00, 0xFE0F); (0xFE13, 0xFE13); (0xFE20, 0xFE2F);
    (0xFE52, 0xFE52); (0xFE55, 0xFE55); (0xFEFF, 0xFEFF); (0xFF07, 0xFF07);
    (0xFF0E, 0xFF0E); (0xFF1A, 0xFF1A); (0xFF3E, 0xFF3E); (0xFF40, 0xFF40);
    (0xFF70, 0xFF70); (0xFF9E, 0xFF9F); (0xFFE3, 0xFFE3); (0xFFF9, 0xFFFB);
    (0x101FD, 0x101FD); (0x102E0, 0x102E0); (0x10376, 0x1037A); (0x10780, 0x10785);
    (0x10787, 0x107B0); (0x107B2, 0x107BA); (0x10A01, 0x10A03); (0x10A05, 0x10A06);
    (0x10A0C, 0x10A0F); (0x10A38, 0x10A3A); (0x10A3F, 0x10A3F); (0x10AE5, 0x10AE6);
    (0x10D24, 0x10D27); (0x10EAB, 0x10EAC); (0x10F46, 0x10F50); (0x10F82, 0x10F85);
    (0x11001, 0x11001); (0x11038, 0x11046); (0x11070, 0x11070); (0x11073, 0x11074);
    (0x1107F, 0x11081); (0x110B3, 0x110B6); (0x110B9, 0x110BA); (0x110BD, 0x110BD);
    (0x110C2, 0x110C2); (0x110CD, 0x110CD); (0x11100, 0x11102); (0x11127, 0x1112B);
    (0x1112D, 0x11134); (0x11173, 0x11173); (0x11180, 0x11181); (0x111B6, 0x111BE);
    (0x111C9, 0x111CC); (0x111CF, 0x111CF); (0x1122F, 0x11231); (0x11234, 0x11234);
    (0x11236, 0x11237); (0x1123E, 0x1123E); (0x112DF, 0x112DF); (0x112E3, 0x112EA);
    (0x11300, 0x11301); (0x1133B, 0x1133C); (0x11340, 0x11340); (0x11366, 0x1136C);
    (0x11370, 0x11374); (0x11438, 0x1143F); (0x11442, 0x11444); (0x11446, 0x11446);
    (0x1145E, 0x1145E); (0x114B3, 0x114B8); (0x114BA, 0x114BA); (0x114BF, 0x114C0);
    (0x114C2, 0x114C3); (0x115B2, 0x115B5); (0x115BC, 0x115BD); (0x115BF, 0x115C0);
    (0x115DC, 0x115DD); (0x11633, 0x1163A); (0x1163D, 0x1163D); (0x1163F, 0x11640);
    (0x116AB, 0x116AB); (0x116AD, 0x116AD); (0x116B0, 0x116B5); (0x116B7, 0x116B7);
    (0x1171D, 0x1171F); (0x11722, 0x11725); (0x11727, 0x1172B); (0x1182F, 0x11837);
    (0x11839, 0x1183A); (0x1193B, 0x1193C); (0x1193E, 0x1193E); (0x11943, 0x11943);
    (0x119D4, 0x119D7); (0x119DA, 0x119DB); (0x119E0, 0x119E0); (0x11A01, 0x11A0A);
    (0x11A33, 0x11A38); (0x11A3B, 0x11A3E); (0x11A47, 0x11A47); (0x11A51, 0x11A56);
    (0x11A59, 0x11A5B); (0x11A8A, 0x11A96); (0x11A98, 0x11A99); (0x11C30, 0x11C36);
    (0x11C38, 0x11C3D); (0x11C3F, 0x11C3F); (0x11C92, 0x11CA7); (0x11CAA, 0x11CB0);
    (0x11CB2, 0x11CB3); (0x11CB5, 0x11CB6); (0x11D31, 0x11D36); (0x11D3A, 0x11D3A);
    (0x11D3C, 0x11D3D); (0x11D3F, 0x11D45); (0x11D47, 0x11D47); (0x11D90, 0x11D91);
    (0x11D95, 0x11D95); (0x11D97, 0x11D97); (0x11EF3, 0x11EF4); (0x13430, 0x13438);
    (0x16AF0, 0x16AF4); (0x16B30, 0x16B36); (0x16B40, 0x16B43); (0x16F4F, 0x16F4F);
    (0x16F8F, 0x16F9F); (0x16FE0, 0x16FE1); (0x16FE3, 0x16FE4); (0x1AFF0, 0x1AFF3);
    (0x1AFF5, 0x1AFFB); (0x1AFFD, 0x1AFFE); (0x1BC9D, 0x1BC9E); (0x1BCA0, 0x1BCA3);
    (0x1CF00, 0x1CF2D); (0x1CF30, 0x1CF46); (0x1D167, 0x1D169); (0x1D173, 0x1D182);
    (0x1D185, 0x1D18B); (0x1D1AA, 0x1D1AD); (0x1D242, 0x1D244); (0x1DA00, 0x1DA36);
    (0x1DA3B, 0x1DA6C); (0x1DA75, 0x1DA75); (0x1DA84, 0x1DA84); (0x1DA9B, 0x1DA9F);
    (0x1DAA1, 0x1DAAF); (0x1E000, 0x1E006); (0x1E008, 0x1E018); (0x1E01B, 0x1E021);
    (0x1E023, 0x1E024); (0x1E026, 0x1E02A); (0x1E130, 0x1E13D); (0x1E2AE, 0x1E2AE);
    (0x1E2EC, 0x1E2EF); (0x1E8D0, 0x1E8D6); (0x1E944, 0x1E94B); (0x1F3FB, 0x1F3FF);
    (0xE0001, 0xE0001); (0xE0020, 0xE007F); (0xE0100, 0xE01EF) ].

(** The code points with the property [Cased] that are not
    [Case_Ignorable]: the rule for U+03A3 asks for [Cased] only at a
    code point that is not [Case_Ignorable]. *)
Definition CASED : list (N * N) :=
  [
    (0x41, 0x5A); (0x61, 0x7A); (0xAA, 0xAA); (0xB5, 0xB5);
    (0xBA, 0xBA); (0xC0, 0xD6); (0xD8, 0xF6); (0xF8, 0x1BA);
    (0x1BC, 0x1BF); (0x1C4, 0x293); (0x295, 0x2AF); (0x370, 0x373);
    (0x376, 0x377); (0x37B, 0x37D); (0x37F, 0x37F); (0x386, 0x386);
    (0x388, 0x38A); (0x38C, 0x38C); (0x38E, 0x3A1); (0x3A3, 0x3F5);
    (0x3F7, 0x481); (0x48A, 0x52F); (0x531, 0x556); (0x560, 0x588);
    (0x10A0, 0x10C5); (0x10C7, 0x10C7); (0x10CD, 0x10CD); (0x10D0, 0x10FA);
    (0x10FD, 0x10FF); (0x13A0, 0x13F5); (0x13F8, 0x13FD); (0x1C80, 0x1C88);
    (0x1C90, 0x1CBA); (0x1CBD, 0x1CBF); (0x1D00, 0x1D2B); (0x1D6B, 0x1D77);
    (0x1D79, 0x1D9A); (0x1E00, 0x1F15); (0x1F18, 0x1F1D); (0x1F20, 0x1F45);
    (0x1F48, 0x1F4D); (0x1F50, 0x1F57); (0x1F59, 0x1F59); (0x1F5B, 0x1F5B);
    (0x1F5D, 0x1F5D); (0x1F5F, 0x1F7D); (0x1F80, 0x1FB4); (0x1FB6, 0x1FBC);
    (0x1FBE, 0x1FBE); (0x1FC2, 0x1FC4); (0x1FC6, 0x1FCC); (0x1FD0, 0x1FD3);
    (0x1FD6, 0x1FDB); (0x1FE0, 0x1FEC); (0x1FF2, 0x1FF4); (0x1FF6, 0x1FFC);
    (0x2102, 0x2102); (0x2107, 0x2107); (0x210A, 0x2113); (0x2115, 0x2115);
    (0x2119, 0x211D); (0x2124, 0x2124); (0x2126, 0x2126); (0x2128, 0x2128);
    (0x212A, 0x212D); (0x212F, 0x2134); (0x2139, 0x2139); (0x213C, 0x213F);
    (0x2145, 0x2149); (0x214E, 0x214E); (0x2160, 0x217F); (0x2183, 0x2184);
    (0x24B6, 0x24E9); (0x2C00, 0x2C7B); (0x2C7E, 0x2CE4); (0x2CEB, 0x2CEE);
    (0x2CF2, 0x2CF3); (0x2D00, 0x2D25); (0x2D27, 0x2D27); (0x2D2D, 0x2D2D);
    (0xA640, 0xA66D); (0xA680, 0xA69B); (0xA722, 0xA76F); (0xA771, 0xA787);
    (0xA78B, 0xA78E); (0xA790, 0xA7CA); (0xA7D0, 0xA7D1); (0xA7D3, 0xA7D3);
    (0xA7D5, 0xA7D9); (0xA7F5, 0xA7F6); (0xA7FA, 0xA7FA); (0xAB30, 0xAB5A);
    (0xAB60, 0xAB68); (0xAB70, 0xABBF); (0xFB00, 0xFB06); (0xFB13, 0xFB17);
    (0xFF21, 0xFF3A); (0xFF41, 0xFF5A); (0x10400, 0x1044F); (0x104B0, 0x104D3);
    (0x104D8, 0x104FB); (0x10570, 0x1057A); (0x1057C, 0x1058A); (0x1058C, 0x10592);
    (0x10594, 0x10595); (0x10597, 0x105A1); (0x105A3, 0x105B1); (0x105B3, 0x105B9);
    (0x105BB, 0x105BC); (0x10C80, 0x10CB2); (0x10CC0, 0x10CF2); (0x118A0, 0x118DF);
    (0x16E40, 0x16E7F); (0x1D400, 0x1D454); (0x1D456, 0x1D49C); (0x1D49E, 0x1D49F);
    (0x1D4A2, 0x1D4A2); (0x1D4A5, 0x1D4A6); (0x1D4A9, 0x1D4AC); (0x1D4AE, 0x1D4B9);
    (0x1D4BB, 0x1D4BB); (0x1D4BD, 0x1D4C3); (0x1D4C5, 0x1D505); (0x1D507, 0x1D50A);
    (0x1D50D, 0x1D514); (0x1D516, 0x1D51C); (0x1D51E, 0x1D539); (0x1D53B, 0x1D53E);
    (0x1D540, 0x1D544); (0x1D546, 0x1D546); (0x1D54A, 0x1D550); (0x1D552, 0x1D6A5);
    (0x1D6A8, 0x1D6C0); (0x1D6C2, 0x1D6DA); (0x1D6DC, 0x1D6FA); (0x1D6FC, 0x1D714);
    (0x1D716, 0x1D734); (0x1D736, 0x1D74E); (0x1D750, 0x1D76E); (0x1D770, 0x1D788);
    (0x1D78A, 0x1D7A8); (0x1D7AA, 0x1D7C2); (0x1D7C4, 0x1D7CB); (0x1DF00, 0x1DF09);
    (0x1DF0B, 0x1DF1E); (0x1E900, 0x1E943); (0x1F130, 0x1F149); (0x1F150, 0x1F169);
    (0x1F170, 0x1F189) ].

Definition case_ignorable (c : N) : bool := in_ranges CASE_IGNORABLE c.
Definition cased (c : N) : bool := in_ranges CASED c.

(** The rule of [str.lower] for a capital sigma: it becomes a final
    sigma when the nearest code point before it that is not
    [Case_Ignorable] exists and is cased, and the nearest one after it
    does not exist or is not cased.  [before] is the text before the
    sigma, nearest code point first. *)
Definition final_sigma (before after : list N) : bool :=
  match find (fun c => negb (case_ignorable c)) before with
  | Some c =>
      cased c
      && match find (fun c => negb (case_ignorable c)) after with
         | Some d => negb (cased d)
         | None => true
         end
  | None => false
  end.

Fixpoint lower_from (before points : list N) : list N :=
  match points with
  | [] => []
  | c :: rest =>
      (if c =? 0x3A3
       then [if final_sigma before rest then 0x3C2 else 0x3C3]
       else to_lower c)
      ++ lower_from (c :: before) rest
  end.

(** The code points for which [str.isprintable] holds. *)
Definition PRINTABLE : list (N * N) :=
  [
    (0x20, 0x7E); (0xA1, 0xAC); (0xAE, 0x377); (0x37A, 0x37F);
    (0x384, 0x38A); (0x38C, 0x38C); (0x38E, 0x3A1); (0x3A3, 0x52F);
    (0x531, 0x556); (0x559, 0x58A); (0x58D, 0x58F); (0x591, 0x5C7);
    (0x5D0, 0x5EA); (0x5EF, 0x5F4); (0x606, 0x61B); (0x61D, 0x6DC);
    (0x6DE, 0x70D); (0x710, 0x74A); (0x74D, 0x7B1); (0x7C0, 0x7FA);
    (0x7FD, 0x82D); (0x830, 0x83E); (0x840, 0x85B); (0x85E, 0x85E);
    (0x860, 0x86A); (0x870, 0x88E); (0x898, 0x8E1); (0x8E3, 0x983);
    (0x985, 0x98C); (0x98F, 0x990); (0x993, 0x9A8); (0x9AA, 0x9B0);
    (0x9B2, 0x9B2); (0x9B6, 0x9B9); (0x9BC, 0x9C4); (0x9C7, 0x9C8);
    (0x9CB, 0x9CE); (0x9D7, 0x9D7); (0x9DC, 0x9DD); (0x9DF, 0x9E3);
    (0x9E6, 0x9FE); (0xA01, 0xA03); (0xA05, 0xA0A); (0xA0F, 0xA10);
    (0xA13, 0xA28); (0xA2A, 0xA30); (0xA32, 0xA33); (0xA35, 0xA36);
    (0xA38, 0xA39); (0xA3C, 0xA3C); (0xA3E, 0xA42); (0xA47, 0xA48);
    (0xA4B, 0xA4D); (0xA51, 0xA51); (0xA59, 0xA5C); (0xA5E, 0xA5E);
    (0xA66, 0xA76); (0xA81, 0xA83); (0xA85, 0xA8D); (0xA8F, 0xA91);
    (0xA93, 0xAA8); (0xAAA, 0xAB0); (0xAB2, 0xAB3); (0xAB5, 0xAB9);
    (0xABC, 0xAC5); (0xAC7, 0xAC9); (0xACB, 0xACD); (0xAD0, 0xAD0);
    (0xAE0, 0xAE3); (0xAE6, 0xAF1); (0xAF9, 0xAFF); (0xB01, 0xB03);
    (0xB05, 0xB0C); (0xB0F, 0xB10); (0xB13, 0xB28); (0xB2A, 0xB30);
    (0xB32, 0xB33); (0xB35, 0xB39); (0xB3C, 0xB44); (0xB47, 0xB48);
    (0xB4B, 0xB4D); (0xB55, 0xB57); (0xB5C, 0xB5D); (0xB5F, 0xB63);
    (0xB66, 0xB77); (0xB82, 0xB83); (0xB85, 0xB8A); (0xB8E, 0xB90);
    (0xB92, 0xB95); (0xB99, 0xB9A); (0xB9C, 0xB9C); (0xB9E, 0xB9F);
    (0xBA3, 0xBA4); (0xBA8, 0xBAA); (0xBAE, 0xBB9); (0xBBE, 0xBC2);
    (0xBC6, 0xBC8); (0xBCA, 0xBCD); (0xBD0, 0xBD0); (0xBD7, 0xBD7);
    (0xBE6, 0xBFA); (0xC00, 0xC0C); (0xC0E, 0xC10); (0xC12, 0xC28);
    (0xC2A, 0xC39); (0xC3C, 0xC44); (0xC46, 0xC48); (0xC4A, 0xC4D);
    (0xC55, 0xC56); (0xC58, 0xC5A); (0xC5D, 0xC5D); (0xC60, 0xC63);
    (0xC66, 0xC6F); (0xC77, 0xC8C); (0xC8E, 0xC90); (0xC92, 0xCA8);
    (0xCAA, 0xCB3); (0xCB5, 0xCB9); (0xCBC, 0xCC4); (0xCC6, 0xCC8);
    (0xCCA, 0xCCD); (0xCD5, 0xCD6); (0xCDD, 0xCDE); (0xCE0, 0xCE3);
    (0xCE6, 0xCEF); (0xCF1, 0xCF2); (0xD00, 0xD0C); (0xD0E, 0xD10);
    (0xD12, 0xD44); (0xD46, 0xD48); (0xD4A, 0xD4F); (0xD54, 0xD63);
    (0xD66, 0xD7F); (0xD81, 0xD83); (0xD85, 0xD96); (0xD9A, 0xDB1);
    (0xDB3, 0xDBB); (0xDBD, 0xDBD); (0xDC0, 0xDC6); (0xDCA, 0xDCA);
    (0xDCF, 0xDD4); (0xDD6, 0xDD6); (0xDD8, 0xDDF); (0xDE6, 0xDEF);
    (0xDF2, 0xDF4); (0xE01, 0xE3A); (0xE3F, 0xE5B); (0xE81, 0xE82);
    (0xE84, 0xE84); (0xE86, 0xE8A); (0xE8C, 0xEA3); (0xEA5, 0xEA5);
    (0xEA7, 0xEBD); (0xEC0, 0xEC4); (0xEC6, 0xEC6); (0xEC8, 0xECD);
    (0xED0, 0xED9); (0xEDC, 0xEDF); (0xF00, 0xF47); (0xF49, 0xF6C);
    (0xF71, 0xF97); (0xF99, 0xFBC); (0xFBE, 0xFCC); (0xFCE, 0xFDA);
    (0x1000, 0x10C5); (0x10C7, 0x10C7); (0x10CD, 0x10CD); (0x10D0, 0x1248);
    (0x124A, 0x124D); (0x1250, 0x1256); (0x1258, 0x1258); (0x125A, 0x125D);
    (0x1260, 0x1288); (0x128A, 0x128D); (0x1290, 0x12B0); (0x12B2, 0x12B5);
    (0x12B8, 0x12BE); (0x12C0, 0x12C0); (0x12C2, 0x12C5); (0x12C8, 0x12D6);
    (0x12D8, 0x1310); (0x1312, 0x1315); (0x1318, 0x135A); (0x135D, 0x137C);
    (0x1380, 0x1399); (0x13A0, 0x13F5); (0x13F8, 0x13FD); (0x1400, 0x167F);
    (0x1681, 0x169C); (0x16A0, 0x16F8); (0x1700, 0x1715); (0x171F, 0x1736);
    (0x1740, 0x1753); (0x1760, 0x176C); (0x176E, 0x1770); (0x1772, 0x1773);
    (0x1780, 0x17DD); (0x17E0, 0x17E9); (0x17F0, 0x17F9); (0x1800, 0x180D);
    (0x180F, 0x1819); (0x1820, 0x1878); (0x1880, 0x18AA); (0x18B0, 0x18F5);
    (0x1900, 0x191E); (0x1920, 0x192B); (0x1930, 0x193B); (0x1940, 0x1940);
    (0x1944, 0x196D); (0x1970, 0x1974); (0x1980, 0x19AB); (0x19B0, 0x19C9);
    (0x19D0, 0x19DA); (0x19DE, 0x1A1B); (0x1A1E, 0x1A5E); (0x1A60, 0x1A7C);
    (0x1A7F, 0x1A89); (0x1A90, 0x1A99); (0x1AA0, 0x1AAD); (0x1AB0, 0x1ACE);
    (0x1B00, 0x1B4C); (0x1B50, 0x1B7E); (0x1B80, 0x1BF3); (0x1BFC, 0x1C37);
    (0x1C3B, 0x1C49); (0x1C4D, 0x1C88); (0x1C90, 0x1CBA); (0x1CBD, 0x1CC7);
    (0x1CD0, 0x1CFA); (0x1D00, 0x1F15); (0x1F18, 0x1F1D); (0x1F20, 0x1F45);
    (0x1F48, 0x1F4D); (0x1F50, 0x1F57); (0x1F59, 0x1F59); (0x1F5B, 0x1F5B);
    (0x1F5D, 0x1F5D); (0x1F5F, 0x1F7D); (0x1F80, 0x1FB4); (0x1FB6, 0x1FC4);
    (0x1FC6, 0x1FD3); (0x1FD6, 0x1FDB); (0x1FDD, 0x1FEF); (0x1FF2, 0x1FF4);
    (0x1FF6, 0x1FFE); (0x2010, 0x2027); (0x2030, 0x205E); (0x2070, 0x2071);
    (0x2074, 0x208E); (0x2090, 0x209C); (0x20A0, 0x20C0); (0x20D0, 0x20F0);
    (0x2100, 0x218B); (0x2190, 0x2426); (0x2440, 0x244A); (0x2460, 0x2B73);
    (0x2B76, 0x2B95); (0x2B97, 0x2CF3); (0x2CF9, 0x2D25); (0x2D27, 0x2D27);
    (0x2D2D, 0x2D2D); (0x2D30, 0x2D67); (0x2D6F, 0x2D70); (0x2D7F, 0x2D96);
    (0x2DA0, 0x2DA6); (0x2DA8, 0x2DAE); (0x2DB0, 0x2DB6); (0x2DB8, 0x2DBE);
    (0x2DC0, 0x2DC6); (0x2DC8, 0x2DCE); (0x2DD0, 0x2DD6); (0x2DD8, 0x2DDE);
    (0x2DE0, 0x2E5D); (0x2E80, 0x2E99); (0x2E9B, 0x2EF3); (0x2F00, 0x2FD5);
    (0x2FF0, 0x2FFB); (0x3001, 0x303F); (0x3041, 0x3096); (0x3099, 0x30FF);
    (0x3105, 0x312F); (0x3131, 0x318E); (0x3190, 0x31E3); (0x31F0, 0x321E);
    (0x3220, 0xA48C); (0xA490, 0xA4C6); (0xA4D0, 0xA62B); (0xA640, 0xA6F7);
    (0xA700, 0xA7CA); (0xA7D0, 0xA7D1); (0xA7D3, 0xA7D3); (0xA7D5, 0xA7D9);
    (0xA7F2, 0xA82C); (0xA830, 0xA839); (0xA840, 0xA877); (0xA880, 0xA8C5);
    (0xA8CE, 0xA8D9); (0xA8E0, 0xA953); (0xA95F, 0xA97C); (0xA980, 0xA9CD);
    (0xA9CF, 0xA9D9); (0xA9DE, 0xA9FE); (0xAA00, 0xAA36); (0xAA40, 0xAA4D);
    (0xAA50, 0xAA59); (0xAA5C, 0xAAC2); (0xAADB, 0xAAF6); (0xAB01, 0xAB06);
    (0xAB09, 0xAB0E); (0xAB11, 0xAB16); (0xAB20, 0xAB26); (0xAB28, 0xAB2E);
    (0xAB30, 0xAB6B); (0xAB70, 0xABED); (0xABF0, 0xABF9); (0xAC00, 0xD7A3);
    (0xD7B0, 0xD7C6); (0xD7CB, 0xD7FB); (0xF900, 0xFA6D); (0xFA70, 0xFAD9);
    (0xFB00, 0xFB06); (0xFB13, 0xFB17); (0xFB1D, 0xFB36); (0xFB38, 0xFB3C);
    (0xFB3E, 0xFB3E); (0xFB40, 0xFB41); (0xFB43, 0xFB44); (0xFB46, 0xFBC2);
    (0xFBD3, 0xFD8F); (0xFD92, 0xFDC7); (0xFDCF, 0xFDCF); (0xFDF0, 0xFE19);
    (0xFE20, 0xFE52); (0xFE54, 0xFE66); (0xFE68, 0xFE6B); (0xFE70, 0xFE74);
    (0xFE76, 0xFEFC); (0xFF01, 0xFFBE); (0xFFC2, 0xFFC7); (0xFFCA, 0xFFCF);
    (0xFFD2, 0xFFD7); (0xFFDA, 0xFFDC); (0xFFE0, 0xFFE6); (0xFFE8, 0xFFEE);
    (0xFFFC, 0xFFFD); (0x10000, 0x1000B); (0x1000D, 0x10026); (0x10028, 0x1003A);
    (0x1003C, 0x1003D); (0x1003F, 0x1004D); (0x10050, 0x1005D); (0x10080, 0x100FA);
    (0x10100, 0x10102); (0x10107, 0x10133); (0x10137, 0x1018E); (0x10190, 0x1019C);
    (0x101A0, 0x101A0); (0x101D0, 0x101FD); (0x10280, 0x1029C); (0x102A0, 0x102D0);
    (0x102E0, 0x102FB); (0x10300, 0x10323); (0x1032D, 0x1034A); (0x10350, 0x1037A);
    (0x10380, 0x1039D); (0x1039F, 0x103C3); (0x103C8, 0x103D5); (0x10400, 0x1049D);
    (0x104A0, 0x104A9); (0x104B0, 0x104D3); (0x104D8, 0x104FB); (0x10500, 0x10527);
    (0x10530, 0x10563); (0x1056F, 0x1057A); (0x1057C, 0x1058A); (0x1058C, 0x10592);
    (0x10594, 0x10595); (0x10597, 0x105A1); (0x105A3, 0x105B1); (0x105B3, 0x105B9);
    (0x105BB, 0x105BC); (0x10600, 0x10736); (0x10740, 0x10755); (0x10760, 0x10767);
    (0x10780, 0x10785); (0x10787, 0x107B0); (0x107B2, 0x107BA); (0x10800, 0x10805);
    (0x10808, 0x10808); (0x1080A, 0x10835); (0x10837, 0x10838); (0x1083C, 0x1083C);
    (0x1083F, 0x10855); (0x10857, 0x1089E); (0x108A7, 0x108AF); (0x108E0, 0x108F2);
    (0x108F4, 0x108F5); (0x108FB, 0x1091B); (0x1091F, 0x10939); (0x1093F, 0x1093F);
    (0x10980, 0x109B7); (0x109BC, 0x109CF); (0x109D2, 0x10A03); (0x10A05, 0x10A06);
    (0x10A0C, 0x10A13); (0x10A15, 0x10A17); (0x10A19, 0x10A35); (0x10A38, 0x10A3A);
    (0x10A3F, 0x10A48); (0x10A50, 0x10A58); (0x10A60, 0x10A9F); (0x10AC0, 0x10AE6);
    (0x10AEB, 0x10AF6); (0x10B00, 0x10B35); (0x10B39, 0x10B55); (0x10B58, 0x10B72);
    (0x10B78, 0x10B91); (0x10B99, 0x10B9C); (0x10BA9, 0x10BAF); (0x10C00, 0x10C48);
    (0x10C80, 0x10CB2); (0x10CC0, 0x10CF2); (0x10CFA, 0x10D27); (0x10D30, 0x10D39);
    (0x10E60, 0x10E7E); (0x10E80, 0x10EA9); (0x10EAB, 0x10EAD); (0x10EB0, 0x10EB1);
    (0x10F00, 0x10F27); (0x10F30, 0x10F59); (0x10F70, 0x10F89); (0x10FB0, 0x10FCB);
    (0x10FE0, 0x10FF6); (0x11000, 0x1104D); (0x11052, 0x11075); (0x1107F, 0x110BC);
    (0x110BE, 0x110C2); (0x110D0, 0x110E8); (0x110F0, 0x110F9); (0x11100, 0x11134);
    (0x11136, 0x11147); (0x11150, 0x11176); (0x11180, 0x111DF); (0x111E1, 0x111F4);
    (0x11200, 0x11211); (0x11213, 0x1123E); (0x11280, 0x11286); (0x11288, 0x11288);
    (0x1128A, 0x1128D); (0x1128F, 0x1129D); (0x1129F, 0x112A9); (0x112B0, 0x112EA);
    (0x112F0, 0x112F9); (0x11300, 0x11303); (0x11305, 0x1130C); (0x1130F, 0x11310);
    (0x11313, 0x11328); (0x1132A, 0x11330); (0x11332, 0x11333); (0x11335, 0x11339);
    (0x1133B, 0x11344); (0x11347, 0x11348); (0x1134B, 0x1134D); (0x11350, 0x11350);
    (0x11357, 0x11357); (0x1135D, 0x11363); (0x11366, 0x1136C); (0x11370, 0x11374);
    (0x11400, 0x1145B); (0x1145D, 0x11461); (0x11480, 0x114C7); (0x114D0, 0x114D9);
    (0x11580, 0x115B5); (0x115B8, 0x115DD); (0x11600, 0x11644); (0x11650, 0x11659);
    (0x11660, 0x1166C); (0x11680, 0x116B9); (0x116C0, 0x116C9); (0x11700, 0x1171A);
    (0x1171D, 0x1172B); (0x11730, 0x11746); (0x11800, 0x1183B); (0x118A0, 0x118F2);
    (0x118FF, 0x11906); (0x11909, 0x11909); (0x1190C, 0x11913); (0x11915, 0x11916);
    (0x11918, 0x11935); (0x11937, 0x11938); (0x1193B, 0x11946); (0x11950, 0x11959);
    (0x119A0, 0x119A7); (0x119AA, 0x119D7); (0x119DA, 0x119E4); (0x11A00, 0x11A47);
    (0x11A50, 0x11AA2); (0x11AB0, 0x11AF8); (0x11C00, 0x11C08); (0x11C0A, 0x11C36);
    (0x11C38, 0x11C45); (0x11C50, 0x11C6C); (0x11C70, 0x11C8F); (0x11C92, 0x11CA7);
    (0x11CA9, 0x11CB6); (0x11D00, 0x11D06); (0x11D08, 0x11D09); (0x11D0B, 0x11D36);
    (0x11D3A, 0x11D3A); (0x11D3C, 0x11D3D); (0x11D3F, 0x11D47); (0x11D50, 0x11D59);
    (0x11D60, 0x11D65); (0x11D67, 0x11D68); (0x11D6A, 0x11D8E); (0x11D90, 0x11D91);
    (0x11D93, 0x11D98); (0x11DA0, 0x11DA9); (0x11EE0, 0x11EF8); (0x11FB0, 0x11FB0);
    (0x11FC0, 0x11FF1); (0x11FFF, 0x12399); (0x12400, 0x1246E); (0x12470, 0x12474);
    (0x12480, 0x12543); (0x12F90, 0x12FF2); (0x13000, 0x1342E); (0x14400, 0x14646);
    (0x16800, 0x16A38); (0x16A40, 0x16A5E); (0x16A60, 0x16A69); (0x16A6E, 0x16ABE);
    (0x16AC0, 0x16AC9); (0x16AD0, 0x16AED); (0x16AF0, 0x16AF5); (0x16B00, 0x16B45);
    (0x16B50, 0x16B59); (0x16B5B, 0x16B61); (0x16B63, 0x16B77); (0x16B7D, 0x16B8F);
    (0x16E40, 0x16E9A); (0x16F00, 0x16F4A); (0x16F4F, 0x16F87); (0x16F8F, 0x16F9F);
    (0x16FE0, 0x16FE4); (0x16FF0, 0x16FF1); (0x17000, 0x187F7); (0x18800, 0x18CD5);
    (0x18D00, 0x18D08); (0x1AFF0, 0x1AFF3); (0x1AFF5, 0x1AFFB); (0x1AFFD, 0x1AFFE);
    (0x1B000, 0x1B122); (0x1B150, 0x1B152); (0x1B164, 0x1B167); (0x1B170, 0x1B2FB);
    (0x1BC00, 0x1BC6A); (0x1BC70, 0x1BC7C); (0x1BC80, 0x1BC88); (0x1BC90, 0x1BC99);
    (0x1BC9C, 0x1BC9F); (0x1CF00, 0x1CF2D); (0x1CF30, 0x1CF46); (0x1CF50, 0x1CFC3);
    (0x1D000, 0x1D0F5); (0x1D100, 0x1D126); (0x1D129, 0x1D172); (0x1D17B, 0x1D1EA);
    (0x1D200, 0x1D245); (0x1D2E0, 0x1D2F3); (0x1D300, 0x1D356); (0x1D360, 0x1D378);
    (0x1D400, 0x1D454); (0x1D456, 0x1D49C); (0x1D49E, 0x1D49F); (0x1D4A2, 0x1D4A2);
    (0x1D4A5, 0x1D4A6); (0x1D4A9, 0x1D4AC); (0x1D4AE, 0x1D4B9); (0x1D4BB, 0x1D4BB);
    (0x1D4BD, 0x1D4C3); (0x1D4C5, 0x1D505); (0x1D507, 0x1D50A); (0x1D50D, 0x1D514);
    (0x1D516, 0x1D51C); (0x1D51E, 0x1D539); (0x1D53B, 0x1D53E); (0x1D540, 0x1D544);
    (0x1D546, 0x1D546); (0x1D54A, 0x1D550); (0x1D552, 0x1D6A5); (0x1D6A8, 0x1D7CB);
    (0x1D7CE, 0x1DA8B); (0x1DA9B, 0x1DA9F); (0x1DAA1, 0x1DAAF); (0x1DF00, 0x1DF1E);
    (0x1E000, 0x1E006); (0x1E008, 0x1E018); (0x1E01B, 0x1E021); (0x1E023, 0x1E024);
    (0x1E026, 0x1E02A); (0x1E100, 0x1E12C); (0x1E130, 0x1E13D); (0x1E140, 0x1E149);
    (0x1E14E, 0x1E14F); (0x1E290, 0x1E2AE); (0x1E2C0, 0x1E2F9); (0x1E2FF, 0x1E2FF);
    (0x1E7E0, 0x1E7E6); (0x1E7E8, 0x1E7EB); (0x1E7ED, 0x1E7EE); (0x1E7F0, 0x1E7FE);
    (0x1E800, 0x1E8C4); (0x1E8C7, 0x1E8D6); (0x1E900, 0x1E94B); (0x1E950, 0x1E959);
    (0x1E95E, 0x1E95F); (0x1EC71, 0x1ECB4); (0x1ED01, 0x1ED3D); (0x1EE00, 0x1EE03);
    (0x1EE05, 0x1EE1F); (0x1EE21, 0x1EE22); (0x1EE24, 0x1EE24); (0x1EE27, 0x1EE27);
    (0x1EE29, 0x1EE32); (0x1EE34, 0x1EE37); (0x1EE39, 0x1EE39); (0x1EE3B, 0x1EE3B);
    (0x1EE42, 0x1EE42); (0x1EE47, 0x1EE47); (0x1EE49, 0x1EE49); (0x1EE4B, 0x1EE4B);
    (0x1EE4D, 0x1EE4F); (0x1EE51, 0x1EE52); (0x1EE54, 0x1EE54); (0x1EE57, 0x1EE57);
    (0x1EE59, 0x1EE59); (0x1EE5B, 0x1EE5B); (0x1EE5D, 0x1EE5D); (0x1EE5F, 0x1EE5F);
    (0x1EE61, 0x1EE62); (0x1EE64, 0x1EE64); (0x1EE67, 0x1EE6A); (0x1EE6C, 0x1EE72);
    (0x1EE74, 0x1EE77); (0x1EE79, 0x1EE7C); (0x1EE7E, 0x1EE7E); (0x1EE80, 0x1EE89);
    (0x1EE8B, 0x1EE9B); (0x1EEA1, 0x1EEA3); (0x1EEA5, 0x1EEA9); (0x1EEAB, 0x1EEBB);
    (0x1EEF0, 0x1EEF1); (0x1F000, 0x1F02B); (0x1F030, 0x1F093); (0x1F0A0, 0x1F0AE);
    (0x1F0B1, 0x1F0BF); (0x1F0C1, 0x1F0CF); (0x1F0D1, 0x1F0F5); (0x1F100, 0x1F1AD);
    (0x1F1E6, 0x1F202); (0x1F210, 0x1F23B); (0x1F240, 0x1F248); (0x1F250, 0x1F251);
    (0x1F260, 0x1F265); (0x1F300, 0x1F6D7); (0x1F6DD, 0x1F6EC); (0x1F6F0, 0x1F6FC);
    (0x1F700, 0x1F773); (0x1F780, 0x1F7D8); (0x1F7E0, 0x1F7EB); (0x1F7F0, 0x1F7F0);
    (0x1F800, 0x1F80B); (0x1F810, 0x1F847); (0x1F850, 0x1F859); (0x1F860, 0x1F887);
    (0x1F890, 0x1F8AD); (0x1F8B0, 0x1F8B1); (0x1F900, 0x1FA53); (0x1FA60, 0x1FA6D);
    (0x1FA70, 0x1FA74); (0x1FA78, 0x1FA7C); (0x1FA80, 0x1FA86); (0x1FA90, 0x1FAAC);
    (0x1FAB0, 0x1FABA); (0x1FAC0, 0x1FAC5); (0x1FAD0, 0x1FAD9); (0x1FAE0, 0x1FAE7);
    (0x1FAF0, 0x1FAF6); (0x1FB00, 0x1FB92); (0x1FB94, 0x1FBCA); (0x1FBF0, 0x1FBF9);
    (0x20000, 0x2A6DF); (0x2A700, 0x2B738); (0x2B740, 0x2B81D); (0x2B820, 0x2CEA1);
    (0x2CEB0, 0x2EBE0); (0x2F800, 0x2FA1D); (0x30000, 0x3134A); (0xE0100, 0xE01EF) ].

Definition printable (c : N) : bool := in_ranges PRINTABLE c.

Definition hex_digit (d : N) : N := if d <? 10 then 0x30 + d else 0x61 + (d - 10).

(** [n] hexadecimal digits of [c], the most significant first. *)
Fixpoint hex (n : nat) (c : N) : list N :=
  match n with
  | O => []
  | S n' => hex n' (c / 16) ++ [hex_digit (c mod 16)]
  end.

(** What [repr] writes for one code point inside the quotes [quote]. *)
Definition escape (quote c : N) : list N :=
  if (c =? quote) || (c =? 0x5C) then [0x5C; c]
  else if c =? 0x09 then [0x5C; 0x74]
  else if c =? 0x0A then [0x5C; 0x6E]
  else if c =? 0x0D then [0x5C; 0x72]
  else if (c <? 0x20) || (c =? 0x7F) then [0x5C; 0x78] ++ hex 2 c
  else if c <? 0x7F then [c]
  else if printable c then [c]
  else if c <=? 0xFF then [0x5C; 0x78] ++ hex 2 c
  else if c <=? 0xFFFF then [0x5C; 0x75] ++ hex 4 c
  else [0x5C; 0x55] ++ hex 8 c.

(** [repr] of a string: double quotes when the text has a single quote
    and no double quote, single quotes otherwise. *)
Definition repr_points (points : list N) : list N :=
  let quote := if existsb (N.eqb 0x27) points && negb (existsb (N.eqb 0x22) points)
               then 0x22 else 0x27 in
  [quote] ++ mjoin (escape quote <$> points) ++ [quote].

End Unicode.

(* ================================================================== *)
(** * Python values, strings, slices and dictionaries                   *)
(* ================================================================== *)

Module Py.

(** The values that occur in scraped records. *)
Inductive pyval :=
| PStr (s : string)
| PInt (z : Z)
| PNone.

#[global] Instance pyval_eq_dec : EqDecision pyval.
Proof. solve_decision. Defined.

(** [needle in hay] on strings. *)
Fixpoint str_contains (needle hay : string) : bool :=
  if String.prefix needle hay then true
  else match hay with
       | EmptyString => false
       | String _ rest => str_contains needle rest
       end.

(** [a <= b] on strings: lexicographic on the character codes. *)
Definition str_le (a b : string) : Prop := String.leb a b = true.

#[global] Instance str_le_dec : RelDecision str_le.
Proof. intros a b. unfold str_le. apply _. Defined.

(** [sep.join(parts)] *)
Definition join (sep : string) (parts : list string) : string :=
  String.concat sep parts.

(** [s.isdigit()]: at least one character, and all of them digits in
    the sense of the Unicode database ([false] for a string that is not
    UTF-8). *)
Definition isdigit (s : string) : bool :=
  match Unicode.code_points s with
  | Some (c :: points) => forallb Unicode.is_digit (c :: points)
  | _ => false
  end.

(** [s.lower()] (a string that is not UTF-8 is left as it is). *)
Definition lower (s : string) : string :=
  match Unicode.code_points s with
  | Some points => Unicode.of_code_points (Unicode.lower_from [] points)
  | None => s
  end.

(** [repr(s)] of a string (a string that is not UTF-8 is left as it
    is). *)
Definition repr (s : string) : string :=
  match Unicode.code_points s with
  | Some points => Unicode.of_code_points (Unicode.repr_points points)
  | None => s
  end.

(** Python's index normalisation inside a slice of a sequence of
    length [len]: negative indices count from the end, and everything
    is clamped to [0..len]. *)
Definition clamp_index (len i : Z) : Z :=
  if i <? 0 then Z.max 0 (len + i) else Z.min i len.

(** [l[start:stop]] with either bound possibly omitted. *)
Definition slice {A} (start stop : option Z) (l : list A) : list A :=
  let len := Z.of_nat (length l) in
  let lo := match start with None => 0 | Some i => clamp_index len i end in
  let hi := match stop with None => len | Some j => clamp_index len j end in
  take (Z.to_nat (hi - lo)) (drop (Z.to_nat lo) l).

(** [l[-1]] for a non-empty list ([None] stands for IndexError). *)
Definition last_item {A} (l : list A) : option A := last l.

(** Insertion-ordered dictionaries with string keys. *)
Definition dict (V : Type) := list (string * V).

Definition keys {V} (d : dict V) : list string := d.*1.

Fixpoint get {V} (k : string) (d : dict V) : option V :=
  match d with
  | [] => None
  | (k', v) :: d' => if decide (k = k') then Some v else get k d'
  end.

Definition has {V} (k : string) (d : dict V) : bool :=
  bool_decide (k ∈ keys d).

(** [d[k] = v]: overwrite in place when the key exists, else append. *)
Fixpoint set {V} (k : string) (v : V) (d : dict V) : dict V :=
  match d with
  | [] => [(k, v)]
  | (k', v') :: d' =>
      if decide (k = k') then (k', v) :: d' else (k', v') :: set k v d'
  end.

(** [for k, v in pairs: d[k] = v] *)
Definition update_all {V} (pairs : list (string * V)) (d : dict V) : dict V :=
  foldl (fun acc kv => set kv.1 kv.2 acc) d pairs.

(** A scraped record. *)
Definition item := dict pyval.

(** [str(v)] *)
Definition str_of (v : pyval) : string :=
  match v with
  | PStr s => s
  | PInt z => NilZero.string_of_int (Z.to_int z)
  | PNone => "None"
  end.

(** The dictionaries the per-state scrapers return: each key may be
    absent. *)
Record ScrapeResult := mkResult {
  r_error : option string;
  r_state : option pyval;
  r_count : option nat;
  r_data : option (list item)
}.

(** [zip(xs, ys)] stops at the shorter argument. *)
Definition zip {A B} (xs : list A) (ys : list B) : list (A * B) :=
  base.zip xs ys.

End Py.

(* ================================================================== *)
(** * What the HTML parser reports                                      *)
(* ================================================================== *)

Module Dom.

Inductive CellTag := TH | TD.

#[global] Instance CellTag_eq_dec : EqDecision CellTag.
Proof. solve_decision. Defined.

(** A table cell: its tag, its stripped text fragments in document
    order, its [style] attribute, the [style] attribute of its first
    [<span>] descendant (outer [None]: no span), and the stripped text
    fragments of its first [<a>] descendant. *)
Record Cell := mkCell {
  c_tag : CellTag;
  c_strings : list string;
  c_style : option string;
  c_span : option (option string);
  c_link : option (list string)
}.

(** A plain [<td>] holding one text fragment. *)
Definition td (s : string) : Cell := mkCell TD [s] None None None.
Definition th (s : string) : Cell := mkCell TH [s] None None None.

Definition Row := list Cell.

(** A table: [id], [class] list, all stripped strings below it, the
    cells of its [<thead>], the rows of its [<tbody>], and all its
    [<tr>] descendants in document order. *)
Record Table := mkTable {
  t_id : option string;
  t_class : list string;
  t_strings : list string;
  t_thead : option (list Cell);
  t_tbody : option (list Row);
  t_rows : list Row
}.

(** A parsed document is the list of its tables in document order. *)
Definition Document := list Table.

(** [" ".join(cell.stripped_strings)] and [cell.get_text(" ", strip=True)] *)
Definition text_spaced (c : Cell) : string := Py.join " " (c_strings c).

(** [cell.get_text(strip=True)] *)
Definition text_tight (c : Cell) : string := Py.join "" (c_strings c).

(** [row.find_all("td")] *)
Definition find_td (r : Row) : list Cell :=
  filter (fun c => c_tag c = TD) r.

(** [row.find_all("th")] *)
Definition find_th (r : list Cell) : list Cell :=
  filter (fun c => c_tag c = TH) r.

(** [soup.find("table", {"id": ident})] *)
Definition find_table_by_id (ident : string) (doc : Document) : option Table :=
  head (filter (fun t => t_id t = Some ident) doc).

(** [soup.find("table", {"class": cls})] *)
Definition find_table_by_class (cls : string) (doc : Document) : option Table :=
  head (filter (fun t => cls ∈ t_class t) doc).

End Dom.


(* ================================================================== *)
(** * Outcomes, the outside world and its trace                         *)
(* ================================================================== *)

Module Eff.
Import Py Dom.

(** A Python call either returns or raises. *)
Inductive Outcome (A : Type) :=
| Return (a : A)
| Raise (msg : string).
Arguments Return {A} a.
Arguments Raise {A} msg.

(** The pages and services the handlers talk to. *)
Inductive Endpoint :=
| RainfallPage
| WaterLevelLegacy
| WaterLevelNew
| DamPage
| WaterQualityApi.

(** One entry per call that leaves the process, and one per entry into
    [start_cdm_job]. *)
Inductive Event :=
| HttpGet (ep : Endpoint) (arg : pyval) (timeout : Z)
| ObsPut (content : string)
| StartCdmJob (job : string)
| CdmPut (job : string).

#[global] Instance Endpoint_eq_dec : EqDecision Endpoint.
Proof. solve_decision. Defined.
#[global] Instance Event_eq_dec : EqDecision Event.
Proof. solve_decision. Defined.

(** The decoded JSON object of the water-quality API: the value under
    ["error"] and the list under ["crwqi"], when present. *)
Record JsonPayload := mkPayload {
  j_error : option pyval;
  j_crwqi : option (list item)
}.

(** An HTTP response: its status; the text of the [HTTPError] that
    [raise_for_status] raises for it; the tables BeautifulSoup finds
    in its text; and what [response.json()] returns or raises. *)
Record Response := mkResponse {
  status_code : Z;
  http_error : string;
  soup : Document;
  json : Outcome JsonPayload
}.

(** A response carrying an HTML page. *)
Definition html_response (status : Z) (doc : Document) : Response :=
  mkResponse status "HTTP error" doc (Raise "Expecting value").

(** A response carrying a JSON object. *)
Definition json_response (status : Z) (payload : JsonPayload) : Response :=
  mkResponse status "HTTP error" [] (Return payload).

Inductive HttpReply :=
| HttpRaises (msg : string)
| HttpResponds (r : Response).

Inductive ObsReply :=
| ObsRaises (msg : string)
| ObsResponds (status : Z) (errorCode errorMessage : string).

Inductive CdmReply :=
| CdmRaises (msg : string)
| CdmResponds (status : Z) (text : string).

(** The events that are page or API requests. *)
Definition is_http_get (e : Event) : Prop :=
  match e with
  | HttpGet _ _ _ => True
  | _ => False
  end.

(** The outside world answers a call knowing the calls made so far. *)
Record Env := mkEnv {
  http_get : list Event → Endpoint → pyval → HttpReply;
  obs_put : list Event → string → ObsReply;
  cdm_put : list Event → string → CdmReply;
  (** the clock, read after the calls of the trace for the n-th record *)
  now : list Event → nat → string;
  (** [PROJECT_ID] and [CDM_CLUSTER_ID] are both set *)
  cdm_ids_set : bool;
  (** the environment variable [CDM_JOB_NAME] *)
  cdm_job_name : option string
}.

(** Computations that append to the trace and may raise. *)
Definition M (A : Type) : Type := list Event → Outcome A * list Event.

Definition ret {A} (a : A) : M A := fun tr => (Return a, tr).

Definition raise {A} (msg : string) : M A := fun tr => (Raise msg, tr).

Definition bind {A B} (m : M A) (k : A → M B) : M B :=
  fun tr =>
    match m tr with
    | (Return a, tr') => k a tr'
    | (Raise msg, tr') => (Raise msg, tr')
    end.

#[global] Instance M_ret : MRet M := @ret.
#[global] Instance M_bind : MBind M := fun A B k m => bind m k.

(** [try: m except Exception as e: handler(str(e))] *)
Definition try_except {A} (m : M A) (handler : string → M A) : M A :=
  fun tr =>
    match m tr with
    | (Return a, tr') => (Return a, tr')
    | (Raise msg, tr') => handler msg tr'
    end.

Definition lift {A} (o : Outcome A) : M A := fun tr => (o, tr).

Definition emit (e : Event) : M unit := fun tr => (Return (), tr ++ [e]).

Definition trace : M (list Event) := fun tr => (Return tr, tr).

(** Run from the empty trace. *)
Definition run {A} (m : M A) : Outcome A * list Event := m [].

(** [raise_for_status()] *)
Definition raise_for_status (r : Response) : M unit :=
  if bool_decide (400 ≤ status_code r < 600)
  then raise (http_error r) else ret ().

(** [requests.get(url, ..., timeout=timeout)] against [env]. *)
Definition requests_get (env : Env) (ep : Endpoint) (arg : pyval) (timeout : Z)
  : M Response :=
  fun tr =>
    match http_get env tr ep arg with
    | HttpRaises msg => (Raise msg, tr ++ [HttpGet ep arg timeout])
    | HttpResponds r => (Return r, tr ++ [HttpGet ep arg timeout])
    end.

(** [obs_client.putContent(...)]: the status and the error fields of
    the answer. *)
Definition put_content (env : Env) (content : string) : M (Z * string * string) :=
  fun tr =>
    match obs_put env tr content with
    | ObsRaises msg => (Raise msg, tr ++ [ObsPut content])
    | ObsResponds status code message =>
        (Return (status, code, message), tr ++ [ObsPut content])
    end.

(** [start_cdm_job(job_name, ...)], the same function in every handler
    that has it, up to the text [ids_unset] of the first error: the
    identifiers must be configured, the request may raise, and any
    status other than 200 is an error.  The returned text stands for
    the decoded answer. *)
Definition start_cdm_job (env : Env) (ids_unset : string) (job_name : string)
  : M string :=
  emit (StartCdmJob job_name);;
  if negb (cdm_ids_set env)
  then raise ids_unset
  else
    tr ← trace;
    emit (CdmPut job_name);;
    match cdm_put env tr job_name with
    | CdmRaises msg => raise msg
    | CdmResponds status text =>
        if bool_decide (status ≠ 200)
        then raise ("Failed to start CDM job " +:+ job_name +:+ ": status="
                      +:+ str_of (PInt status) +:+ ", body=" +:+ text)
        else mret text
    end.

(** The first error of [start_cdm_job] in waterlevel_fg1.py and
    waterquality_fg1.py, and in demlevel_fg1.py. *)
Definition IDS_UNSET : string :=
  "PROJECT_ID and CDM_CLUSTER_ID must be set as env vars".
Definition IDS_UNSET_DAM : string :=
  "PROJECT_ID and CDM_CLUSTER_ID must be set as environment variables".

(** What [save_to_obs] returns. *)
Record ObsResult := mkObsResult {
  success : bool;
  obs_error : option string
}.

(** What a handler returns: the status code and, for the error
    answers, the message. *)
Record HandlerReply := mkReply {
  statusCode : Z;
  reply_error : option string
}.

End Eff.


(* ================================================================== *)
(** * Python's csv writer, default (excel) dialect                      *)
(* ================================================================== *)

Module Csv.
Import Py Eff.

Definition quotechar : ascii := ascii_of_nat 34.
Definition delimiter : ascii := ascii_of_nat 44.
Definition cr : ascii := ascii_of_nat 13.
Definition lf : ascii := ascii_of_nat 10.
Definition lineterminator : string := String cr (String lf EmptyString).

Definition is_special (c : ascii) : bool :=
  bool_decide (c = delimiter) || bool_decide (c = quotechar)
  || bool_decide (c = cr) || bool_decide (c = lf).

Fixpoint needs_quote (s : string) : bool :=
  match s with
  | EmptyString => false
  | String c rest => is_special c || needs_quote rest
  end.

Fixpoint double_quotes (s : string) : string :=
  match s with
  | EmptyString => EmptyString
  | String c rest =>
      if bool_decide (c = quotechar)
      then String c (String c (double_quotes rest))
      else String c (double_quotes rest)
  end.

(** QUOTE_MINIMAL with doublequote. *)
Definition quote_field (s : string) : string :=
  if needs_quote s
  then String quotechar (double_quotes s +:+ String quotechar EmptyString)
  else s.

(** How the writer turns a value into text: [None] is the empty
    string, everything else goes through [str]. *)
Definition field_text (v : pyval) : string :=
  match v with
  | PNone => ""
  | _ => str_of v
  end.

(** [writer.writerow(fields)]: the text appended to the buffer.  A
    record made of one empty field is written as a pair of quotes. *)
Definition writerow (fields : list pyval) : string :=
  let rec := join (String delimiter EmptyString) (quote_field ∘ field_text <$> fields) in
  let rec := if bool_decide (fields ≠ []) && bool_decide (rec = "")
             then String quotechar (String quotechar EmptyString) else rec in
  rec +:+ lineterminator.

(** [rowdict.keys() - self.fieldnames]: the keys of the row that are no
    columns.  Python holds them in a set, whose order of iteration is
    not fixed from run to run; they are listed here in the order of the
    row. *)
Definition wrong_fields (fieldnames : list string) (rowdict : dict pyval)
  : list string :=
  filter (fun k => k ∉ fieldnames) (keys rowdict).

(** [DictWriter._dict_to_list] with [extrasaction="raise"] and
    [restval=""]: the [ValueError] names the keys that are no
    columns. *)
Definition dict_to_list (fieldnames : list string) (rowdict : dict pyval)
  : Outcome (list pyval) :=
  match wrong_fields fieldnames rowdict with
  | [] => Return ((fun k => default (PStr "") (get k rowdict)) <$> fieldnames)
  | wrong =>
      Raise ("dict contains fields not in fieldnames: "
               +:+ join ", " (repr <$> wrong))
  end.

(** [DictWriter.writeheader()] *)
Definition writeheader (fieldnames : list string) : string :=
  writerow (PStr <$> fieldnames).

(** [DictWriter.writerow(rowdict)] *)
Definition dict_writerow (fieldnames : list string) (rowdict : dict pyval)
  : Outcome string :=
  match dict_to_list fieldnames rowdict with
  | Return fields => Return (writerow fields)
  | Raise msg => Raise msg
  end.

(** [DictWriter.writerows(rows)] onto a buffer holding [buf]. *)
Fixpoint dict_writerows (fieldnames : list string) (rows : list (dict pyval))
    (buf : string) : Outcome string :=
  match rows with
  | [] => Return buf
  | r :: rest =>
      match dict_writerow fieldnames r with
      | Return line => dict_writerows fieldnames rest (buf +:+ line)
      | Raise msg => Raise msg
      end
  end.

End Csv.

(* ================================================================== *)
(** * The CSV step of [save_to_obs] (demlevel_fg1.py,
      waterquality_fg1.py, waterquality_fg.py)                          *)
(* ================================================================== *)

Module Encoder.
Import Py Eff.

(** [rows.extend(state_result["data"])] over the results that carry a
    list under ["data"]. *)
Definition flatten (results : list ScrapeResult) : list item :=
  foldl (fun rows state_result =>
           match r_data state_result with
           | Some data => rows ++ data
           | None => rows
           end) [] results.

(** The column list: the keys of the first row, the ones of
    [extra_cols] moved to the end. *)
Definition fieldnames_of (extra_cols : list string) (rows : list item)
  : list string :=
  match rows with
  | [] => []
  | first_row :: _ =>
      let base_cols := filter (fun k => k ∉ extra_cols) (keys first_row) in
      base_cols ++ filter (fun c => c ∈ keys first_row) extra_cols
  end.

(** From the flattening to [csv_content].  Without columns nothing is
    written ("still write an empty CSV with no header"). *)
Definition csv_content (extra_cols : list string) (results : list ScrapeResult)
  : Outcome string :=
  let rows := flatten results in
  let fieldnames := fieldnames_of extra_cols rows in
  match fieldnames with
  | [] => Return ""
  | _ => Csv.dict_writerows fieldnames rows (Csv.writeheader fieldnames)
  end.

(** [save_to_obs]: every exception ends in a failure result. *)
Definition save_to_obs (env : Env) (extra_cols : list string)
    (results : list ScrapeResult) : M ObsResult :=
  try_except
    (content ← lift (csv_content extra_cols results);
     '(status, code, message) ← put_content env content;
     if bool_decide (status < 300) then mret (mkObsResult true None)
     else mret (mkObsResult false
                  (Some ("OBS upload failed: " +:+ code +:+ " - " +:+ message))))
    (fun e => mret (mkObsResult false (Some ("OBS operation failed: " +:+ e)))).

End Encoder.

(* ================================================================== *)
(** * Rainfall (rainfall_fg1.py, rainfall_fg.py)                        *)
(* ================================================================== *)

Module Rainfall.
Import Py Dom Eff.

(** The test of the loop of [pick_rainfall_table]. *)
Definition looks_like_rainfall (t : Table) : bool :=
  let txt := join " " (t_strings t) in
  str_contains "Bil." txt && str_contains "ID Stesen" txt.

(** The [for table in tables] loop with its early [return]. *)
Fixpoint first_match (tables : list Table) : option Table :=
  match tables with
  | [] => None
  | t :: rest => if looks_like_rainfall t then Some t else first_match rest
  end.

Definition pick_rainfall_table (soup : Document) : option Table :=
  match soup with
  | [] => None
  | _ =>
      match first_match soup with
      | Some t => Some t
      | None => last_item soup
      end
  end.

(** [row_texts(row)]: the joined text of every [th] and [td] cell. *)
Definition row_texts (row : Row) : list string := text_spaced <$> row.

(** The header reconciliation of [parse_state_page]:
    [top_texts[0:5] + bottom_texts[:] + top_texts[-2:]]. *)
Definition reconcile (top_texts bottom_texts : list string) : list string :=
  let base_cols := slice (Some 0) (Some 5) top_texts in
  let date_cols := slice None None bottom_texts in
  let tail_cols := slice (Some (-2)) None top_texts in
  base_cols ++ date_cols ++ tail_cols.

(** The record built for an accepted row. *)
Definition make_item (state_code state_name : string)
    (columns tds : list string) : item :=
  update_all (zip columns (PStr <$> tds))
    [("state_code", PStr state_code); ("state_name", PStr state_name)].

(** One turn of [for tr in data_rows]. *)
Definition parse_row (state_code state_name : string) (columns : list string)
    (items : list item) (tr : Row) : list item :=
  let tds := row_texts tr in
  if bool_decide (length tds ≠ length columns) then items
  else items ++ [make_item state_code state_name columns tds].

(** [parse_state_page] from the chosen table on. *)
Definition parse_table (state_code state_name : string) (table : Table)
  : list item :=
  let all_rows := t_rows table in
  if bool_decide (length all_rows < 3)%nat then []
  else
    let header_rows := slice (Some 0) (Some 2) all_rows in
    let data_rows := slice (Some 2) None all_rows in
    match header_rows !! 0%nat, header_rows !! 1%nat with
    | Some top, Some bottom =>
        let columns := reconcile (row_texts top) (row_texts bottom) in
        foldl (parse_row state_code state_name columns) [] data_rows
    | _, _ => []   (* not reached: there are at least three rows *)
    end.

Definition parse_state_page (soup : Document) (state_code state_name : string)
  : list item :=
  match pick_rainfall_table soup with
  | None => []
  | Some table => parse_table state_code state_name table
  end.

(** ** [items_to_csv] *)

(** [if key not in fieldnames: fieldnames.append(key)] *)
Definition add_key (fieldnames : list string) (key : string) : list string :=
  if bool_decide (key ∈ fieldnames) then fieldnames else fieldnames ++ [key].

Definition collect_fieldnames (all_items : list item) : list string :=
  foldl (fun fieldnames it => foldl add_key fieldnames (keys it)) [] all_items.

(** [l.pop(l.index(key))] leaves [l] without the first [key]. *)
Fixpoint remove_first (key : string) (l : list string) : list string :=
  match l with
  | [] => []
  | k :: rest => if bool_decide (k = key) then rest else k :: remove_first key rest
  end.

(** [if key in fieldnames:
      fieldnames.insert(0, fieldnames.pop(fieldnames.index(key)))] *)
Definition move_to_front (fieldnames : list string) (key : string) : list string :=
  if bool_decide (key ∈ fieldnames) then key :: remove_first key fieldnames
  else fieldnames.

Definition fieldnames_of (all_items : list item) : list string :=
  foldl move_to_front (collect_fieldnames all_items) ["state_code"; "state_name"].

(** The column set in the words of the specification: every distinct
    key of the records, in the order in which the keys are first seen. *)
Fixpoint first_seen (ks : list string) : list string :=
  match ks with
  | [] => []
  | k :: rest => k :: filter (fun k' => k' ≠ k) (first_seen rest)
  end.

Definition all_keys (all_items : list item) : list string :=
  mjoin (keys <$> all_items).

Definition items_to_csv (all_items : list item) : Outcome string :=
  match all_items with
  | [] => Return ""
  | _ =>
      let fieldnames := fieldnames_of all_items in
      Csv.dict_writerows fieldnames all_items (Csv.writeheader fieldnames)
  end.

(** ** The fetch loop of [handler] *)

Definition MAX_RETRIES : nat := 3.
Definition REQUEST_TIMEOUT : Z := 5.

Definition STATE_MAP : list (string * string) :=
  [ ("SEL", "Selangor"); ("NSN", "Negeri Sembilan"); ("JHR", "Johor");
    ("PHG", "Pahang"); ("PER", "Perlis"); ("KED", "Kedah");
    ("PP", "Pulau Pinang"); ("PRK", "Perak");
    ("WPKL", "Wilayah Persekutuan Kuala Lumpur"); ("MEL", "Melaka");
    ("TRG", "Terengganu"); ("KEL", "Kelantan");
    ("WPL", "Wilayah Persekutuan Labuan"); ("SBH", "Sabah");
    ("SWK", "Sarawak") ].

Section Handler.
Context (env : Env).

(** [for attempt in range(1, MAX_RETRIES + 1)]: a response ends the
    loop ([break]); an exception is logged and the loop goes on. *)
Fixpoint fetch_attempts (state_name : string) (attempts : list nat)
  : M (option Response) :=
  match attempts with
  | [] => mret None
  | _ :: rest =>
      try_except
        (resp ← requests_get env RainfallPage (PStr state_name) REQUEST_TIMEOUT;
         mret (Some resp))
        (fun _ => fetch_attempts state_name rest)
  end.

(** The body of [for state_code, state_name in STATE_MAP.items()]. *)
Definition scrape_state (all_items : list item) (st : string * string)
  : M (list item) :=
  let '(state_code, state_name) := st in
  resp ← fetch_attempts state_name (seq 1 MAX_RETRIES);
  match resp with
  | None => mret all_items
  | Some r =>
      if bool_decide (status_code r ≠ 200) then mret all_items
      else mret (all_items ++ parse_state_page (soup r) state_code state_name)
  end.

Fixpoint scrape_states (states : list (string * string)) (all_items : list item)
  : M (list item) :=
  match states with
  | [] => mret all_items
  | st :: rest =>
      all_items ← scrape_state all_items st;
      scrape_states rest all_items
  end.

End Handler.

End Rainfall.


(* ================================================================== *)
(** * Water level (waterlevel_fg1.py, waterlevel_fg.py)                 *)
(* ================================================================== *)

Module WaterLevel.
Import Py Dom Eff.

(** [cells[i].get_text(strip=True)]; the index is in range wherever
    this is used, the row having passed the length test. *)
Definition cell_text (cells : list Cell) (i : nat) : string :=
  default "" (text_tight <$> cells !! i).

(** The [data_point] literal; [stamp] is the [scraped_timestamp] of
    waterlevel_fg1.py, absent in waterlevel_fg.py. *)
Definition data_point (state_name : string) (values : list string)
    (aras_air_m : string) (stamp : option string) : item :=
  let v i := PStr (default "" (values !! i)) in
  [ ("state_name", PStr state_name);
    ("bil", v 0%nat);
    ("id_stesen", v 1%nat);
    ("nama_stesen", v 2%nat);
    ("daerah", v 3%nat);
    ("lembangan", v 4%nat);
    ("sub_lembangan", v 5%nat);
    ("kemaskini_terakhir", v 6%nat);
    ("aras_air_m", PStr aras_air_m);
    ("ambang_normal", v 8%nat);
    ("ambang_waspada", v 9%nat);
    ("ambang_amaran", v 10%nat);
    ("ambang_bahaya", v 11%nat) ]
  ++ match stamp with
     | Some t => [("scraped_timestamp", PStr t)]
     | None => []
     end.

(** The record [_scrape_state_legacy] builds from the cells of an
    accepted row: the water level is the text of the link in cell 7
    when there is one. *)
Definition legacy_point (state_name : string) (cells : list Cell)
    (stamp : option string) : item :=
  let aras_air_text :=
    match cells !! 7%nat ≫= c_link with
    | Some link => join "" link
    | None => cell_text cells 7
    end in
  data_point state_name (text_tight <$> cells) aras_air_text stamp.

(** One turn of the row loop of [_scrape_state_legacy]. *)
Definition legacy_row (state_name : string) (clock : option (nat → string))
    (results : list item) (tr : Row) : list item :=
  let cells := find_td tr in
  if bool_decide (length cells ≠ 12%nat) then results
  else
    let bil := cell_text cells 0 in
    if negb (isdigit bil) then results
    else
      results ++ [legacy_point state_name cells
                    ((fun f => f (length results)) <$> clock)].

(** The record [_scrape_state_new] builds from the cells of an accepted
    row. *)
Definition new_point (state_name : string) (tds : list Cell)
    (stamp : option string) : item :=
  let values := text_tight <$> tds in
  data_point state_name values (default "" (values !! 7%nat)) stamp.

(** One turn of the row loop of [_scrape_state_new]. *)
Definition new_row (state_name : string) (clock : option (nat → string))
    (results : list item) (tr : Row) : list item :=
  let tds := find_td tr in
  if bool_decide (length tds < 12)%nat then results
  else
    let values := text_tight <$> tds in
    let bil := default "" (values !! 0%nat) in
    if negb (isdigit bil) then results
    else
      results ++ [new_point state_name tds
                    ((fun f => f (length results)) <$> clock)].

(** The rows the two loops keep, as the tests of the loops put it. *)
Definition legacy_accepts (tr : Row) : Prop :=
  length (find_td tr) = 12%nat ∧ isdigit (cell_text (find_td tr) 0) = true.

Definition new_accepts (tr : Row) : Prop :=
  (12 ≤ length (find_td tr))%nat ∧ isdigit (cell_text (find_td tr) 0) = true.

#[global] Instance legacy_accepts_dec tr : Decision (legacy_accepts tr).
Proof. unfold legacy_accepts. apply _. Defined.

#[global] Instance new_accepts_dec tr : Decision (new_accepts tr).
Proof. unfold new_accepts. apply _. Defined.

Definition STATE_CODE_MAP : dict string :=
  [ ("Perlis", "PLS"); ("Kedah", "KDH"); ("Pulau Pinang", "PNG");
    ("Perak", "PRK"); ("Selangor", "SEL");
    ("Wilayah Persekutuan Kuala Lumpur", "WLH");
    ("Wilayah Persekutuan Putrajaya", "PTJ"); ("Negeri Sembilan", "NSN");
    ("Melaka", "MLK"); ("Johor", "JHR"); ("Pahang", "PHG");
    ("Terengganu", "TRG"); ("Kelantan", "KEL"); ("Sarawak", "SRK");
    ("Sabah", "SAB"); ("Wilayah Persekutuan Labuan", "WLP") ].

Definition error_result (msg : string) : ScrapeResult :=
  mkResult (Some msg) None None None.

Definition data_result (state_name : string) (results : list item) : ScrapeResult :=
  mkResult None (Some (PStr state_name)) (Some (length results)) (Some results).

Section Scrapers.
Context (env : Env).
(** [true] for waterlevel_fg1.py, whose records carry a timestamp. *)
Context (stamped : bool).

Definition clock_at (tr : list Event) : option (nat → string) :=
  if stamped then Some (now env tr) else None.

(** What follows the request inside the [try] of
    [_scrape_state_legacy]. *)
Definition legacy_page (state_name : string) (soup : Document)
    (clock : option (nat → string)) : ScrapeResult :=
  match find_table_by_id "normaltable1" soup with
  | None => error_result ("No data table found for " +:+ state_name +:+ " (legacy URL)")
  | Some table =>
      match t_tbody table with
      | None => error_result ("No table body found for " +:+ state_name +:+ " (legacy URL)")
      | Some rows =>
          data_result state_name (foldl (legacy_row state_name clock) [] rows)
      end
  end.

(** Every exception the model can raise comes from [requests] (a
    failed request or [raise_for_status]), so the second [except]
    clause, for parsing errors, has no counterpart. *)
Definition _scrape_state_legacy (state_name : string) : M ScrapeResult :=
  try_except
    (response ← requests_get env WaterLevelLegacy (PStr state_name) 30;
     raise_for_status response;;
     tr ← trace;
     mret (legacy_page state_name (soup response) (clock_at tr)))
    (fun e => mret (error_result
       ("Legacy URL request failed for " +:+ state_name +:+ ": " +:+ e))).

Definition new_page (state_name : string) (soup : Document)
    (clock : option (nat → string)) : ScrapeResult :=
  match head soup with
  | None => error_result ("No data table found for " +:+ state_name +:+ " (new URL)")
  | Some table =>
      let rows := match t_tbody table with
                  | Some rows => rows
                  | None => t_rows table
                  end in
      data_result state_name (foldl (new_row state_name clock) [] rows)
  end.

Definition _scrape_state_new (state_name : string) : M ScrapeResult :=
  match get state_name STATE_CODE_MAP with
  | None => mret (error_result ("Unknown state name for new URL: " +:+ state_name))
  | Some state_code =>
      try_except
        (resp ← requests_get env WaterLevelNew (PStr state_code) 60;
         raise_for_status resp;;
         tr ← trace;
         mret (new_page state_name (soup resp) (clock_at tr)))
        (fun e => mret (error_result
           ("New URL request failed for " +:+ state_name +:+ ": " +:+ e)))
  end.

(** [result.get("count", 0) > 0] *)
Definition has_rows (r : ScrapeResult) : bool :=
  bool_decide (0 < default 0%nat (r_count r))%nat.

(** The combined message of step 3 of [scrape_state_data]. *)
Definition combined_error (legacy_result new_result : ScrapeResult) : string :=
  let error_msg := "Unknown error" in
  let error_msg := match r_error legacy_result with
                   | Some e => "Legacy: " +:+ e
                   | None => error_msg
                   end in
  match r_error new_result with
  | Some e => error_msg +:+ "; New: " +:+ e
  | None => error_msg
  end.

Definition scrape_state_data (state_name : string) : M ScrapeResult :=
  legacy_result ← _scrape_state_legacy state_name;
  if has_rows legacy_result then mret legacy_result
  else
    new_result ← _scrape_state_new state_name;
    if has_rows new_result then mret new_result
    else
      mret (mkResult (Some (combined_error legacy_result new_result))
              (Some (PStr state_name)) (Some 0%nat) (Some [])).

End Scrapers.

(** ** The encoder of waterlevel_fg.py ([save_to_obs], up to
    [csv_content]) *)

Definition FIXED_FIELDNAMES : list string :=
  [ "state_name"; "bil"; "id_stesen"; "nama_stesen"; "daerah"; "lembangan";
    "sub_lembangan"; "kemaskini_terakhir"; "aras_air_m"; "ambang_normal";
    "ambang_waspada"; "ambang_amaran"; "ambang_bahaya" ].

Definition csv_content (results : list ScrapeResult) : Outcome string :=
  let rows := Encoder.flatten results in
  let header := Csv.writeheader FIXED_FIELDNAMES in
  match rows with
  | [] => Return header
  | _ => Csv.dict_writerows FIXED_FIELDNAMES rows header
  end.

End WaterLevel.


(* ================================================================== *)
(** * Dam level (demlevel_fg1.py)                                       *)
(* ================================================================== *)

Module DamLevel.
Import Py Dom Eff.

Definition STATE_MAPPING : list (Z * string) :=
  [ (1, "Johor"); (2, "Kedah"); (3, "Kelantan"); (4, "Labuan"); (5, "Melaka");
    (6, "Negeri Sembilan"); (7, "Pahang"); (8, "Perak"); (9, "Perlis");
    (10, "Pulau Pinang"); (11, "Selangor"); (12, "Terengganu") ].

(** [STATE_MAPPING.get(state_id, f"Unknown-{state_id}")] *)
Definition state_name_of (state_id : Z) : string :=
  default ("Unknown-" +:+ str_of (PInt state_id))
    (snd <$> head (filter (fun kv => kv.1 = state_id) STATE_MAPPING)).

Definition COLOR_MAP : dict string :=
  [ ("green", "Paras Normal"); ("orange", "Paras Waspada");
    ("yellow", "Paras Amaran"); ("red", "Paras Kritikal") ].

(** [extract_colour_and_label] *)
Definition extract_colour_and_label (td : Cell) : option string * pyval :=
  let style_source := match c_span td with
                      | Some span_style => span_style
                      | None => c_style td
                      end in
  let style := lower (default "" style_source) in
  let colour :=
    head (filter (fun c => str_contains ("background:" +:+ c) style = true
                           ∨ str_contains ("background-color:" +:+ c) style = true)
            (keys COLOR_MAP)) in
  let label := match colour ≫= (fun c => get c COLOR_MAP) with
               | Some l => PStr l
               | None => PNone
               end in
  (colour, label).

Definition EXTRA_COLS : list string :=
  [ "Kategori Simpanan Semalam"; "Kategori Simpanan Semasa";
    "state_id"; "state_name" ].

(** [for i, col_name in enumerate(base_columns):
      if i < len(values): data_point[col_name] = values[i]] *)
Definition map_base_columns (base_columns values : list string) : item :=
  foldl (fun data_point '(i, col_name) =>
           match values !! i with
           | Some v => set col_name (PStr v) data_point
           | None => data_point
           end) [] (imap (fun i c => (i, c)) base_columns).

(** The record [scrape_dam_data] builds from the cells of an accepted
    row (which has cells 6 and 7). *)
Definition dam_point (state_id : Z) (state_name : string)
    (base_columns : list string) (tds : list Cell) : item :=
  let values := text_spaced <$> tds in
  let semalam_label := match tds !! 6%nat with
                       | Some c => (extract_colour_and_label c).2
                       | None => PNone
                       end in
  let semasa_label := match tds !! 7%nat with
                      | Some c => (extract_colour_and_label c).2
                      | None => PNone
                      end in
  let data_point := map_base_columns base_columns values in
  let data_point := set "Kategori Simpanan Semalam" semalam_label data_point in
  let data_point := set "Kategori Simpanan Semasa" semasa_label data_point in
  let data_point := set "state_id" (PInt state_id) data_point in
  set "state_name" (PStr state_name) data_point.

(** One turn of the row loop of [scrape_dam_data]. *)
Definition dam_row (state_id : Z) (state_name : string)
    (base_columns : list string) (results : list item) (tr : Row) : list item :=
  let tds := find_td tr in
  if bool_decide (tds = []) then results
  else if bool_decide (length tds < 8)%nat then results
  else results ++ [dam_point state_id state_name base_columns tds].

Definition error_result (msg state_name : string) : ScrapeResult :=
  mkResult (Some msg) (Some (PStr state_name)) None None.

Definition id_text (state_id : Z) : string := str_of (PInt state_id).

(** What follows the request inside the [try] of [scrape_dam_data]. *)
Definition dam_page (state_id : Z) (state_name : string) (soup : Document)
  : ScrapeResult :=
  match find_table_by_class "table" soup with
  | None =>
      error_result ("No dam table found for " +:+ state_name
                      +:+ " (ID=" +:+ id_text state_id +:+ ")") state_name
  | Some table =>
      match t_thead table with
      | None => error_result ("No table header found for " +:+ state_name) state_name
      | Some head_cells =>
          let base_columns := text_spaced <$> find_th head_cells in
          match t_tbody table with
          | None => error_result ("No table body found for " +:+ state_name) state_name
          | Some rows =>
              let results := foldl (dam_row state_id state_name base_columns) [] rows in
              mkResult None (Some (PStr state_name)) (Some (length results)) (Some results)
          end
      end
  end.

Definition fieldnames_of := Encoder.fieldnames_of EXTRA_COLS.
Definition csv_content := Encoder.csv_content EXTRA_COLS.

Section Handler.
Context (env : Env).

Definition scrape_dam_data (state_id : Z) (state_name : string) : M ScrapeResult :=
  try_except
    (response ← requests_get env DamPage (PInt state_id) 60;
     raise_for_status response;;
     mret (dam_page state_id state_name (soup response)))
    (fun e => mret (error_result
       ("Request failed for " +:+ state_name +:+ " (ID=" +:+ id_text state_id
          +:+ "): " +:+ e) state_name)).

Definition save_to_obs := Encoder.save_to_obs env EXTRA_COLS.

Fixpoint scrape_all (state_ids : list Z) (results : list ScrapeResult)
  : M (list ScrapeResult) :=
  match state_ids with
  | [] => mret results
  | state_id :: rest =>
      let state_name := state_name_of state_id in
      result ← scrape_dam_data state_id state_name;
      scrape_all rest (results ++ [result])
  end.

Definition job_name : string :=
  match cdm_job_name env with
  | Some name => if bool_decide (name = "") then "demlevel_functiongraph_trigger" else name
  | None => "demlevel_functiongraph_trigger"
  end.

(** [handler], once the event has been turned into
    [state_ids_to_fetch]. *)
Definition handler (state_ids_to_fetch : list Z) : M HandlerReply :=
  try_except
    (results ← scrape_all state_ids_to_fetch [];
     obs_result ← save_to_obs results;
     (if negb (success obs_result)
      then raise ("OBS upload failed, not starting CDM: "
                    +:+ default "None" (obs_error obs_result))
      else mret ());;
     start_cdm_job env IDS_UNSET_DAM job_name;;
     mret (mkReply 200 None))
    (fun e => mret (mkReply 500 (Some e))).

End Handler.

End DamLevel.


(* ================================================================== *)
(** * Water quality (waterquality_fg1.py)                               *)
(* ================================================================== *)

Module WaterQuality.
Import Py Dom Eff.

Definition STATE_MAPPING : list (Z * string) :=
  [ (1, "Johor"); (2, "Kedah"); (3, "Kelantan"); (4, "Melaka");
    (5, "Negeri Sembilan"); (6, "Pahang"); (7, "Pulau Pinang"); (8, "Perak");
    (9, "Perlis"); (10, "Selangor"); (11, "Terengganu"); (12, "Sabah");
    (13, "Sarawak"); (14, "WP Kuala Lumpur"); (15, "WP Labuan");
    (16, "WP Putrajaya") ].

(** [STATE_MAPPING.get(state_id, f"Unknown-{state_id}")] *)
Definition state_name_of (state_id : Z) : string :=
  default ("Unknown-" +:+ str_of (PInt state_id))
    (snd <$> head (filter (fun kv => kv.1 = state_id) STATE_MAPPING)).

(** The body of [for record in rows] in [fetch_state_water_quality]. *)
Definition tag_record (state_id : Z) (record : item) : item :=
  let record := if has "STATE_ID" record then record
                else set "STATE_ID" (PInt state_id) record in
  let record := if has "STATE_NAME" record then record
                else set "STATE_NAME" (PStr (state_name_of state_id)) record in
  let record := set "state_id" (PInt state_id) record in
  set "state_name" (PStr (state_name_of state_id)) record.

Definition error_result (msg : string) (state_id : Z) : ScrapeResult :=
  mkResult (Some msg) (Some (PStr (state_name_of state_id))) None None.

Definition id_text (state_id : Z) : string := str_of (PInt state_id).

(** What follows [raise_for_status] in [fetch_state_water_quality]. *)
Definition quality_page (state_id : Z) (decoded : Outcome JsonPayload)
  : ScrapeResult :=
  match decoded with
  | Raise json_error =>
      error_result ("Failed to decode JSON for state_id=" +:+ id_text state_id
                      +:+ ": " +:+ json_error) state_id
  | Return payload =>
      match j_error payload with
      | Some err =>
          error_result ("API error for state_id=" +:+ id_text state_id
                          +:+ ": " +:+ str_of err) state_id
      | None =>
          let rows := default [] (j_crwqi payload) in
          match rows with
          | [] => mkResult None (Some (PStr (state_name_of state_id)))
                    (Some 0%nat) (Some [])
          | _ =>
              let rows := tag_record state_id <$> rows in
              mkResult None (Some (PStr (state_name_of state_id)))
                (Some (length rows)) (Some rows)
          end
      end
  end.

(** What [scrape_waterquality] returns. *)
Inductive Scraped :=
| ScrapeFailed (error : string)
| ScrapeOk (headers : list string) (rows : list item).

(** [sorted(list(headers))]: the elements of the set in the order of
    Python's string comparison. *)
Definition sorted (headers : gset string) : list string :=
  merge_sort str_le (elements headers).

(** [rows_by_state[state_name].append(row)] on an insertion-ordered
    mapping. *)
Fixpoint group_append (key : pyval) (row : item)
    (groups : list (pyval * list item)) : list (pyval * list item) :=
  match groups with
  | [] => [(key, [row])]
  | (k, rs) :: rest =>
      if decide (k = key) then (k, rs ++ [row]) :: rest
      else (k, rs) :: group_append key row rest
  end.

(** The regrouping of [handler]: rows by state, then one result per
    state. *)
Definition state_results_of (rows : list item) : list ScrapeResult :=
  let rows_by_state :=
    foldl (fun groups row =>
             group_append (default (PStr "Unknown") (get "state_name" row)) row groups)
      [] rows in
  (fun '(state_name, state_rows) =>
     mkResult None (Some state_name) (Some (length state_rows)) (Some state_rows))
    <$> rows_by_state.

Definition EXTRA_COLS : list string := [ "state_id"; "state_name" ].

Definition fieldnames_of := Encoder.fieldnames_of EXTRA_COLS.
Definition csv_content := Encoder.csv_content EXTRA_COLS.

Section Handler.
Context (env : Env).

Definition fetch_state_water_quality (state_id : Z) : M ScrapeResult :=
  try_except
    (response ← requests_get env WaterQualityApi (PInt state_id) 30;
     raise_for_status response;;
     mret (quality_page state_id (json response)))
    (fun e => mret (error_result
       ("Request failed for state_id=" +:+ id_text state_id +:+ ": " +:+ e)
       state_id)).

(** The loop of [scrape_waterquality] over the states. *)
Fixpoint scrape_loop (state_ids : list Z) (all_rows : list item)
    (headers : gset string) : M (list item * gset string) :=
  match state_ids with
  | [] => mret (all_rows, headers)
  | state_id :: rest =>
      result ← fetch_state_water_quality state_id;
      match r_error result with
      | Some _ => scrape_loop rest all_rows headers   (* continue *)
      | None =>
          match r_data result with
          | Some data =>
              if bool_decide (data ≠ [])
              then scrape_loop rest (all_rows ++ data)
                     (foldl (fun hs row => hs ∪ list_to_set (keys row)) headers data)
              else scrape_loop rest all_rows headers
          | None => scrape_loop rest all_rows headers
          end
      end
  end.

Definition scrape_waterquality : M Scraped :=
  try_except
    ('(all_rows, headers) ← scrape_loop (fst <$> STATE_MAPPING) [] ∅;
     match all_rows with
     | [] => mret (ScrapeFailed "No water quality data found from any state")
     | _ => mret (ScrapeOk (sorted headers) all_rows)
     end)
    (fun e => mret (ScrapeFailed ("Failed to scrape water quality data: " +:+ e))).

Definition save_to_obs := Encoder.save_to_obs env EXTRA_COLS.

Definition job_name : string :=
  default "waterquality_functiongraph_trigger" (cdm_job_name env).

Definition handler : M HandlerReply :=
  try_except
    (result ← scrape_waterquality;
     match result with
     | ScrapeFailed error => mret (mkReply 500 (Some ("Scraping failed: " +:+ error)))
     | ScrapeOk headers rows =>
         let state_results := state_results_of rows in
         obs_result ← save_to_obs state_results;
         (* the failure is logged, nothing else *)
         start_cdm_job env IDS_UNSET job_name;;
         let status_code := if success obs_result then 200 else 206 in
         mret (mkReply status_code None)
     end)
    (fun e => mret (mkReply 500 (Some ("Pipeline execution failed: " +:+ e)))).

End Handler.

End WaterQuality.


(* ================================================================== *)
(** * Sample pages and environments                                     *)
(* ================================================================== *)

Module Examples.
Import Py Dom Eff.

(** The water-quality API answers for Johor (state 1) with one record;
    every other request times out; the upload is refused. *)
Definition upload_refused : Env :=
  mkEnv (fun _ ep arg =>
           if bool_decide (ep = WaterQualityApi ∧ arg = PInt 1)
           then HttpResponds
                  (json_response 200
                     (mkPayload None
                        (Some [[("STATION", PStr "S1"); ("WQI", PInt 80)]])))
           else HttpRaises "timed out")
        (fun _ _ => ObsResponds 500 "InternalError" "upload refused")
        (fun _ _ => CdmResponds 200 "{}")
        (fun _ _ => "2025-01-01T00:00:00+08:00")
        true None.

(** A dam page whose header has nine columns and whose only data row
    has eight cells, the last two coloured. *)
Definition dam_table : Table :=
  mkTable None ["table"] []
    (Some (th <$> ["Bil"; "Empangan"; "Paras"; "Isipadu"; "Peratus"; "Hujan";
                   "Semalam"; "Semasa"; "Catatan"]))
    (Some [ (td <$> ["1"; "Empangan Linggiu"; "10.0"; "200"; "80"; "0"])
            ++ [ mkCell TD ["79"] (Some "background:green") None None;
                 mkCell TD ["80"] None (Some (Some "Background-Color:Orange")) None ] ])
    [].

(** Every dam page is [dam_table]; the upload and the job start succeed. *)
Definition dam_online : Env :=
  mkEnv (fun _ _ _ => HttpResponds (html_response 200 [dam_table]))
        (fun _ _ => ObsResponds 200 "" "")
        (fun _ _ => CdmResponds 200 "{}")
        (fun _ _ => "2025-01-01T00:00:00+08:00")
        true None.

(** A rainfall table: two header rows, a well-formed row, a short row
    and another well-formed row. *)
Definition rain_table : Table :=
  mkTable None [] ["Bil."; "ID Stesen"] None None
    [ th <$> ["Bil."; "ID Stesen"; "Nama Stesen"; "Daerah"; "Kemaskini Terakhir";
              "Taburan Hujan Harian"; "Taburan Hujan dari Tengah Malam";
              "Jumlah 1 Jam"];
      th <$> ["01/01/2025"; "02/01/2025"];
      td <$> ["1"; "J01"; "Sungai X"; "Kluang"; "02/01/2025 10:00"; "0.5"; "1.5";
              "2.0"; "0.0"];
      td <$> ["2"; "J02"];
      td <$> ["3"; "J03"; "Sungai Y"; "Muar"; "02/01/2025 10:00"; "0.0"; "0.0";
              "0.0"; "0.0"] ].

(** A navigation table without the rainfall labels. *)
Definition nav_table : Table :=
  mkTable None [] ["Utama"; "Hubungi"] None None [td <$> ["Utama"; "Hubungi"]].

(** A legacy water-level page with one numbered row and one
    placeholder row. *)
Definition level_table : Table :=
  mkTable (Some "normaltable1") [] [] None
    (Some [ td <$> ["1"; "S01"; "Sungai X"; "Kluang"; "B"; "SB"; "01/01/2025";
                    "1.5"; "1.0"; "2.0"; "3.0"; "4.0"];
            td <$> ["Bil"; "-"; "-"; "-"; "-"; "-"; "-"; "-"; "-"; "-"; "-"; "-"] ])
    [].

(** The legacy water-level endpoint serves [level_table]. *)
Definition level_online : Env :=
  mkEnv (fun _ _ _ => HttpResponds (html_response 200 [level_table]))
        (fun _ _ => ObsResponds 200 "" "")
        (fun _ _ => CdmResponds 200 "{}")
        (fun _ _ => "2025-01-01T00:00:00+08:00")
        true None.

End Examples.

(* ================================================================== *)
(** * The water-level handlers (waterlevel_fg1.py, waterlevel_fg.py)     *)
(* ================================================================== *)

Module WaterLevelHandlers.
Import Py Dom Eff.

(** The states [handler] of waterlevel_fg1.py goes through. *)
Definition state_names : list string :=
  [ "Johor"; "Kedah"; "Kelantan"; "Melaka"; "Negeri Sembilan"; "Pahang";
    "Pulau Pinang"; "Perak"; "Perlis"; "Selangor"; "Terengganu"; "Sabah";
    "Sarawak"; "Wilayah Persekutuan Kuala Lumpur";
    "Wilayah Persekutuan Labuan"; "Wilayah Persekutuan Putrajaya" ].

Section Handlers.
Context (env : Env).
(** [OBS_AK] and [OBS_SK] are both set. *)
Context (obs_keys_set : bool).

(** Step 1 of [handler] (waterlevel_fg1.py): a result with an
    ["error"] key is skipped, the rows of the others are collected. *)
Fixpoint collect (states : list string) (all_items : list item) : M (list item) :=
  match states with
  | [] => mret all_items
  | state_name :: rest =>
      result ← WaterLevel.scrape_state_data env true state_name;
      match r_error result with
      | Some _ => collect rest all_items   (* continue *)
      | None =>
          match r_data result with
          | Some data =>
              if bool_decide (data ≠ []) then collect rest (all_items ++ data)
              else collect rest all_items
          | None => collect rest all_items
          end
      end
  end.

(** [upload_to_obs] (waterlevel_fg1.py): the object key it returns is
    left out. *)
Definition upload_to_obs (content_str : string) : M unit :=
  if negb obs_keys_set
  then raise "OBS_AK and OBS_SK environment variables must be set"
  else
    '(status, code, message) ← put_content env content_str;
    if bool_decide (300 ≤ status)
    then raise ("OBS upload failed: status=" +:+ str_of (PInt status)
                  +:+ ", errorCode=" +:+ code
                  +:+ ", errorMessage=" +:+ message)
    else mret ().

Definition job_name : string :=
  default "waterlevel_functiongraph_trigger" (cdm_job_name env).

(** [handler] of waterlevel_fg1.py. *)
Definition handler : M HandlerReply :=
  try_except
    (all_items ← collect state_names [];
     (if bool_decide (all_items = [])
      then raise "No water level data found from any state"
      else mret ());;
     csv_body ← lift (Rainfall.items_to_csv all_items);
     upload_to_obs csv_body;;
     start_cdm_job env IDS_UNSET job_name;;
     mret (mkReply 200 None))
    (fun e => mret (mkReply 500 (Some e))).

(** [save_to_obs] of waterlevel_fg.py: the header is always written. *)
Definition save_to_obs0 (results : list ScrapeResult) : M ObsResult :=
  try_except
    (content ← lift (WaterLevel.csv_content results);
     '(status, code, message) ← put_content env content;
     if bool_decide (status < 300) then mret (mkObsResult true None)
     else mret (mkObsResult false
                  (Some ("OBS upload failed: " +:+ code +:+ " - " +:+ message))))
    (fun e => mret (mkObsResult false (Some ("OBS operation failed: " +:+ e)))).

(** [for state in states_to_scrape: results.append(scrape_state_data(state))]
    (waterlevel_fg.py, whose records carry no timestamp). *)
Fixpoint scrape_each (states : list string) (results : list ScrapeResult)
  : M (list ScrapeResult) :=
  match states with
  | [] => mret results
  | state :: rest =>
      res ← WaterLevel.scrape_state_data env false state;
      scrape_each rest (results ++ [res])
  end.

(** [handler] of waterlevel_fg.py, once the event has been turned into
    [states_to_scrape]; [obs_configured] says that the four OBS
    settings are present.  The answer is 200 whatever [save_to_obs]
    returned. *)
Definition handler0 (obs_configured : bool) (states_to_scrape : list string)
  : M HandlerReply :=
  try_except
    (if negb obs_configured
     then mret (mkReply 400
                  (Some ("Missing OBS configuration. Required: "
                           +:+ "OBS_AK, OBS_SK, OBS_ENDPOINT, OBS_BUCKET")))
     else
       results ← scrape_each states_to_scrape [];
       obs_result ← save_to_obs0 results;
       mret (mkReply 200 None))
    (fun e => mret (mkReply 500 (Some e))).

End Handlers.

End WaterLevelHandlers.

(* ================================================================== *)
(** * The rainfall handler (rainfall_fg1.py)                            *)
(* ================================================================== *)

Module RainfallHandler.
Import Py Dom Eff.

Section Handler.
Context (env : Env).
(** [OBS_AK] and [OBS_SK] are both set. *)
Context (obs_keys_set : bool).
(** The text of the [TypeError] that Python raises for the upload call
    of rainfall_fg1.py; it depends on the interpreter and on the SDK. *)
Context (type_error : string).

(** [upload_to_obs] of rainfall_fg1.py.  Its call is
    [obs_client.putContent(OBS_BUCKET, object_str=content_str)]: no
    object key, and a keyword that the SDK's
    [putContent(bucketName, objectKey, content, ...)] does not have.
    Python refuses such a call with a [TypeError] before the function
    is entered, so nothing is uploaded. *)
Definition upload_to_obs (content_str : string) : M unit :=
  if negb obs_keys_set
  then raise "OBS_AK and OBS_SK environment variables must be set"
  else raise type_error.

(** [handler] of rainfall_fg1.py: nothing is caught. *)
Definition handler : M HandlerReply :=
  all_items ← Rainfall.scrape_states env Rainfall.STATE_MAP [];
  csv_body ← lift (Rainfall.items_to_csv all_items);
  upload_to_obs csv_body;;
  mret (mkReply 200 None).

End Handler.

End RainfallHandler.

(* ================================================================== *)
(** * The request of the dam handler (demlevel_fg1.py)                  *)
(* ================================================================== *)

Module DamRequest.
Import Py Dom Eff.

(** The keys of the request body that [handler] looks at. *)
Record Body := mkBody {
  b_state_id : option Z;
  b_state : option string;
  b_state_ids : option (list Z);
  b_states : option (list string)
}.

(** [next((k for k, v in STATE_MAPPING.items()
           if v.lower() == name.lower()), None)] *)
Definition find_state_id (name : string) : option Z :=
  fst <$> head (filter (fun kv => lower kv.2 = lower name) DamLevel.STATE_MAPPING).

(** [if state_id:] on the result of the lookup: [None] and [0] are
    false. *)
Definition found (state_id : option Z) : option Z :=
  match state_id with
  | Some k => if bool_decide (k ≠ 0) then Some k else None
  | None => None
  end.

Inductive Selection :=
| Rejected (error : string)
| Selected (state_ids_to_fetch : list Z).

(** The [if "state_id" in body: ... elif ...] chain. *)
Definition select_states (body : Body) : Selection :=
  match b_state_id body with
  | Some state_id => Selected [state_id]
  | None =>
      match b_state body with
      | Some state_name =>
          match found (find_state_id state_name) with
          | Some state_id => Selected [state_id]
          | None => Rejected ("State '" +:+ state_name +:+ "' not found in mapping")
          end
      | None =>
          match b_state_ids body with
          | Some state_ids => Selected state_ids
          | None =>
              match b_states body with
              | Some state_names =>
                  Selected (omap (fun name => found (find_state_id name)) state_names)
              | None => Selected (DamLevel.STATE_MAPPING.*1)
              end
          end
      end
  end.

(** [handler] from the decoded body on. *)
Definition handler_body (env : Env) (body : Body) : M HandlerReply :=
  match select_states body with
  | Rejected error => mret (mkReply 400 (Some error))
  | Selected state_ids_to_fetch => DamLevel.handler env state_ids_to_fetch
  end.

(** [sum(r.get("count", 0) for r in results if "count" in r)] *)
Definition total_dams (results : list ScrapeResult) : nat :=
  sum_list (omap r_count results).

(** The page request of [scrape_dam_data]:
    [requests.get(url, headers=headers, timeout=60)]. *)
Definition dam_get (state_id : Z) : Event := HttpGet DamPage (PInt state_id) 60.

End DamRequest.

(* ================================================================== *)
(** * The new rainfall page (rainfall_fn(bs-csv)/rainfall_fg.py)        *)
(* ================================================================== *)

Module RainfallNew.
Import Py Dom Eff.

(** [range(0, stop, step)] for a positive [step]. *)
Definition range_step (stop step : nat) : list nat :=
  (fun j => j * step)%nat <$> seq 0 ((stop + step - 1) / step)%nat.

(** [[td_values[i : i + ncols] for i in range(0, len(td_values), ncols)]];
    a zero step makes [range] raise. *)
Definition group_rows (ncols : nat) (td_values : list string)
  : Outcome (list (list string)) :=
  if bool_decide (ncols = 0%nat)
  then Raise "range() arg 3 must not be zero"
  else Return ((fun i => slice (Some (Z.of_nat i)) (Some (Z.of_nat (i + ncols))) td_values)
                 <$> range_step (length td_values) ncols).

(** The columns of the new page: labels 0-4, then the dates from label
    8 on, then labels 6 and 7; label 5 is the group heading. *)
Definition columns_of (th_texts : list string) : list string :=
  let base_cols := slice (Some 0) (Some 5) th_texts in
  let date_cols := slice (Some 8) None th_texts in
  let tail_cols := slice (Some 6) (Some 8) th_texts in
  base_cols ++ date_cols ++ tail_cols.

(** One turn of [for row in rows]. *)
Definition keep_row (state_code state_name : string) (columns : list string)
    (items : list item) (row : list string) : list item :=
  if bool_decide (length row ≠ length columns) then items
  else items ++ [Rainfall.make_item state_code state_name columns row].

(** [parse_state_page_new]: a table without [<thead>] makes
    [table.find("thead").find_all] raise. *)
Definition parse_state_page_new (soup : Document) (state_code state_name : string)
  : Outcome (list item) :=
  match find_table_by_id "normaltable1" soup with
  | None => Return []
  | Some table =>
      match t_thead table with
      | None => Raise "'NoneType' object has no attribute 'find_all'"
      | Some head_cells =>
          let th_texts := text_spaced <$> find_th head_cells in
          let columns := columns_of th_texts in
          match t_tbody table with
          | None => Return []
          | Some body_rows =>
              let td_values := text_spaced <$> mjoin (find_td <$> body_rows) in
              match td_values with
              | [] => Return []
              | _ =>
                  match group_rows (length columns) td_values with
                  | Raise e => Raise e
                  | Return rows =>
                      Return (foldl (keep_row state_code state_name columns) [] rows)
                  end
              end
          end
      end
  end.

(** A new-style page: ten header labels, hence nine columns; the body
    has a row of four cells, a row of five and a row of three. *)
Definition split_table : Table :=
  mkTable (Some "normaltable1") [] []
    (Some (th <$> ["No."; "Station ID"; "Station"; "District"; "Last Updated";
                   "Daily Rainfall"; "Rainfall from Midnight"; "Total 1 Hour";
                   "01/01"; "02/01"]))
    (Some [ td <$> ["1"; "0123"; "Sg. Muar"; "Muar"];
            td <$> ["01/01 10:00"; "0.0"; "1.5"; "2.0"; "0.5"];
            td <$> ["2"; "0456"; "Sg. Johor"] ])
    [].

End RainfallNew.

(* ================================================================== *)
(** * What a run scrapes, told from the answers of the world            *)
(* ================================================================== *)

Module Scraped.
Import Py Dom Eff.

(** The results of the states scraped one after the other by
    waterlevel_fg.py: each state is scraped from the trace the state
    before it left. *)
Inductive in_turn (env : Env)
  : list string → list Event → list ScrapeResult → list Event → Prop :=
| in_turn_nil tr : in_turn env [] tr [] tr
| in_turn_cons state rest tr r tr1 results tr2 :
    WaterLevel.scrape_state_data env false state tr = (Return r, tr1) →
    in_turn env rest tr1 results tr2 →
    in_turn env (state :: rest) tr (r :: results) tr2.

(** The water-quality rows that one answer of the API gives: those
    under ["crwqi"], tagged with the state, when the request succeeded
    with a status outside 400-599 and the payload is a JSON object
    without ["error"]; none otherwise. *)
Definition answer_rows (state_id : Z) (answer : HttpReply) : list item :=
  match answer with
  | HttpRaises _ => []
  | HttpResponds r =>
      if bool_decide (400 ≤ status_code r < 600) then []
      else
        match json r with
        | Raise _ => []
        | Return payload =>
            match j_error payload with
            | Some _ => []
            | None =>
                WaterQuality.tag_record state_id <$> default [] (j_crwqi payload)
            end
        end
  end.

(** The rows of the states asked one after the other, starting after
    the calls of [tr]. *)
Fixpoint quality_rows (env : Env) (tr : list Event) (state_ids : list Z)
  : list item :=
  match state_ids with
  | [] => []
  | state_id :: rest =>
      answer_rows state_id (http_get env tr WaterQualityApi (PInt state_id))
      ++ quality_rows env
           (tr ++ [HttpGet WaterQualityApi (PInt state_id) 30]) rest
  end.

(** The result of the dam scrape for one state, told from the answer
    to its page request: an error result when the request raised or
    was answered with a status in 400-599, else what the page gives. *)
Definition dam_result (state_id : Z) (answer : HttpReply) : ScrapeResult :=
  let state_name := DamLevel.state_name_of state_id in
  let failed e :=
    DamLevel.error_result
      ("Request failed for " +:+ state_name +:+ " (ID="
         +:+ DamLevel.id_text state_id +:+ "): " +:+ e) state_name in
  match answer with
  | HttpRaises e => failed e
  | HttpResponds r =>
      if bool_decide (400 ≤ status_code r < 600) then failed (http_error r)
      else DamLevel.dam_page state_id state_name (soup r)
  end.

(** The results of the states asked one after the other, starting
    after the calls of [tr]. *)
Fixpoint dam_results (env : Env) (tr : list Event) (state_ids : list Z)
  : list ScrapeResult :=
  match state_ids with
  | [] => []
  | state_id :: rest =>
      dam_result state_id (http_get env tr DamPage (PInt state_id))
      :: dam_results env (tr ++ [HttpGet DamPage (PInt state_id) 60]) rest
  end.

End Scraped.

(* ================================================================== *)
(** * Pages without rows                                                *)
(* ================================================================== *)

Module EmptyPages.
Import Py Dom Eff.

(** A water-level table with a body and no row in it. *)
Definition empty_table : Table :=
  mkTable (Some "normaltable1") [] [] None (Some []) [].

(** Both water-level endpoints answer with [empty_table]. *)
Definition empty_pages : Env :=
  mkEnv (fun _ _ _ => HttpResponds (html_response 200 [empty_table]))
        (fun _ _ => ObsResponds 200 "" "")
        (fun _ _ => CdmResponds 200 "{}")
        (fun _ _ => "2025-01-01T00:00:00+08:00")
        true None.

(** The legacy endpoint times out; the new one answers with
    [empty_table]. *)
Definition legacy_down : Env :=
  mkEnv (fun _ ep _ =>
           if bool_decide (ep = WaterLevelLegacy) then HttpRaises "timed out"
           else HttpResponds (html_response 200 [empty_table]))
        (fun _ _ => ObsResponds 200 "" "")
        (fun _ _ => CdmResponds 200 "{}")
        (fun _ _ => "2025-01-01T00:00:00+08:00")
        true None.

End EmptyPages.

(* ================================================================== *)
(** * The water-quality run (waterquality_fg1.py)                       *)
(* ================================================================== *)

Module WaterQualityRun.
Import Py Eff.

(** The request of [fetch_state_water_quality] for one state:
    [requests.get(url, headers=headers, timeout=30)], the state id
    being part of the URL. *)
Definition quality_get (state_id : Z) : Event :=
  HttpGet WaterQualityApi (PInt state_id) 30.

(** [row.get("state_name", "Unknown")], the key of the regrouping in
    [handler]. *)
Definition state_key (row : item) : pyval :=
  default (PStr "Unknown") (get "state_name" row).

(** The rows of one state, in the order of the scrape. *)
Definition rows_of_state (state_name : pyval) (rows : list item) : list item :=
  filter (fun row => state_key row = state_name) rows.

(** The mapping [rows_by_state] that the loop of [handler] builds. *)
Definition rows_by_state (rows : list item) : list (pyval * list item) :=
  foldl (fun groups row => WaterQuality.group_append (state_key row) row groups)
    [] rows.

End WaterQualityRun.

(* ================================================================== *)
(** * The text a [DictWriter] produces                                  *)
(* ================================================================== *)

Module CsvText.
Import Py Dom Eff.

(** The line of one record under the columns [fieldnames]: one field
    per column, the empty string where the record lacks the key. *)
Definition row_line (fieldnames : list string) (it : item) : string :=
  Csv.writerow ((fun k => default (PStr "") (get k it)) <$> fieldnames).

(** The lines of the records, one after the other. *)
Definition body_text (fieldnames : list string) (rows : list item) : string :=
  foldr (fun it text => row_line fieldnames it +:+ text) "" rows.

(** A record the writer accepts: all its keys are columns. *)
Definition fits (fieldnames : list string) (it : item) : Prop :=
  Forall (fun k => k ∈ fieldnames) (keys it).

#[global] Instance fits_dec fieldnames it : Decision (fits fieldnames it).
Proof. unfold fits. apply _. Defined.

(** A dam page whose header has nine columns, with a row of eight
    cells followed by a row of nine. *)
Definition uneven_table : Table :=
  mkTable None ["table"] []
    (Some (th <$> ["Bil"; "Empangan"; "Paras"; "Isipadu"; "Peratus"; "Hujan";
                   "Semalam"; "Semasa"; "Catatan"]))
    (Some [ td <$> ["1"; "Empangan A"; "10.0"; "200"; "80"; "0"; "79"; "80"];
            td <$> ["2"; "Empangan B"; "11.0"; "210"; "81"; "0"; "80"; "81"; "ok"] ])
    [].

End CsvText.

(* ================================================================== *)
(** * Properties                                                        *)
(* ================================================================== *)

Section TableLocator.
Import Py Dom Rainfall.

Lemma first_match_None tables :
  first_match tables = None ↔
  Forall (fun t => looks_like_rainfall t = false) tables.
Proof.
  induction tables as [|t rest IH]; simpl.
  - split; [constructor | done].
  - destruct (looks_like_rainfall t) eqn:E.
    + split; [done | intros H; inversion H; congruence].
    + rewrite IH. split; [by constructor | by inversion 1].
Qed.

Lemma first_match_app pre t post :
  Forall (fun u => looks_like_rainfall u = false) pre →
  looks_like_rainfall t = true →
  first_match (pre ++ t :: post) = Some t.
Proof.
  induction 1 as [|u pre Hu _ IH]; simpl; intros Ht.
  - by rewrite Ht.
  - rewrite Hu. by apply IH.
Qed.

(** C7. [pick_rainfall_table] returns nothing for a document without
    tables; otherwise the first table, in document order, whose joined
    text contains both "Bil." and "ID Stesen"; and the last table of
    the document when no table matches. *)
Theorem pick_rainfall_table_spec (soup : Document) :
  (soup = [] → pick_rainfall_table soup = None) ∧
  (∀ pre t post,
      soup = pre ++ t :: post →
      Forall (fun u => looks_like_rainfall u = false) pre →
      looks_like_rainfall t = true →
      pick_rainfall_table soup = Some t) ∧
  (∀ front t,
      soup = front ++ [t] →
      Forall (fun u => looks_like_rainfall u = false) soup →
      pick_rainfall_table soup = Some t).
Proof.
  split; [by intros -> |]. split.
  - intros pre t post -> Hpre Ht.
    unfold pick_rainfall_table.
    rewrite (first_match_app _ _ _ Hpre Ht).
    by destruct pre.
  - intros front t -> Hno.
    unfold pick_rainfall_table.
    apply first_match_None in Hno. rewrite Hno.
    unfold last_item. rewrite last_snoc.
    by destruct front.
Qed.

Lemma pick_rainfall_table_witness :
  pick_rainfall_table [] = None
  ∧ pick_rainfall_table [Examples.nav_table; Examples.rain_table; Examples.nav_table]
    = Some Examples.rain_table
  ∧ pick_rainfall_table [Examples.rain_table; Examples.nav_table]
    = Some Examples.rain_table
  ∧ pick_rainfall_table [Examples.nav_table; Examples.nav_table]
    = Some Examples.nav_table.
Proof.
  split_and!.
  - apply (proj1 (pick_rainfall_table_spec [])). reflexivity.
  - apply (proj1 (proj2 (pick_rainfall_table_spec _))
             [Examples.nav_table] Examples.rain_table [Examples.nav_table]).
    + reflexivity.
    + repeat constructor.
    + reflexivity.
  - apply (proj1 (proj2 (pick_rainfall_table_spec _))
             [] Examples.rain_table [Examples.nav_table]).
    + reflexivity.
    + constructor.
    + reflexivity.
  - apply (proj2 (proj2 (pick_rainfall_table_spec _))
             [Examples.nav_table] Examples.nav_table).
    + reflexivity.
    + repeat constructor.
Defined.

End TableLocator.

(** ** Python slices as [take] and [drop] *)

Section Slices.
Import Py.
Context {A : Type}.
Implicit Types l : list A.

Lemma slice_prefix (n : nat) l :
  slice (Some 0) (Some (Z.of_nat n)) l = take n l.
Proof.
  unfold slice, clamp_index. simpl.
  destruct (Z.ltb_spec (Z.of_nat n) 0) as [Hneg|_]; [lia|].
  rewrite (Z.min_l 0), Z.sub_0_r by lia.
  change (Z.to_nat 0) with 0%nat. rewrite drop_0.
  destruct (decide (n ≤ length l)%nat) as [Hle|Hgt].
  - by rewrite Z.min_l, Nat2Z.id by lia.
  - rewrite Z.min_r, Nat2Z.id by lia.
    by rewrite !take_ge by lia.
Qed.

Lemma slice_suffix (n : nat) l :
  slice (Some (Z.of_nat n)) None l = drop n l.
Proof.
  unfold slice, clamp_index.
  destruct (Z.ltb_spec (Z.of_nat n) 0) as [Hneg|_]; [lia|].
  destruct (decide (n ≤ length l)%nat) as [Hle|Hgt].
  - rewrite Z.min_l, Nat2Z.id by lia.
    apply take_ge. rewrite length_drop. lia.
  - rewrite Z.min_r, Nat2Z.id by lia.
    rewrite !drop_ge by lia. by rewrite take_nil.
Qed.

Lemma slice_all l : slice None None l = l.
Proof.
  unfold slice. cbv zeta. rewrite Z.sub_0_r, Nat2Z.id. by apply take_ge.
Qed.

(** [l[-n:]] keeps the last [n] items, or all of a shorter list. *)
Lemma slice_last (n : nat) l :
  (0 < n)%nat →
  slice (Some (- Z.of_nat n)) None l = drop (length l - n) l.
Proof.
  intros Hn. unfold slice, clamp_index.
  destruct (Z.ltb_spec (- Z.of_nat n) 0) as [_|Hpos]; [|lia].
  replace (Z.to_nat (Z.max 0 (Z.of_nat (length l) + - Z.of_nat n)))
    with (length l - n)%nat by lia.
  apply take_ge. rewrite length_drop. lia.
Qed.

End Slices.

(** ** The dual header and the minimum number of rows *)

Section SchemaReconciler.
Import Py Dom Rainfall.

Lemma reconcile_eq top_texts bottom_texts :
  reconcile top_texts bottom_texts
  = take 5 top_texts ++ bottom_texts ++ drop (length top_texts - 2) top_texts.
Proof.
  unfold reconcile.
  rewrite (slice_prefix 5), slice_all.
  by rewrite (slice_last 2) by lia.
Qed.

Lemma parse_table_rows state_code state_name table top bottom data :
  t_rows table = top :: bottom :: data →
  data ≠ [] →
  parse_table state_code state_name table
  = foldl (parse_row state_code state_name
             (reconcile (row_texts top) (row_texts bottom))) [] data.
Proof.
  intros Hrows Hdata. unfold parse_table. rewrite Hrows.
  rewrite bool_decide_false by (destruct data; [done | simpl; lia]).
  by rewrite (slice_prefix 2), (slice_suffix 2).
Qed.

(** C6. The schema of a dual-header table is the first five labels of
    header row 1, then every label of header row 2, then the last two
    labels of header row 1; a table with fewer than three rows yields
    no record, and with three or more the rows after the two header
    rows are the data rows read against that schema. *)
Theorem dual_header_schema :
  (∀ top_texts bottom_texts,
      reconcile top_texts bottom_texts
      = take 5 top_texts ++ bottom_texts
          ++ drop (length top_texts - 2) top_texts) ∧
  (∀ state_code state_name table,
      (length (t_rows table) < 3)%nat →
      parse_table state_code state_name table = []) ∧
  (∀ state_code state_name table top bottom data,
      t_rows table = top :: bottom :: data →
      data ≠ [] →
      parse_table state_code state_name table
      = foldl (parse_row state_code state_name
                 (reconcile (row_texts top) (row_texts bottom))) [] data).
Proof.
  split; [apply reconcile_eq|]. split.
  - intros sc sn table Hlen. unfold parse_table.
    by rewrite bool_decide_true.
  - apply parse_table_rows.
Qed.

Lemma dual_header_schema_witness :
  reconcile (row_texts (th <$> ["Bil."; "ID Stesen"; "Nama Stesen"; "Daerah";
                                "Kemaskini Terakhir"; "Taburan Hujan Harian";
                                "Taburan Hujan dari Tengah Malam"; "Jumlah 1 Jam"]))
    (row_texts (th <$> ["01/01/2025"; "02/01/2025"]))
  = ["Bil."; "ID Stesen"; "Nama Stesen"; "Daerah"; "Kemaskini Terakhir";
     "01/01/2025"; "02/01/2025";
     "Taburan Hujan dari Tengah Malam"; "Jumlah 1 Jam"]
  ∧ parse_table "JHR" "Johor" Examples.nav_table = []
  ∧ length (parse_table "JHR" "Johor" Examples.rain_table) = 2%nat.
Proof.
  destruct dual_header_schema as (Hschema & Hshort & Hrows).
  split_and!.
  - rewrite Hschema. reflexivity.
  - apply Hshort. simpl. lia.
  - rewrite (Hrows "JHR" "Johor" Examples.rain_table _ _ _ eq_refl ltac:(discriminate)).
    reflexivity.
Defined.

End SchemaReconciler.

(** ** Which rows become records *)

Section RowValidation.
Import Py Dom Eff.

Lemma parse_rows_filter state_code state_name columns data_rows :
  foldl (Rainfall.parse_row state_code state_name columns) [] data_rows
  = (Rainfall.make_item state_code state_name columns ∘ Rainfall.row_texts)
      <$> filter (fun tr => length (Rainfall.row_texts tr) = length columns) data_rows.
Proof.
  induction data_rows as [|tr rows IH] using rev_ind; [done|].
  rewrite foldl_app, filter_app, fmap_app, IH. simpl.
  unfold Rainfall.parse_row at 1. rewrite filter_cons, filter_nil.
  case_bool_decide as Hlen; case_decide as Hlen'; try done.
  by rewrite app_nil_r.
Qed.

Lemma legacy_rows_filter state_name clock rows :
  foldl (WaterLevel.legacy_row state_name clock) [] rows
  = imap (fun i tr => WaterLevel.legacy_point state_name (find_td tr)
                        ((fun f => f i) <$> clock))
      (filter WaterLevel.legacy_accepts rows).
Proof.
  induction rows as [|tr rows IH] using rev_ind; [done|].
  rewrite foldl_app, filter_app, imap_app, IH. simpl.
  unfold WaterLevel.legacy_row at 1. rewrite filter_cons, filter_nil.
  case_bool_decide as Hlen.
  { rewrite decide_False by (intros [? _]; done). by rewrite app_nil_r. }
  destruct (isdigit _) eqn:Hbil; simpl.
  - rewrite decide_True by (by split).
    simpl. by rewrite length_imap, Nat.add_0_r.
  - rewrite decide_False by (intros [_ ?]; congruence). by rewrite app_nil_r.
Qed.

Lemma new_rows_filter state_name clock rows :
  foldl (WaterLevel.new_row state_name clock) [] rows
  = imap (fun i tr => WaterLevel.new_point state_name (find_td tr)
                        ((fun f => f i) <$> clock))
      (filter WaterLevel.new_accepts rows).
Proof.
  induction rows as [|tr rows IH] using rev_ind; [done|].
  rewrite foldl_app, filter_app, imap_app, IH. simpl.
  unfold WaterLevel.new_row at 1. rewrite filter_cons, filter_nil.
  rewrite list_lookup_fmap.
  change (default "" (text_tight <$> find_td tr !! 0%nat))
    with (WaterLevel.cell_text (find_td tr) 0).
  case_bool_decide as Hlen.
  { rewrite decide_False by (intros [? _]; lia). by rewrite app_nil_r. }
  destruct (isdigit _) eqn:Hbil; simpl.
  - rewrite decide_True by (split; [lia|done]).
    simpl. by rewrite length_imap, Nat.add_0_r.
  - rewrite decide_False by (intros [_ ?]; congruence). by rewrite app_nil_r.
Qed.

(** C3, as the code has it.  The rainfall parser turns a data row into
    a record exactly when the row has as many cells as the schema has
    columns; the other rows are dropped and the accepted ones are all
    kept, in order.  The legacy water-level scraper asks for exactly 12
    cells, the new-endpoint one for at least 12 (cells after the 12th
    are not read); both also ask for a first cell that passes
    [str.isdigit]. *)
Theorem row_acceptance :
  (∀ state_code state_name columns data_rows,
      foldl (Rainfall.parse_row state_code state_name columns) [] data_rows
      = (Rainfall.make_item state_code state_name columns ∘ Rainfall.row_texts)
          <$> filter (fun tr => length (Rainfall.row_texts tr) = length columns)
                data_rows) ∧
  (∀ state_name clock rows,
      foldl (WaterLevel.legacy_row state_name clock) [] rows
      = imap (fun i tr => WaterLevel.legacy_point state_name (find_td tr)
                            ((fun f => f i) <$> clock))
          (filter (fun tr => length (find_td tr) = 12%nat
                             ∧ isdigit (WaterLevel.cell_text (find_td tr) 0) = true)
             rows)) ∧
  (∀ state_name clock rows,
      foldl (WaterLevel.new_row state_name clock) [] rows
      = imap (fun i tr => WaterLevel.new_point state_name (find_td tr)
                            ((fun f => f i) <$> clock))
          (filter (fun tr => (12 ≤ length (find_td tr))%nat
                             ∧ isdigit (WaterLevel.cell_text (find_td tr) 0) = true)
             rows)).
Proof.
  split; [apply parse_rows_filter|].
  split; [apply legacy_rows_filter | apply new_rows_filter].
Qed.

(** C3 as stated fails on the new-endpoint water-level scraper: a row
    of 13 cells, one more than the 12 columns the record is built from,
    is accepted and its last cell ignored. *)
Lemma row_acceptance_counterexample :
  let tr := td <$> ["1"; "S01"; "Sungai X"; "Kluang"; "B"; "SB"; "01/01/2025";
                    "1.5"; "1.0"; "2.0"; "3.0"; "4.0"; "extra"] in
  let page := [mkTable None [] [] None (Some [tr]) [tr]] in
  length (find_td tr) = 13%nat ∧
  r_data (WaterLevel.new_page "Johor" page None)
  = Some [ [ ("state_name", PStr "Johor"); ("bil", PStr "1");
             ("id_stesen", PStr "S01"); ("nama_stesen", PStr "Sungai X");
             ("daerah", PStr "Kluang"); ("lembangan", PStr "B");
             ("sub_lembangan", PStr "SB");
             ("kemaskini_terakhir", PStr "01/01/2025");
             ("aras_air_m", PStr "1.5"); ("ambang_normal", PStr "1.0");
             ("ambang_waspada", PStr "2.0"); ("ambang_amaran", PStr "3.0");
             ("ambang_bahaya", PStr "4.0") ] ].
Proof. by vm_compute. Qed.

End RowValidation.

(** ** The running index of the water-level records *)

(** Unfolds the operations of the trace monad. *)
Ltac unfold_m :=
  unfold Eff.try_except, Eff.requests_get, Eff.raise_for_status, Eff.put_content,
    Eff.lift, Eff.emit, Eff.trace, Eff.raise, mbind, Eff.M_bind, Eff.bind,
    mret, Eff.M_ret, Eff.ret in *.

Section RowIndex.
Import Py Dom Eff WaterLevel.

Lemma forallb_Forall {A} (f : A → bool) (l : list A) :
  forallb f l = true ↔ Forall (fun x => f x = true) l.
Proof.
  induction l as [|x l IH]; simpl.
  - split; [constructor|done].
  - by rewrite andb_true_iff, IH, Forall_cons.
Qed.

Lemma isdigit_spec s :
  isdigit s = true ↔
  ∃ points, Unicode.code_points s = Some points ∧ points ≠ []
            ∧ Forall (fun c => Unicode.is_digit c = true) points.
Proof.
  unfold isdigit. destruct (Unicode.code_points s) as [[|c points]|].
  - split; [done|]. by intros (? & [= <-] & ? & _).
  - rewrite forallb_Forall. split.
    + intros Hall. by exists (c :: points).
    + by intros (? & [= <-] & _ & ?).
  - split; [done|]. by intros (? & [=] & _).
Qed.

Lemma is_digit_ascii (c : N) :
  Unicode.is_digit c = true → (c < 128)%N → (48 ≤ c ≤ 57)%N.
Proof.
  unfold Unicode.is_digit, Unicode.in_ranges. intros Hc Hascii.
  apply existsb_exists in Hc as ([lo hi] & Hin & Hc).
  apply andb_true_iff in Hc as [Hlo%N.leb_le Hhi%N.leb_le].
  assert (Forall (fun r : N * N => (r.1 = 48 ∧ r.2 = 57)%N ∨ (128 ≤ r.1)%N)
            Unicode.DIGIT) as Htable
    by (apply (bool_decide_unpack _); vm_compute; exact I).
  rewrite Forall_forall in Htable.
  apply list_elem_of_In in Hin.
  destruct (Htable _ Hin) as [[Hl Hh]|Hl]; simpl in *; lia.
Qed.

Lemma get_bil state_name values aras stamp :
  get "bil" (data_point state_name values aras stamp)
  = Some (PStr (default "" (values !! 0%nat))).
Proof. done. Qed.

Lemma legacy_page_bil state_name soup clock data it :
  r_data (legacy_page state_name soup clock) = Some data →
  it ∈ data →
  ∃ bil, get "bil" it = Some (PStr bil) ∧ isdigit bil = true.
Proof.
  unfold legacy_page.
  destruct (find_table_by_id _ _) as [table|]; [|done].
  destruct (t_tbody table) as [rows|]; [|done].
  simpl. intros [= <-]. rewrite legacy_rows_filter.
  intros (i & tr & -> & Htr)%elem_of_lookup_imap.
  apply list_elem_of_lookup_2, list_elem_of_filter in Htr as [[_ Hbil] _].
  eexists. split; [apply get_bil|].
  by rewrite list_lookup_fmap.
Qed.

Lemma new_page_bil state_name soup clock data it :
  r_data (new_page state_name soup clock) = Some data →
  it ∈ data →
  ∃ bil, get "bil" it = Some (PStr bil) ∧ isdigit bil = true.
Proof.
  unfold new_page.
  destruct (head soup) as [table|]; [|done].
  simpl. intros [= <-]. rewrite new_rows_filter.
  intros (i & tr & -> & Htr)%elem_of_lookup_imap.
  apply list_elem_of_lookup_2, list_elem_of_filter in Htr as [[_ Hbil] _].
  eexists. split; [apply get_bil|].
  by rewrite list_lookup_fmap.
Qed.

(** C10, as the code has it.  In both water-level scrapers a row whose
    first cell does not pass [str.isdigit] adds no record, whatever its
    cell count; so the ["bil"] field of every record either scraper
    returns passes [str.isdigit]: it is a non-empty string of Unicode
    digits, which within ASCII are the decimal digits 0 to 9. *)
Theorem waterlevel_bil_numeric env stamped state_name tr r tr' :
  (_scrape_state_legacy env stamped state_name tr = (Return r, tr')
   ∨ _scrape_state_new env stamped state_name tr = (Return r, tr')) →
  (∀ clock results row,
      isdigit (cell_text (find_td row) 0) = false →
      legacy_row state_name clock results row = results
      ∧ new_row state_name clock results row = results) ∧
  (∀ data it,
      r_data r = Some data → it ∈ data →
      ∃ bil points,
        get "bil" it = Some (PStr bil)
        ∧ Unicode.code_points bil = Some points ∧ points ≠ []
        ∧ Forall (fun c => Unicode.is_digit c = true
                           ∧ ((c < 128)%N → (48 ≤ c ≤ 57)%N)) points).
Proof.
  intros Hrun. split.
  - intros clock results row Hbil. unfold legacy_row, new_row.
    rewrite list_lookup_fmap.
    change (default "" (text_tight <$> find_td row !! 0%nat))
      with (cell_text (find_td row) 0).
    rewrite Hbil. simpl. by repeat case_bool_decide.
  - intros data it Hdata Hit.
    cut (∃ bil, get "bil" it = Some (PStr bil) ∧ isdigit bil = true).
    { intros (bil & ? & (points & ? & ? & Hall)%isdigit_spec).
      exists bil, points. split_and!; [done..|].
      eapply Forall_impl; [exact Hall|]. intros c Hc.
      split; [done|]. by apply is_digit_ascii. }
    destruct Hrun as [Hrun|Hrun].
    + unfold _scrape_state_legacy in Hrun. unfold_m.
      destruct (http_get _ _ _ _) as [msg|resp]; simplify_eq/=.
      case_bool_decide; simplify_eq/=.
      by eapply legacy_page_bil.
    + unfold _scrape_state_new in Hrun.
      destruct (get state_name STATE_CODE_MAP) as [code|]; unfold_m;
        simplify_eq/=.
      destruct (http_get _ _ _ _) as [msg|resp]; simplify_eq/=.
      case_bool_decide; simplify_eq/=.
      by eapply new_page_bil.
Qed.

Lemma waterlevel_bil_numeric_witness :
  ∃ r tr',
    _scrape_state_legacy Examples.level_online false "Johor" [] = (Return r, tr')
    ∧ length <$> r_data r = Some 1%nat
    ∧ legacy_row "Johor" None []
        (td <$> ["Bil"; "-"; "-"; "-"; "-"; "-"; "-"; "-"; "-"; "-"; "-"; "-"]) = []
    ∧ ∀ data it,
        r_data r = Some data → it ∈ data →
        ∃ bil points,
          get "bil" it = Some (PStr bil)
          ∧ Unicode.code_points bil = Some points ∧ points ≠ []
          ∧ Forall (fun c => Unicode.is_digit c = true
                             ∧ ((c < 128)%N → (48 ≤ c ≤ 57)%N)) points.
Proof.
  eexists _, _. split; [reflexivity|]. split; [reflexivity|].
  destruct (waterlevel_bil_numeric Examples.level_online false "Johor" [] _ _
              (or_introl eq_refl)) as [Hrow Hbil].
  split; [|exact Hbil].
  apply (Hrow None []). reflexivity.
Defined.

(** C10 as stated fails: [str.isdigit] also accepts digits that are no
    decimal digits.  A legacy page whose only row has 12 cells, the
    first being a superscript two (U+00B2), gives a record whose
    ["bil"] is that character. *)
Lemma waterlevel_bil_numeric_counterexample :
  let bil := Unicode.chr 0xB2 in
  let tr := td <$> [bil; "S01"; "Sungai X"; "Kluang"; "B"; "SB"; "01/01/2025";
                    "1.5"; "1.0"; "2.0"; "3.0"; "4.0"] in
  let page := [mkTable (Some "normaltable1") [] [] None (Some [tr]) []] in
  Unicode.code_points bil = Some [0xB2%N]
  ∧ length (find_td tr) = 12%nat
  ∧ ∃ it, r_data (legacy_page "Johor" page None) = Some [it]
          ∧ get "bil" it = Some (PStr bil).
Proof. intros bil tr page. split_and!; [done|done|]. by eexists. Qed.

End RowIndex.

(** ** The fields of a record *)

Section RecordFields.
Import Py Dom Eff.

Lemma keys_set {V} k (v : V) d :
  list_to_set (keys (set k v d)) =@{gset string} {[k]} ∪ list_to_set (keys d).
Proof.
  unfold keys. induction d as [|[k' v'] d IH]; csimpl.
  - set_solver.
  - case_decide; csimpl; [subst|rewrite IH]; set_solver.
Qed.

Lemma keys_update_all {V} (pairs : list (string * V)) d :
  list_to_set (keys (update_all pairs d))
  =@{gset string} list_to_set (keys d) ∪ list_to_set pairs.*1.
Proof.
  unfold update_all. revert d.
  induction pairs as [|[k v] pairs IH]; intros d.
  - set_solver.
  - rewrite fmap_cons. cbn [foldl fst snd]. rewrite IH, keys_set. set_solver.
Qed.

Lemma keys_make_item state_code state_name columns tds :
  length tds = length columns →
  list_to_set (keys (Rainfall.make_item state_code state_name columns tds))
  =@{gset string} list_to_set columns ∪ {[ "state_code"; "state_name" ]}.
Proof.
  intros Hlen. unfold Rainfall.make_item, zip.
  rewrite keys_update_all, fst_zip by (rewrite length_fmap; lia).
  set_solver.
Qed.

Lemma keys_map_base_columns_from (k : nat) base_columns values acc :
  list_to_set (keys (foldl (fun data_point '(i, col_name) =>
                              match values !! i with
                              | Some v => set col_name (PStr v) data_point
                              | None => data_point
                              end) acc (imap (fun i c => ((k + i)%nat, c)) base_columns)))
  =@{gset string}
  list_to_set (keys acc) ∪ list_to_set (take (length values - k) base_columns).
Proof.
  revert k acc. induction base_columns as [|c cs IH]; intros k acc; simpl.
  - rewrite take_nil. set_solver.
  - rewrite Nat.add_0_r.
    rewrite (imap_ext _ (fun i c => ((S k + i)%nat, c))) by (intros; simpl; f_equal; lia).
    rewrite IH.
    destruct (values !! k) as [v|] eqn:Hv.
    + apply lookup_lt_Some in Hv.
      replace (length values - k)%nat with (S (length values - S k)) by lia.
      rewrite keys_set. set_solver.
    + apply lookup_ge_None in Hv.
      replace (length values - S k)%nat with 0%nat by lia.
      replace (length values - k)%nat with 0%nat by lia.
      set_solver.
Qed.

Lemma keys_map_base_columns base_columns values :
  list_to_set (keys (DamLevel.map_base_columns base_columns values))
  =@{gset string} list_to_set (take (length values) base_columns).
Proof.
  unfold DamLevel.map_base_columns.
  rewrite (keys_map_base_columns_from 0), Nat.sub_0_r. set_solver.
Qed.

Lemma keys_dam_point state_id state_name base_columns tds :
  list_to_set (keys (DamLevel.dam_point state_id state_name base_columns tds))
  =@{gset string}
  list_to_set (take (length tds) base_columns) ∪ list_to_set DamLevel.EXTRA_COLS.
Proof.
  unfold DamLevel.dam_point. rewrite !keys_set, keys_map_base_columns.
  rewrite length_fmap. unfold DamLevel.EXTRA_COLS. set_solver.
Qed.

Lemma dam_rows_filter state_id state_name base_columns rows :
  foldl (DamLevel.dam_row state_id state_name base_columns) [] rows
  = (DamLevel.dam_point state_id state_name base_columns ∘ find_td)
      <$> filter (fun tr => (8 ≤ length (find_td tr))%nat) rows.
Proof.
  induction rows as [|tr rows IH] using rev_ind; [done|].
  rewrite foldl_app, filter_app, fmap_app, IH. simpl.
  unfold DamLevel.dam_row at 1. rewrite filter_cons, filter_nil.
  case_bool_decide as Hnil.
  { rewrite Hnil. simpl. by rewrite app_nil_r. }
  case_bool_decide as Hlen; case_decide; try lia; [|done].
  by rewrite app_nil_r.
Qed.

(** C8, as the code has it.  A rainfall record has exactly the columns
    of the schema and the two fields [state_code] and [state_name].  A
    dam record comes from a row with at least 8 cells and has the four
    fixed fields and the first columns of the header, as many as the
    row has cells: header columns beyond the cells of the row are left
    out of the record. *)
Theorem record_fields :
  (∀ state_code state_name columns data_rows it,
      it ∈ foldl (Rainfall.parse_row state_code state_name columns) [] data_rows →
      list_to_set (keys it)
      =@{gset string} list_to_set columns ∪ {[ "state_code"; "state_name" ]}) ∧
  (∀ state_id state_name base_columns rows it,
      it ∈ foldl (DamLevel.dam_row state_id state_name base_columns) [] rows →
      ∃ tr, tr ∈ rows ∧ (8 ≤ length (find_td tr))%nat ∧
            list_to_set (keys it)
            =@{gset string}
            list_to_set (take (length (find_td tr)) base_columns)
              ∪ list_to_set DamLevel.EXTRA_COLS).
Proof.
  split.
  - intros sc sn columns rows it. rewrite parse_rows_filter.
    intros (tr & -> & [Hlen _]%list_elem_of_filter)%list_elem_of_fmap.
    by apply keys_make_item.
  - intros id sn cols rows it. rewrite dam_rows_filter.
    intros (tr & -> & [Hlen Htr]%list_elem_of_filter)%list_elem_of_fmap.
    exists tr. split_and!; [done..|]. apply keys_dam_point.
Qed.

Lemma record_fields_witness :
  Forall (fun it => list_to_set (keys it)
                    =@{gset string}
                    list_to_set ["Bil."; "ID Stesen"] ∪ {[ "state_code"; "state_name" ]})
    (foldl (Rainfall.parse_row "JHR" "Johor" ["Bil."; "ID Stesen"]) []
       [td <$> ["1"; "J01"]; td <$> ["2"]; td <$> ["3"; "J03"]])
  ∧ Forall (fun it => ∃ tr, tr ∈ default [] (t_tbody Examples.dam_table)
                            ∧ (8 ≤ length (find_td tr))%nat
                            ∧ list_to_set (keys it)
                              =@{gset string}
                              list_to_set (take (length (find_td tr)) ["Bil"; "Empangan"])
                                ∪ list_to_set DamLevel.EXTRA_COLS)
      (foldl (DamLevel.dam_row 1 "Johor" ["Bil"; "Empangan"]) []
         (default [] (t_tbody Examples.dam_table))).
Proof.
  split; apply Forall_forall; intros it Hit.
  - exact (proj1 record_fields _ _ _ _ it Hit).
  - exact (proj2 record_fields _ _ _ _ it Hit).
Defined.

(** C8 as stated fails on the dam scraper: under a header of nine
    columns a row of eight cells is kept, and its record has no field
    for the ninth column, ["Catatan"]. *)
Lemma record_fields_counterexample :
  (fun cells : list Cell => text_spaced <$> find_th cells)
    <$> t_thead Examples.dam_table
  = Some ["Bil"; "Empangan"; "Paras"; "Isipadu"; "Peratus"; "Hujan";
          "Semalam"; "Semasa"; "Catatan"]
  ∧ (fun data : list item => keys <$> data)
      <$> r_data (DamLevel.dam_page 1 "Johor" [Examples.dam_table])
    = Some [ ["Bil"; "Empangan"; "Paras"; "Isipadu"; "Peratus"; "Hujan";
              "Semalam"; "Semasa"; "Kategori Simpanan Semalam";
              "Kategori Simpanan Semasa"; "state_id"; "state_name"] ].
Proof. by vm_compute. Qed.

End RecordFields.

(** ** The columns of the encoded dataset *)

Section ColumnOrder.
Import Py Dom Eff.

Lemma foldl_add_key acc ks :
  foldl Rainfall.add_key acc ks
  = acc ++ filter (fun k => k ∉ acc) (Rainfall.first_seen ks).
Proof.
  revert acc. induction ks as [|k ks IH]; intros acc; simpl.
  - by rewrite filter_nil, app_nil_r.
  - unfold Rainfall.add_key at 2. rewrite IH, filter_cons.
    case_bool_decide as Hk.
    + rewrite decide_False by (by intros []). f_equal.
      rewrite list_filter_filter. apply list_filter_iff.
      intros x. split; [|tauto]. intros Hx. split; [done|congruence].
    + rewrite decide_True by done. rewrite <- app_assoc. simpl. do 2 f_equal.
      rewrite list_filter_filter. apply list_filter_iff.
      intros x. rewrite elem_of_app, list_elem_of_singleton. tauto.
Qed.

Lemma collect_fieldnames_from acc all_items :
  foldl (fun fieldnames it => foldl Rainfall.add_key fieldnames (keys it))
    acc all_items
  = foldl Rainfall.add_key acc (Rainfall.all_keys all_items).
Proof.
  unfold Rainfall.all_keys. revert acc.
  induction all_items as [|it rest IH]; intros acc; [done|].
  csimpl. by rewrite foldl_app, IH.
Qed.

Lemma filter_all {A} (P : A → Prop) `{!∀ x, Decision (P x)} (l : list A) :
  Forall P l → filter P l = l.
Proof.
  induction 1 as [|x l Hx _ IH]; [done|].
  by rewrite filter_cons, decide_True, IH by done.
Qed.

Lemma collect_fieldnames_first_seen all_items :
  Rainfall.collect_fieldnames all_items
  = Rainfall.first_seen (Rainfall.all_keys all_items).
Proof.
  unfold Rainfall.collect_fieldnames.
  rewrite collect_fieldnames_from, foldl_add_key. simpl.
  apply filter_all, Forall_forall. intros k _. by apply not_elem_of_nil.
Qed.

Lemma elem_of_first_seen k ks : k ∈ Rainfall.first_seen ks ↔ k ∈ ks.
Proof.
  induction ks as [|k' ks IH]; simpl; [done|].
  rewrite !elem_of_cons, list_elem_of_filter, IH.
  destruct (decide (k = k')); tauto.
Qed.

Lemma NoDup_first_seen ks : NoDup (Rainfall.first_seen ks).
Proof.
  induction ks as [|k ks IH]; simpl; constructor.
  - rewrite list_elem_of_filter. tauto.
  - by apply NoDup_filter.
Qed.

Lemma remove_first_filter key l :
  NoDup l → Rainfall.remove_first key l = filter (fun k => k ≠ key) l.
Proof.
  induction 1 as [|k l Hk _ IH]; simpl; [done|].
  rewrite filter_cons. case_bool_decide as Heq; subst.
  - rewrite decide_False by tauto. symmetry.
    apply filter_all, Forall_forall. congruence.
  - by rewrite decide_True, IH by done.
Qed.

Lemma move_to_front_eq fieldnames key :
  NoDup fieldnames →
  Rainfall.move_to_front fieldnames key
  = filter (fun k => k ∈ fieldnames) [key] ++ filter (fun k => k ≠ key) fieldnames.
Proof.
  intros Hnd. unfold Rainfall.move_to_front.
  rewrite filter_cons, filter_nil.
  case_bool_decide; case_decide; try done; simpl.
  - by rewrite remove_first_filter.
  - symmetry. apply filter_all, Forall_forall. congruence.
Qed.

Lemma NoDup_move_to_front fieldnames key :
  NoDup fieldnames → NoDup (Rainfall.move_to_front fieldnames key).
Proof.
  intros Hnd. rewrite move_to_front_eq by done.
  apply NoDup_app. split_and!.
  - rewrite filter_cons, filter_nil. case_decide; [apply NoDup_singleton | constructor].
  - intros k [_ ->%list_elem_of_singleton]%list_elem_of_filter.
    rewrite list_elem_of_filter. tauto.
  - by apply NoDup_filter.
Qed.

Lemma fieldnames_of_first_seen all_items :
  let seen := Rainfall.first_seen (Rainfall.all_keys all_items) in
  Rainfall.fieldnames_of all_items
  = filter (fun k => k ∈ seen) ["state_name"; "state_code"]
    ++ filter (fun k => k ∉ ["state_name"; "state_code"]) seen.
Proof.
  intros seen. unfold Rainfall.fieldnames_of. simpl.
  rewrite collect_fieldnames_first_seen. fold seen.
  assert (NoDup seen) as Hnd by apply NoDup_first_seen.
  rewrite (move_to_front_eq (Rainfall.move_to_front _ _))
    by by apply NoDup_move_to_front.
  rewrite (move_to_front_eq seen) by done.
  rewrite !filter_cons, !filter_nil, filter_app, list_filter_filter.
  assert (filter (fun k => k ≠ "state_name" ∧ k ≠ "state_code") seen
          = filter (fun k => k ∉ ["state_name"; "state_code"]) seen) as ->.
  { apply list_filter_iff. intros k.
    rewrite !elem_of_cons, elem_of_nil. tauto. }
  assert (∀ front, "state_name" ∈ front ++ filter (fun k => k ≠ "state_code") seen
                   ↔ "state_name" ∈ front ∨ "state_name" ∈ seen) as Hin.
  { intros front. rewrite elem_of_app, list_elem_of_filter.
    split; [tauto|]. intros [?|?]; [by left|by right]. }
  destruct (decide ("state_code" ∈ seen)) as [Hc|Hc];
    destruct (decide ("state_name" ∈ seen)) as [Hn|Hn].
  - rewrite decide_True by (apply Hin; tauto).
    by rewrite filter_cons, filter_nil, decide_True.
  - rewrite decide_False
      by (rewrite Hin, list_elem_of_singleton; intros [|]; done).
    by rewrite filter_cons, filter_nil, decide_True.
  - rewrite decide_True by (apply Hin; tauto). by rewrite filter_nil.
  - rewrite decide_False by (rewrite Hin, elem_of_nil; tauto).
    by rewrite filter_nil.
Qed.

#[local] Instance str_le_total : Total str_le.
Proof. intros a b. apply String.leb_total. Qed.

Lemma sorted_spec headers :
  Sorted str_le (WaterQuality.sorted headers)
  ∧ ∀ k, k ∈ WaterQuality.sorted headers ↔ k ∈ headers.
Proof.
  unfold WaterQuality.sorted. split; [apply Sorted_merge_sort, _|].
  intros k. by rewrite merge_sort_Permutation, elem_of_elements.
Qed.

Lemma encoder_fieldnames_elem extra_cols first_row rest k :
  k ∈ Encoder.fieldnames_of extra_cols (first_row :: rest) ↔ k ∈ keys first_row.
Proof.
  unfold Encoder.fieldnames_of.
  rewrite elem_of_app, !list_elem_of_filter.
  destruct (decide (k ∈ extra_cols)); tauto.
Qed.

(** C4, as the code has it.  [items_to_csv] (rainfall_fg1.py,
    waterlevel_fg1.py) writes the union of the keys of all records in
    first-seen order, with [state_name] and then [state_code] moved to
    the front when they occur.  [save_to_obs] (demlevel_fg1.py,
    waterquality_fg1.py) takes the columns from the first record alone:
    its keys in their order, the metadata columns moved to the end.
    The header list that [scrape_waterquality] returns is the set of all
    keys in alphabetical order. *)
Theorem column_order :
  (∀ all_items,
      Rainfall.fieldnames_of all_items
      = filter (fun k => k ∈ Rainfall.first_seen (Rainfall.all_keys all_items))
          ["state_name"; "state_code"]
        ++ filter (fun k => k ∉ ["state_name"; "state_code"])
             (Rainfall.first_seen (Rainfall.all_keys all_items))) ∧
  (∀ extra_cols first_row rest,
      Encoder.fieldnames_of extra_cols (first_row :: rest)
      = filter (fun k => k ∉ extra_cols) (keys first_row)
        ++ filter (fun c => c ∈ keys first_row) extra_cols
      ∧ ∀ k, k ∈ Encoder.fieldnames_of extra_cols (first_row :: rest)
             ↔ k ∈ keys first_row) ∧
  (∀ headers,
      Sorted str_le (WaterQuality.sorted headers)
      ∧ ∀ k, k ∈ WaterQuality.sorted headers ↔ k ∈ headers).
Proof.
  split; [apply fieldnames_of_first_seen|]. split.
  - intros extra_cols first_row rest. split; [done|].
    intros k. apply encoder_fieldnames_elem.
  - apply sorted_spec.
Qed.

(** C4 as stated fails on the water-quality handler.  For two records
    of one state, the second with a key the first lacks, the columns
    [save_to_obs] writes start with a data column, end with the
    metadata, and miss the extra key; and the header list of
    [scrape_waterquality] for the same rows is in alphabetical order,
    not in first-seen order. *)
Lemma column_order_counterexample :
  let rows :=
    WaterQuality.tag_record 1
      <$> [ [("WQI", PStr "82"); ("STATION", PStr "S1")];
            [("WQI", PStr "75"); ("STATION", PStr "S2"); ("RIVER", PStr "Sungai X")] ] in
  Rainfall.first_seen (Rainfall.all_keys rows)
  = ["WQI"; "STATION"; "STATE_ID"; "STATE_NAME"; "state_id"; "state_name"; "RIVER"]
  ∧ WaterQuality.fieldnames_of rows
    = ["WQI"; "STATION"; "STATE_ID"; "STATE_NAME"; "state_id"; "state_name"]
  ∧ WaterQuality.sorted (list_to_set (Rainfall.all_keys rows))
    = ["RIVER"; "STATE_ID"; "STATE_NAME"; "STATION"; "WQI"; "state_id"; "state_name"].
Proof. by vm_compute. Qed.

End ColumnOrder.

(** ** The dataset without records *)

Section EmptyDataset.
Import Py Dom Eff.

(** The header line the encoder of waterlevel_fg.py always writes. *)
Lemma fixed_header :
  Csv.writeheader WaterLevel.FIXED_FIELDNAMES
  = "state_name,bil,id_stesen,nama_stesen,daerah,lembangan,sub_lembangan,"
    +:+ "kemaskini_terakhir,aras_air_m,ambang_normal,ambang_waspada,"
    +:+ "ambang_amaran,ambang_bahaya" +:+ Csv.lineterminator.
Proof. by vm_compute. Qed.

(** C5, as the code has it.  Without a single record, [items_to_csv]
    returns the empty string and the CSV step of [save_to_obs]
    (demlevel_fg1.py, waterquality_fg1.py) writes nothing, header
    included; only the encoder of waterlevel_fg.py, which has a fixed
    column list, still writes its header line. *)
Theorem empty_dataset_output :
  Rainfall.items_to_csv [] = Return "" ∧
  (∀ extra_cols results,
      Encoder.flatten results = [] →
      Encoder.csv_content extra_cols results = Return "") ∧
  (∀ results,
      Encoder.flatten results = [] →
      WaterLevel.csv_content results
      = Return ("state_name,bil,id_stesen,nama_stesen,daerah,lembangan,"
                +:+ "sub_lembangan,kemaskini_terakhir,aras_air_m,ambang_normal,"
                +:+ "ambang_waspada,ambang_amaran,ambang_bahaya"
                +:+ Csv.lineterminator)).
Proof.
  split; [done|]. split.
  - intros extra_cols results Hrows. unfold Encoder.csv_content.
    by rewrite Hrows.
  - intros results Hrows. unfold WaterLevel.csv_content.
    rewrite Hrows. by rewrite fixed_header.
Qed.

(** C5 as stated fails: with no record at all, the rainfall encoder
    and the dam encoder both produce the empty text. *)
Lemma empty_dataset_counterexample :
  Rainfall.items_to_csv [] = Return ""
  ∧ DamLevel.csv_content
      [mkResult (Some "Request failed for Johor (ID=1): timeout")
         (Some (PStr "Johor")) None None;
       mkResult None (Some (PStr "Kedah")) (Some 0%nat) (Some [])]
    = Return "".
Proof. by vm_compute. Qed.

Lemma empty_dataset_output_witness :
  Encoder.flatten [mkResult (Some "Request failed") None None None;
                   mkResult None None (Some 0%nat) (Some [])] = []
  ∧ Encoder.csv_content DamLevel.EXTRA_COLS
      [mkResult (Some "Request failed") None None None;
       mkResult None None (Some 0%nat) (Some [])] = Return ""
  ∧ WaterLevel.csv_content
      [mkResult (Some "Request failed") None None None;
       mkResult None None (Some 0%nat) (Some [])]
    = Return ("state_name,bil,id_stesen,nama_stesen,daerah,lembangan,"
              +:+ "sub_lembangan,kemaskini_terakhir,aras_air_m,ambang_normal,"
              +:+ "ambang_waspada,ambang_amaran,ambang_bahaya"
              +:+ Csv.lineterminator).
Proof.
  destruct empty_dataset_output as (_ & Hsave & Hfixed).
  split_and!.
  - reflexivity.
  - apply Hsave. reflexivity.
  - apply Hfixed. reflexivity.
Defined.

End EmptyDataset.

(** ** Retries of the rainfall fetch *)

Section FetchRetry.
Import Py Dom Eff Rainfall.

Lemma fetch_attempts_spec env state_name attempts tr :
  let request := HttpGet RainfallPage (PStr state_name) REQUEST_TIMEOUT in
  ∃ n resp,
    fetch_attempts env state_name attempts tr
    = (Return resp, tr ++ replicate n request) ∧
    (n ≤ length attempts)%nat ∧
    (∀ i, (i < n - 1)%nat →
          ∃ msg, http_get env (tr ++ replicate i request) RainfallPage
                   (PStr state_name) = HttpRaises msg) ∧
    match resp with
    | Some r =>
        (1 ≤ n)%nat ∧
        http_get env (tr ++ replicate (n - 1) request) RainfallPage
          (PStr state_name) = HttpResponds r
    | None =>
        n = length attempts ∧
        ∀ i, (i < n)%nat →
             ∃ msg, http_get env (tr ++ replicate i request) RainfallPage
                      (PStr state_name) = HttpRaises msg
    end.
Proof.
  intros request. revert tr.
  induction attempts as [|attempt rest IH]; intros tr.
  { exists 0%nat, None. simpl. rewrite app_nil_r.
    split_and!; [done|lia|intros; lia|done|intros; lia]. }
  cbn [fetch_attempts]. unfold_m. fold request.
  destruct (http_get env tr RainfallPage (PStr state_name)) as [m|r] eqn:Hfirst.
  - destruct (IH (tr ++ [request])) as (n & resp & Hrun & Hn & Hraises & Hlast).
    exists (S n), resp. rewrite Hrun, <- app_assoc.
    assert (∀ i, (tr ++ [request]) ++ replicate i request
                 = tr ++ replicate (S i) request) as Hshift
      by (intros; by rewrite <- app_assoc).
    split_and!; [done|simpl; lia|..].
    + intros [|i] Hi; [simpl; rewrite app_nil_r; eauto|].
      rewrite <- Hshift. apply Hraises. lia.
    + destruct resp as [r|].
      * destruct Hlast as [Hpos Hlast]. split; [lia|].
        replace (S n - 1)%nat with (S (n - 1)) by lia. by rewrite <- Hshift.
      * destruct Hlast as [-> Hall]. split; [done|].
        intros [|i] Hi; [simpl; rewrite app_nil_r; eauto|].
        rewrite <- Hshift. apply Hall. simpl in Hi. lia.
  - exists 1%nat, (Some r). simpl. rewrite app_nil_r.
    split_and!; [done|lia|intros; lia|lia|done].
Qed.

Lemma scrape_state_spec env all_items state_code state_name tr :
  let request := HttpGet RainfallPage (PStr state_name) REQUEST_TIMEOUT in
  ∃ n,
    (1 ≤ n ≤ MAX_RETRIES)%nat ∧
    (∀ i, (i < n - 1)%nat →
          ∃ msg, http_get env (tr ++ replicate i request) RainfallPage
                   (PStr state_name) = HttpRaises msg) ∧
    match http_get env (tr ++ replicate (n - 1) request) RainfallPage
            (PStr state_name) with
    | HttpResponds r =>
        scrape_state env all_items (state_code, state_name) tr
        = (Return (if bool_decide (status_code r = 200)
                   then all_items ++ parse_state_page (soup r) state_code state_name
                   else all_items),
           tr ++ replicate n request)
    | HttpRaises _ =>
        n = MAX_RETRIES ∧
        scrape_state env all_items (state_code, state_name) tr
        = (Return all_items, tr ++ replicate n request)
    end.
Proof.
  intros request.
  destruct (fetch_attempts_spec env state_name (seq 1 MAX_RETRIES) tr)
    as (n & resp & Hrun & Hn & Hraises & Hlast).
  fold request in Hrun, Hraises, Hlast.
  rewrite length_seq in Hn, Hlast.
  exists n. unfold scrape_state. unfold_m. rewrite Hrun.
  destruct resp as [r|].
  - destruct Hlast as [Hpos ->]. split_and!; [lia..|done|].
    by repeat case_bool_decide.
  - destruct Hlast as [-> Hall]. unfold MAX_RETRIES. split_and!; [lia..|done|].
    change (3 - 1)%nat with 2%nat.
    destruct (Hall 2%nat) as [msg ->]; [unfold MAX_RETRIES; lia|]. done.
Qed.

(** The loop over the states never raises, and asks for at most
    [MAX_RETRIES] pages per state, each with [REQUEST_TIMEOUT]. *)
Lemma scrape_states_spec env states all_items tr :
  ∃ all_items' requests,
    scrape_states env states all_items tr = (Return all_items', tr ++ requests)
    ∧ (length requests ≤ MAX_RETRIES * length states)%nat
    ∧ Forall (fun e => ∃ state_name,
                e = HttpGet RainfallPage (PStr state_name) REQUEST_TIMEOUT)
        requests.
Proof.
  revert all_items tr.
  induction states as [|[state_code state_name] rest IH]; intros all_items tr.
  { exists all_items, []. rewrite app_nil_r. split_and!; [done|simpl; lia|done]. }
  cbn [scrape_states]. unfold mbind, M_bind, bind.
  destruct (scrape_state_spec env all_items state_code state_name tr)
    as (n & Hn & _ & Hrun).
  set (request := HttpGet RainfallPage (PStr state_name) REQUEST_TIMEOUT) in *.
  assert (∃ items1, scrape_state env all_items (state_code, state_name) tr
                    = (Return items1, tr ++ replicate n request))
    as [items1 ->].
  { destruct (http_get _ _ _ _); [destruct Hrun as [_ ->]|rewrite Hrun]; eauto. }
  destruct (IH items1 (tr ++ replicate n request))
    as (items2 & requests & -> & Hlen & Hall).
  exists items2, (replicate n request ++ requests).
  rewrite <- app_assoc. split_and!; [done|..].
  - rewrite length_app, length_replicate. simpl. unfold MAX_RETRIES in *. lia.
  - apply Forall_app. split; [|done].
    apply Forall_replicate. by exists state_name.
Qed.

(** C9. For one state the rainfall handler issues between one and
    [MAX_RETRIES] = 3 requests, all with the timeout [REQUEST_TIMEOUT]:
    a request is repeated only after the previous one raised, and the
    first response ends the attempts whatever its status.  A response
    whose status is not 200 adds no record and the handler goes on to
    the next state, and so does a third exception in a row: the loop
    over the states always runs to its end. *)
Theorem rainfall_fetch_policy env all_items state_code state_name states tr :
  let request := HttpGet RainfallPage (PStr state_name) REQUEST_TIMEOUT in
  (∃ n,
      (1 ≤ n ≤ MAX_RETRIES)%nat ∧
      (∀ i, (i < n - 1)%nat →
            ∃ msg, http_get env (tr ++ replicate i request) RainfallPage
                     (PStr state_name) = HttpRaises msg) ∧
      match http_get env (tr ++ replicate (n - 1) request) RainfallPage
              (PStr state_name) with
      | HttpResponds r =>
          scrape_state env all_items (state_code, state_name) tr
          = (Return (if bool_decide (status_code r = 200)
                     then all_items
                            ++ parse_state_page (soup r) state_code state_name
                     else all_items),
             tr ++ replicate n request)
      | HttpRaises _ =>
          n = MAX_RETRIES ∧
          scrape_state env all_items (state_code, state_name) tr
          = (Return all_items, tr ++ replicate n request)
      end) ∧
  (∃ all_items' requests,
      scrape_states env states all_items tr = (Return all_items', tr ++ requests)
      ∧ (length requests ≤ MAX_RETRIES * length states)%nat
      ∧ Forall (fun e => ∃ name,
                  e = HttpGet RainfallPage (PStr name) REQUEST_TIMEOUT)
          requests).
Proof.
  intros request. split.
  - apply scrape_state_spec.
  - apply scrape_states_spec.
Qed.

End FetchRetry.

(** ** The fallback between the two water-level sources *)

Section Fallback.
Import Py Dom Eff WaterLevel.

Lemma data_result_rows state_name results :
  has_rows (data_result state_name results) = true
  ↔ ∃ it rest, r_data (data_result state_name results) = Some (it :: rest).
Proof.
  unfold has_rows. rewrite bool_decide_eq_true.
  destruct results as [|it rest]; simpl.
  - split; [lia | by intros (? & ? & [=])].
  - split; [eauto | lia].
Qed.

Lemma error_result_rows msg :
  has_rows (error_result msg) = true
  ↔ ∃ it rest, r_data (error_result msg) = Some (it :: rest).
Proof.
  unfold has_rows. rewrite bool_decide_eq_true. simpl.
  split; [lia | by intros (? & ? & [=])].
Qed.

Lemma legacy_page_rows state_name soup clock :
  has_rows (legacy_page state_name soup clock) = true
  ↔ ∃ it rest, r_data (legacy_page state_name soup clock) = Some (it :: rest).
Proof.
  unfold legacy_page.
  repeat case_match; auto using data_result_rows, error_result_rows.
Qed.

Lemma new_page_rows state_name soup clock :
  has_rows (new_page state_name soup clock) = true
  ↔ ∃ it rest, r_data (new_page state_name soup clock) = Some (it :: rest).
Proof.
  unfold new_page.
  repeat case_match; auto using data_result_rows, error_result_rows.
Qed.

(** The legacy source always returns a result, after exactly one
    request. *)
Lemma legacy_returns env stamped state_name tr :
  ∃ legacy_result,
    _scrape_state_legacy env stamped state_name tr
    = (Return legacy_result, tr ++ [HttpGet WaterLevelLegacy (PStr state_name) 30])
    ∧ (has_rows legacy_result = true
       ↔ ∃ it rest, r_data legacy_result = Some (it :: rest)).
Proof.
  unfold _scrape_state_legacy. unfold_m.
  destruct (http_get _ _ _ _) as [msg|resp].
  - eexists. split; [done|]. apply error_result_rows.
  - case_bool_decide.
    + eexists. split; [done|]. apply error_result_rows.
    + eexists. split; [done|]. apply legacy_page_rows.
Qed.

(** The new source always returns a result, after at most one request,
    which goes to the new endpoint. *)
Lemma new_returns env stamped state_name tr :
  ∃ new_result tr',
    _scrape_state_new env stamped state_name tr = (Return new_result, tr')
    ∧ (tr' = tr ∨ ∃ code, tr' = tr ++ [HttpGet WaterLevelNew (PStr code) 60])
    ∧ (has_rows new_result = true
       ↔ ∃ it rest, r_data new_result = Some (it :: rest)).
Proof.
  unfold _scrape_state_new.
  destruct (get state_name STATE_CODE_MAP) as [code|]; unfold_m.
  2:{ do 2 eexists. split_and!; [done|by left|apply error_result_rows]. }
  destruct (http_get _ _ _ _) as [msg|resp].
  - do 2 eexists. split_and!; [done|right; eauto|apply error_result_rows].
  - case_bool_decide.
    + do 2 eexists. split_and!; [done|right; eauto|apply error_result_rows].
    + do 2 eexists. split_and!; [done|right; eauto|apply new_page_rows].
Qed.

(** C2, as the code has it.  [scrape_state_data] asks the legacy
    source first.  When that yields at least one record its result is
    returned as it is and the trace ends with the legacy request: the
    new source is not called.  Otherwise, whether the legacy source
    failed or returned no row, the new source is called next, and its
    result is returned as it is when it has a record.  Only after both
    have been called does the state fail, with no record and a reason
    made of the errors the sources reported: ["Legacy: e1; New: e2"].
    A source that returned a page without rows reported no error and
    leaves its part out, ["Unknown error"] standing in for a missing
    legacy part, and alone when neither source reported an error. *)
Theorem scrape_state_data_fallback env stamped state_name tr :
  let tr1 := tr ++ [HttpGet WaterLevelLegacy (PStr state_name) 30] in
  ∃ legacy_result,
    _scrape_state_legacy env stamped state_name tr = (Return legacy_result, tr1)
    ∧ (has_rows legacy_result = true
       ↔ ∃ it rest, r_data legacy_result = Some (it :: rest))
    ∧ if has_rows legacy_result then
        scrape_state_data env stamped state_name tr = (Return legacy_result, tr1)
      else
        ∃ new_result tr2,
          _scrape_state_new env stamped state_name tr1 = (Return new_result, tr2)
          ∧ (has_rows new_result = true
             ↔ ∃ it rest, r_data new_result = Some (it :: rest))
          ∧ if has_rows new_result then
              scrape_state_data env stamped state_name tr = (Return new_result, tr2)
            else
              scrape_state_data env stamped state_name tr
              = (Return
                   (mkResult
                      (Some match r_error legacy_result, r_error new_result with
                            | Some e1, Some e2 =>
                                "Legacy: " +:+ e1 +:+ "; New: " +:+ e2
                            | Some e1, None => "Legacy: " +:+ e1
                            | None, Some e2 => "Unknown error; New: " +:+ e2
                            | None, None => "Unknown error"
                            end)
                      (Some (PStr state_name)) (Some 0%nat) (Some [])),
                 tr2).
Proof.
  intros tr1.
  destruct (legacy_returns env stamped state_name tr)
    as (legacy_result & Hlegacy & Hrows1).
  exists legacy_result. split_and!; [done..|].
  unfold scrape_state_data. unfold mbind, M_bind, bind. rewrite Hlegacy.
  destruct (has_rows legacy_result); [done|].
  destruct (new_returns env stamped state_name tr1)
    as (new_result & tr2 & Hnew & _ & Hrows2).
  exists new_result, tr2. split_and!; [done..|].
  fold tr1. rewrite Hnew.
  destruct (has_rows new_result); [done|].
  unfold combined_error.
  by destruct (r_error legacy_result), (r_error new_result).
Qed.

(** C2 as stated fails in its last part: the reason of a failed state
    need not join a failure reason of each source tried.  When both
    sources answer with a table without rows, both are tried and the
    reason is the placeholder ["Unknown error"]; when the legacy source
    times out and the new one answers with such a table, both are tried
    and the reason names the legacy source alone. *)
Lemma scrape_state_data_fallback_counterexample :
  let tried := [ HttpGet WaterLevelLegacy (PStr "Johor") 30;
                 HttpGet WaterLevelNew (PStr "JHR") 60 ] in
  run (scrape_state_data EmptyPages.empty_pages true "Johor")
  = (Return (mkResult (Some "Unknown error") (Some (PStr "Johor"))
               (Some 0%nat) (Some [])),
     tried)
  ∧ run (scrape_state_data EmptyPages.legacy_down true "Johor")
    = (Return (mkResult
                 (Some "Legacy: Legacy URL request failed for Johor: timed out")
                 (Some (PStr "Johor")) (Some 0%nat) (Some [])),
       tried).
Proof. by vm_compute. Qed.

End Fallback.

(** ** The upload gate of the job trigger *)

Section PublishGate.
Import Py Dom Eff.

Lemma dam_scrape_all_trace env state_ids results tr :
  ∃ results' gets,
    DamLevel.scrape_all env state_ids results tr = (Return results', tr ++ gets)
    ∧ Forall is_http_get gets.
Proof.
  revert results tr. induction state_ids as [|state_id rest IH]; intros results tr.
  { exists results, []. by rewrite app_nil_r. }
  cbn [DamLevel.scrape_all]. unfold DamLevel.scrape_dam_data. unfold_m.
  destruct (http_get _ _ _ _) as [msg|resp]; [|case_bool_decide];
    match goal with
    | |- context [DamLevel.scrape_all env rest ?acc ?tr'] =>
        destruct (IH acc tr') as (results' & gets & -> & Hgets)
    end;
    eexists _, (_ :: gets); rewrite <- app_assoc; (split; [done|]);
    by constructor.
Qed.

(** The dam handler starts the CDM job only in a run whose upload was
    answered with a status below 300; the requests before the upload
    are page fetches. *)
Theorem dam_trigger_only_after_upload env state_ids out tr job :
  run (DamLevel.handler env state_ids) = (out, tr) →
  StartCdmJob job ∈ tr →
  ∃ gets content status code message rest,
    tr = gets ++ ObsPut content :: StartCdmJob job :: rest
    ∧ Forall is_http_get gets
    ∧ obs_put env gets content = ObsResponds status code message
    ∧ status < 300.
Proof.
  unfold run, DamLevel.handler, DamLevel.save_to_obs, Encoder.save_to_obs.
  unfold mbind at 1, M_bind at 1, bind at 1, try_except at 1.
  destruct (dam_scrape_all_trace env state_ids [] [])
    as (results & gets & -> & Hgets).
  simpl app. unfold start_cdm_job. unfold_m.
  assert (∀ extra, Forall (fun e => e ≠ StartCdmJob job) (gets ++ extra)
                   → StartCdmJob job ∈ gets ++ extra → False) as Hno.
  { intros extra Hall Hin. by eapply Forall_forall in Hall. }
  assert (Forall (fun e => e ≠ StartCdmJob job) gets) as Hgets'.
  { eapply Forall_impl; [done|]. by intros [] ?. }
  destruct (Encoder.csv_content _ _) as [content|msg].
  2:{ intros [= <- <-] Hin. exfalso. apply (Hno []); rewrite app_nil_r; done. }
  destruct (obs_put env gets content) as [msg|status code message] eqn:Hput.
  { intros [= <- <-] Hin. exfalso. apply (Hno [ObsPut content]); [|done].
    apply Forall_app. split; [done|]. by repeat constructor. }
  case_bool_decide as Hstatus; simpl.
  2:{ intros [= <- <-] Hin. exfalso. apply (Hno [ObsPut content]); [|done].
      apply Forall_app. split; [done|]. by repeat constructor. }
  intros Hrun Hin.
  assert (∃ rest, tr = gets ++ ObsPut content
                         :: StartCdmJob (DamLevel.job_name env) :: rest
                  ∧ Forall (fun e => e ≠ StartCdmJob job) rest)
    as (rest & -> & Hrest).
  { destruct (cdm_ids_set env); simpl in Hrun.
    - destruct (cdm_put _ _ _); [|case_bool_decide]; simpl in Hrun;
        injection Hrun as <- <-; rewrite <- !app_assoc; simpl;
        eexists; (split; [done|]); by repeat constructor.
    - injection Hrun as <- <-. rewrite <- !app_assoc. simpl.
      eexists; (split; [done|]); by repeat constructor. }
  assert (job = DamLevel.job_name env) as ->.
  { apply elem_of_app in Hin as [Hin|Hin].
    { by eapply Forall_forall in Hgets'. }
    apply elem_of_cons in Hin as [[=]|Hin].
    apply elem_of_cons in Hin as [[=]|Hin]; [done|].
    by eapply Forall_forall in Hrest. }
  eauto 10.
Qed.

Lemma dam_trigger_only_after_upload_witness :
  ∃ out tr,
    run (DamLevel.handler Examples.dam_online [1]) = (out, tr)
    ∧ StartCdmJob "demlevel_functiongraph_trigger" ∈ tr
    ∧ ∃ gets content status code message rest,
        tr = gets ++ ObsPut content
                  :: StartCdmJob "demlevel_functiongraph_trigger" :: rest
        ∧ Forall is_http_get gets
        ∧ obs_put Examples.dam_online gets content = ObsResponds status code message
        ∧ status < 300.
Proof.
  eexists _, _. split; [reflexivity|].
  assert (StartCdmJob "demlevel_functiongraph_trigger"
          ∈ (run (DamLevel.handler Examples.dam_online [1])).2) as Hin.
  { vm_compute. apply list_elem_of_In. simpl. tauto. }
  split; [exact Hin|].
  exact (dam_trigger_only_after_upload Examples.dam_online [1] _ _ _ eq_refl Hin).
Defined.

(** C1 fails on the water-quality handler.  In a run where the API
    returns a record for the first state and OBS answers the upload
    with status 500, [save_to_obs] reports the failure, and the handler
    still enters [start_cdm_job] and sends the start request; it
    answers 206. *)
Theorem waterquality_trigger_after_failed_upload :
  let env := Examples.upload_refused in
  let gets := (fun kv => HttpGet WaterQualityApi (PInt kv.1) 30)
                <$> WaterQuality.STATE_MAPPING in
  let content :=
    Csv.writeheader ["STATION"; "WQI"; "STATE_ID"; "STATE_NAME"; "state_id";
                     "state_name"]
    +:+ Csv.writerow [PStr "S1"; PInt 80; PInt 1; PStr "Johor"; PInt 1;
                      PStr "Johor"] in
  obs_put env gets content = ObsResponds 500 "InternalError" "upload refused"
  ∧ run (WaterQuality.handler env)
    = (Return (mkReply 206 None),
       gets ++ [ ObsPut content;
                 StartCdmJob "waterquality_functiongraph_trigger";
                 CdmPut "waterquality_functiongraph_trigger" ]).
Proof. by vm_compute. Qed.

End PublishGate.

(** ** What the CSV writer accepts *)

Section WriterRows.
Import Py Dom Eff CsvText.

Lemma str_app_assoc (a b c : string) : (a +:+ b) +:+ c = a +:+ (b +:+ c).
Proof.
  induction a as [|x a IH]; [done|].
  change (String x ((a +:+ b) +:+ c) = String x (a +:+ (b +:+ c))).
  by rewrite IH.
Qed.

Lemma str_app_nil_r (a : string) : a +:+ "" = a.
Proof.
  induction a as [|x a IH]; [done|].
  change (String x (a +:+ "") = String x a). by rewrite IH.
Qed.

Lemma wrong_fields_fits fieldnames (it : item) :
  fits fieldnames it ↔ Csv.wrong_fields fieldnames it = [].
Proof.
  unfold fits, Csv.wrong_fields. induction (keys it) as [|k ks IH].
  - split; [done|constructor].
  - rewrite Forall_cons, filter_cons, IH. case_decide as Hk.
    + split; [by intros [? _]|done].
    + split; [by intros [_ ?]|done].
Qed.

Lemma dict_to_list_fits fieldnames (it : item) :
  fits fieldnames it →
  Csv.dict_to_list fieldnames it
  = Return ((fun k => default (PStr "") (get k it)) <$> fieldnames).
Proof.
  intros Hfit%wrong_fields_fits. unfold Csv.dict_to_list. by rewrite Hfit.
Qed.

Lemma dict_to_list_misfit fieldnames (it : item) :
  ¬ fits fieldnames it →
  Csv.dict_to_list fieldnames it
  = Raise ("dict contains fields not in fieldnames: "
             +:+ join ", " (repr <$> Csv.wrong_fields fieldnames it)).
Proof.
  rewrite wrong_fields_fits. unfold Csv.dict_to_list.
  by destruct (Csv.wrong_fields fieldnames it).
Qed.

Lemma dict_writerows_fits fieldnames rows buf :
  Forall (fits fieldnames) rows →
  Csv.dict_writerows fieldnames rows buf
  = Return (buf +:+ body_text fieldnames rows).
Proof.
  intros Hfits. revert buf.
  induction Hfits as [|it rows Hit _ IH]; intros buf; simpl.
  - by rewrite str_app_nil_r.
  - unfold Csv.dict_writerow. rewrite dict_to_list_fits by done.
    by rewrite IH, str_app_assoc.
Qed.

Lemma dict_writerows_misfit fieldnames good (it : item) rest buf :
  Forall (fits fieldnames) good →
  ¬ fits fieldnames it →
  Csv.dict_writerows fieldnames (good ++ it :: rest) buf
  = Raise ("dict contains fields not in fieldnames: "
             +:+ join ", " (repr <$> Csv.wrong_fields fieldnames it)).
Proof.
  intros Hgood Hbad. revert buf.
  induction Hgood as [|r good Hr _ IH]; intros buf; simpl.
  - unfold Csv.dict_writerow. by rewrite dict_to_list_misfit.
  - unfold Csv.dict_writerow. rewrite dict_to_list_fits by done. apply IH.
Qed.

Lemma elem_of_all_keys k (all_items : list item) :
  k ∈ Rainfall.all_keys all_items ↔ ∃ it, it ∈ all_items ∧ k ∈ keys it.
Proof.
  unfold Rainfall.all_keys. rewrite list_elem_of_join.
  split.
  - intros (ks & Hk & (it & -> & Hit)%list_elem_of_fmap). eauto.
  - intros (it & Hit & Hk). exists (keys it). split; [done|].
    by apply list_elem_of_fmap_2.
Qed.

Lemma elem_of_fieldnames_of k all_items :
  k ∈ Rainfall.fieldnames_of all_items ↔ ∃ it, it ∈ all_items ∧ k ∈ keys it.
Proof.
  rewrite fieldnames_of_first_seen, <- elem_of_all_keys.
  rewrite elem_of_app, !list_elem_of_filter, elem_of_first_seen.
  destruct (decide (k ∈ ["state_name"; "state_code"])); tauto.
Qed.

Lemma NoDup_fieldnames_of all_items : NoDup (Rainfall.fieldnames_of all_items).
Proof.
  unfold Rainfall.fieldnames_of. simpl.
  do 2 apply NoDup_move_to_front.
  rewrite collect_fieldnames_first_seen. apply NoDup_first_seen.
Qed.

Lemma items_to_csv_cons (it : item) (rest : list item) :
  Rainfall.items_to_csv (it :: rest)
  = Return (Csv.writeheader (Rainfall.fieldnames_of (it :: rest))
            +:+ body_text (Rainfall.fieldnames_of (it :: rest)) (it :: rest)).
Proof.
  unfold Rainfall.items_to_csv.
  apply dict_writerows_fits, Forall_forall. intros r Hr.
  apply Forall_forall. intros k Hk.
  apply elem_of_fieldnames_of. eauto.
Qed.

(** [items_to_csv] never raises.  For at least one record its columns
    are the keys of the records, each once, and its text is the header
    line followed by one line per record, in order, with an empty
    field where a record lacks a column. *)
Theorem items_to_csv_text (it : item) (rest : list item) :
  let fieldnames := Rainfall.fieldnames_of (it :: rest) in
  NoDup fieldnames
  ∧ (∀ k, k ∈ fieldnames ↔ ∃ r, r ∈ it :: rest ∧ k ∈ keys r)
  ∧ Rainfall.items_to_csv (it :: rest)
    = Return (Csv.writeheader fieldnames +:+ body_text fieldnames (it :: rest)).
Proof.
  intros fieldnames. split_and!.
  - apply NoDup_fieldnames_of.
  - intros k. apply elem_of_fieldnames_of.
  - apply items_to_csv_cons.
Qed.

(** [save_to_obs] (demlevel_fg1.py, waterquality_fg1.py) takes its
    columns from the first record.  At the first record with a key the
    first one lacks, the writer raises, naming the keys that are no
    columns: nothing is uploaded and the result is a failure carrying
    that text, which for a single such key is the prefix followed by
    the [repr] of the key.  When no record has such a key there is
    exactly one upload, of the header line and one line per record, and
    the result follows the status of the answer. *)
Theorem save_to_obs_columns env extra_cols results first rest tr :
  Encoder.flatten results = first :: rest →
  keys first ≠ [] →
  let fieldnames := Encoder.fieldnames_of extra_cols (first :: rest) in
  let content := Csv.writeheader fieldnames
                 +:+ body_text fieldnames (first :: rest) in
  (∀ good it tail,
      rest = good ++ it :: tail →
      Forall (fun r => ∀ k, k ∈ keys r → k ∈ keys first) good →
      (∃ k, k ∈ keys it ∧ k ∉ keys first) →
      ∃ names,
        Encoder.save_to_obs env extra_cols results tr
        = (Return (mkObsResult false
                     (Some ("OBS operation failed: "
                              +:+ "dict contains fields not in fieldnames: "
                              +:+ names))),
           tr)
        ∧ ∀ k, filter (fun k => k ∉ keys first) (keys it) = [k] →
               names = repr k)
  ∧ (Forall (fun it => ∀ k, k ∈ keys it → k ∈ keys first) rest →
     ∃ obs_result,
       Encoder.save_to_obs env extra_cols results tr
       = (Return obs_result, tr ++ [ObsPut content])
       ∧ (success obs_result = true
          ↔ ∃ status code message,
              obs_put env tr content = ObsResponds status code message
              ∧ status < 300)).
Proof.
  intros Hrows Hkeys fieldnames content.
  assert (fieldnames ≠ []) as Hcols.
  { destruct (keys first) as [|k ks] eqn:Hk; [done|].
    intros Hnil.
    assert (k ∈ fieldnames) as Hin
      by (apply encoder_fieldnames_elem; rewrite Hk; left).
    rewrite Hnil in Hin. by apply elem_of_nil in Hin. }
  assert (∀ it : item, (∀ k, k ∈ keys it → k ∈ keys first) → fits fieldnames it)
    as Hfits.
  { intros it Hit. apply Forall_forall. intros k Hk.
    apply encoder_fieldnames_elem. eauto. }
  unfold Encoder.save_to_obs, Encoder.csv_content. rewrite Hrows.
  fold fieldnames. split.
  - intros good it tail -> Hgood (k & Hk & Hnot).
    rewrite (dict_writerows_misfit fieldnames (first :: good) it tail).
    + unfold_m. destruct fieldnames as [|c cs] eqn:Hnames; [done|].
      rewrite <-Hnames. eexists. split; [done|].
      intros k' Hsingle.
      assert (Csv.wrong_fields fieldnames it = [k']) as ->; [|done].
      rewrite <-Hsingle. unfold Csv.wrong_fields. apply list_filter_iff.
      intros k0. unfold fieldnames. by rewrite encoder_fieldnames_elem.
    + constructor; [by apply Hfits|].
      eapply Forall_impl; [exact Hgood|]. intros r Hr. by apply Hfits.
    + intros Hfit. eapply Forall_forall in Hfit; [|exact Hk].
      by apply encoder_fieldnames_elem in Hfit.
  - intros Hall.
    rewrite (dict_writerows_fits fieldnames (first :: rest)).
    2:{ constructor; [by apply Hfits|]. eapply Forall_impl; [done|].
        intros it Hit. by apply Hfits. }
    fold content. unfold_m. destruct fieldnames as [|c cs]; [done|].
    destruct (obs_put env tr content) as [msg|status code message].
    + eexists. split; [done|]. simpl. split; [done|].
      by intros (? & ? & ? & [=] & _).
    + case_bool_decide as Hstatus; eexists; (split; [done|]); simpl.
      * split; [eauto|done].
      * split; [done|]. intros (? & ? & ? & [= <- <- <-] & ?). lia.
Qed.

Lemma save_to_obs_columns_witness :
  ∃ first short,
    Encoder.flatten [DamLevel.dam_page 1 "Johor" [uneven_table]] = [first; short]
    ∧ keys first ≠ []
    ∧ filter (fun k => k ∉ keys first) (keys short) = ["Catatan"]
    ∧ Encoder.save_to_obs Examples.dam_online DamLevel.EXTRA_COLS
        [DamLevel.dam_page 1 "Johor" [uneven_table]] []
      = (Return (mkObsResult false
                   (Some ("OBS operation failed: "
                            +:+ "dict contains fields not in fieldnames: "
                            +:+ "'Catatan'"))),
         []).
Proof.
  eexists _, _.
  assert (Encoder.flatten [DamLevel.dam_page 1 "Johor" [uneven_table]]
          = [_; _]) as Hrows by reflexivity.
  split; [exact Hrows|].
  assert (keys (DamLevel.dam_point 1 "Johor"
                  ["Bil"; "Empangan"; "Paras"; "Isipadu"; "Peratus"; "Hujan";
                   "Semalam"; "Semasa"; "Catatan"]
                  (td <$> ["1"; "Empangan A"; "10.0"; "200"; "80"; "0"; "79"; "80"]))
          ≠ []) as Hkeys by discriminate.
  split; [exact Hkeys|].
  match goal with
  | |- ?l = ["Catatan"] ∧ _ => assert (l = ["Catatan"]) as Hwrong by reflexivity
  end.
  split; [exact Hwrong|].
  destruct (proj1 (save_to_obs_columns Examples.dam_online DamLevel.EXTRA_COLS
                     _ _ _ [] Hrows Hkeys) [] _ [] eq_refl (Forall_nil_2 _))
    as (names & Hrun & Hnames).
  - exists "Catatan". split; apply (bool_decide_unpack _); vm_compute; exact I.
  - rewrite (Hnames "Catatan" Hwrong) in Hrun. exact Hrun.
Defined.

End WriterRows.

(** ** The water-level pipeline (waterlevel_fg1.py) *)

Section WaterLevelPipeline.
Import Py Dom Eff CsvText WaterLevelHandlers.

Lemma scrape_state_data_trace env stamped state_name tr :
  ∃ result gets,
    WaterLevel.scrape_state_data env stamped state_name tr
    = (Return result, tr ++ gets)
    ∧ Forall is_http_get gets.
Proof.
  unfold WaterLevel.scrape_state_data. unfold mbind, M_bind, bind.
  destruct (legacy_returns env stamped state_name tr) as (r1 & -> & _).
  destruct (WaterLevel.has_rows r1).
  { eexists _, [_]. split; [done|]. by repeat constructor. }
  destruct (new_returns env stamped state_name
              (tr ++ [HttpGet WaterLevelLegacy (PStr state_name) 30]))
    as (r2 & tr2 & -> & Htr2 & _).
  destruct Htr2 as [->|[code ->]].
  - destruct (WaterLevel.has_rows r2);
      (eexists _, [_]; split; [done|]; by repeat constructor).
  - rewrite <- app_assoc.
    destruct (WaterLevel.has_rows r2);
      (eexists _, [_; _]; split; [done|]; by repeat constructor).
Qed.



End WaterLevelPipeline.

(** ** The water-level handler that always writes its header
       (waterlevel_fg.py) *)

Section WaterLevelFixedHeader.
Import Py Dom Eff CsvText WaterLevelHandlers.

Lemma flatten_from (rows : list item) results :
  foldl (fun rows state_result =>
           match r_data state_result with
           | Some data => rows ++ data
           | None => rows
           end) rows results
  = rows ++ Encoder.flatten results.
Proof.
  unfold Encoder.flatten. revert rows.
  induction results as [|r results IH] using rev_ind; intros rows.
  - by rewrite app_nil_r.
  - rewrite !foldl_app. simpl. rewrite IH.
    destruct (r_data r); [by rewrite app_assoc|done].
Qed.

Lemma flatten_snoc results r :
  Encoder.flatten (results ++ [r])
  = Encoder.flatten results ++ default [] (r_data r).
Proof.
  unfold Encoder.flatten at 1. rewrite foldl_app. simpl.
  fold (Encoder.flatten results).
  destruct (r_data r); simpl; [done|by rewrite app_nil_r].
Qed.

Lemma legacy_page_keys state_name soup data it :
  r_data (WaterLevel.legacy_page state_name soup None) = Some data →
  it ∈ data → keys it = WaterLevel.FIXED_FIELDNAMES.
Proof.
  unfold WaterLevel.legacy_page.
  destruct (find_table_by_id _ _) as [table|]; [|done].
  destruct (t_tbody table) as [rows|]; [|done].
  simpl. intros [= <-]. rewrite legacy_rows_filter.
  by intros (i & tr & -> & _)%elem_of_lookup_imap.
Qed.

Lemma new_page_keys state_name soup data it :
  r_data (WaterLevel.new_page state_name soup None) = Some data →
  it ∈ data → keys it = WaterLevel.FIXED_FIELDNAMES.
Proof.
  unfold WaterLevel.new_page.
  destruct (head soup) as [table|]; [|done].
  simpl. intros [= <-]. rewrite new_rows_filter.
  by intros (i & tr & -> & _)%elem_of_lookup_imap.
Qed.

Lemma legacy_result_keys env state_name tr r tr' data it :
  WaterLevel._scrape_state_legacy env false state_name tr = (Return r, tr') →
  r_data r = Some data → it ∈ data →
  keys it = WaterLevel.FIXED_FIELDNAMES.
Proof.
  unfold WaterLevel._scrape_state_legacy, WaterLevel.clock_at.
  intros Hrun Hdata Hit. unfold_m.
  destruct (http_get _ _ _ _) as [msg|resp]; simplify_eq/=.
  case_bool_decide; simplify_eq/=.
  by eapply legacy_page_keys.
Qed.

Lemma new_result_keys env state_name tr r tr' data it :
  WaterLevel._scrape_state_new env false state_name tr = (Return r, tr') →
  r_data r = Some data → it ∈ data →
  keys it = WaterLevel.FIXED_FIELDNAMES.
Proof.
  unfold WaterLevel._scrape_state_new, WaterLevel.clock_at.
  intros Hrun Hdata Hit.
  destruct (get state_name WaterLevel.STATE_CODE_MAP) as [code|]; unfold_m;
    simplify_eq/=.
  destruct (http_get _ _ _ _) as [msg|resp]; simplify_eq/=.
  case_bool_decide; simplify_eq/=.
  by eapply new_page_keys.
Qed.

Lemma scrape_state_data_keys env state_name tr r tr' data it :
  WaterLevel.scrape_state_data env false state_name tr = (Return r, tr') →
  r_data r = Some data → it ∈ data →
  keys it = WaterLevel.FIXED_FIELDNAMES.
Proof.
  unfold WaterLevel.scrape_state_data. unfold mbind, M_bind, bind.
  destruct (legacy_returns env false state_name tr) as (r1 & H1 & _).
  rewrite H1.
  destruct (WaterLevel.has_rows r1).
  { intros [= <- <-]. by eapply legacy_result_keys. }
  destruct (new_returns env false state_name
              (tr ++ [HttpGet WaterLevelLegacy (PStr state_name) 30]))
    as (r2 & tr2 & H2 & _ & _).
  rewrite H2.
  destruct (WaterLevel.has_rows r2).
  { intros [= <- <-]. by eapply new_result_keys. }
  intros [= <- <-] [= <-] Hit. by apply elem_of_nil in Hit.
Qed.

Lemma scrape_each_spec env states results tr :
  ∃ new_results gets,
    scrape_each env states results tr = (Return (results ++ new_results), tr ++ gets)
    ∧ Scraped.in_turn env states tr new_results (tr ++ gets)
    ∧ Forall is_http_get gets
    ∧ Forall (fun it => keys it = WaterLevel.FIXED_FIELDNAMES)
        (Encoder.flatten new_results).
Proof.
  revert results tr. induction states as [|state rest IH]; intros results tr.
  { exists [], []. rewrite !app_nil_r. split_and!; [done|constructor|done|done]. }
  cbn [scrape_each]. unfold mbind, M_bind, bind.
  destruct (scrape_state_data_trace env false state tr)
    as (res & gets & Hrun & Hgets).
  rewrite Hrun.
  destruct (IH (results ++ [res]) (tr ++ gets))
    as (new_results & gets' & -> & Hturn & Hgets' & Hkeys').
  exists (res :: new_results), (gets ++ gets'). rewrite <-!app_assoc.
  split_and!; [done| |by apply Forall_app|].
  - econstructor; [exact Hrun|]. by rewrite app_assoc.
  - assert (Encoder.flatten (res :: new_results)
            = default [] (r_data res) ++ Encoder.flatten new_results) as ->.
    { unfold Encoder.flatten at 1. simpl. rewrite flatten_from.
      by destruct (r_data res). }
    apply Forall_app. split; [|done].
    destruct (r_data res) as [data|] eqn:Hdata; simpl; [|done].
    apply Forall_forall. intros it Hit.
    by eapply scrape_state_data_keys.
Qed.

(** The handler of waterlevel_fg.py, given its OBS settings, always
    answers 200 after exactly one upload, whatever the pages and the
    object store answer, and never starts a job.  The states are
    scraped in turn, and what is uploaded is the fixed header line
    followed by one line per record of their results, in order; every
    record has exactly the thirteen fixed columns, so the writer
    cannot raise. *)
Theorem waterlevel_fixed_header env states_to_scrape :
  ∃ results gets,
    Scraped.in_turn env states_to_scrape [] results gets
    ∧ Forall is_http_get gets
    ∧ Forall (fun it => keys it = WaterLevel.FIXED_FIELDNAMES)
        (Encoder.flatten results)
    ∧ run (handler0 env true states_to_scrape)
      = (Return (mkReply 200 None),
         gets ++ [ObsPut (Csv.writeheader WaterLevel.FIXED_FIELDNAMES
                          +:+ body_text WaterLevel.FIXED_FIELDNAMES
                                (Encoder.flatten results))]).
Proof.
  destruct (scrape_each_spec env states_to_scrape [] [])
    as (results & gets & Hrun & Hturn & Hgets & Hkeys).
  simpl app in Hrun, Hturn.
  exists results, gets. split_and!; [done..|].
  assert (WaterLevel.csv_content results
          = Return (Csv.writeheader WaterLevel.FIXED_FIELDNAMES
                    +:+ body_text WaterLevel.FIXED_FIELDNAMES
                          (Encoder.flatten results))) as Hcsv.
  { unfold WaterLevel.csv_content.
    destruct (Encoder.flatten results) as [|it rest] eqn:Hrows.
    - simpl. by rewrite str_app_nil_r.
    - apply dict_writerows_fits. eapply Forall_impl; [done|].
      intros r Hr. unfold fits. rewrite Hr.
      apply Forall_forall. auto. }
  unfold run, handler0, save_to_obs0. simpl negb. cbv iota.
  unfold_m. rewrite Hrun, Hcsv. simpl app.
  destruct (obs_put env gets _) as [msg|status code message]; [done|].
  by case_bool_decide.
Qed.

End WaterLevelFixedHeader.

(** ** Water-quality records (waterquality_fg1.py) *)

Section WaterQualityRecords.
Import Py Dom Eff WaterQuality.

Lemma get_set_eq {V} k (v : V) d : get k (set k v d) = Some v.
Proof.
  induction d as [|[k' v'] d IH]; simpl.
  - by rewrite decide_True.
  - case_decide as Hk; simpl; [by rewrite decide_True|].
    by rewrite decide_False.
Qed.

Lemma get_set_ne {V} k k' (v : V) d : k ≠ k' → get k' (set k v d) = get k' d.
Proof.
  intros Hne. induction d as [|[k0 v0] d IH]; simpl.
  - by rewrite decide_False.
  - case_decide as Hk; simpl; [subst|by rewrite IH].
    by rewrite !decide_False.
Qed.

Lemma get_None {V} k (d : dict V) : get k d = None ↔ k ∉ keys d.
Proof.
  unfold keys. induction d as [|[k' v'] d IH]; csimpl.
  - split; [intros _; apply not_elem_of_nil|done].
  - rewrite not_elem_of_cons. case_decide; [|tauto].
    split; [done|tauto].
Qed.

Lemma keys_set_order {V} k (v : V) d :
  keys (set k v d) = if decide (k ∈ keys d) then keys d else keys d ++ [k].
Proof.
  unfold keys. induction d as [|[k' v'] d IH]; csimpl.
  - done.
  - destruct (decide (k = k')) as [->|Hne]; csimpl.
    + by rewrite decide_True by left.
    + rewrite IH. destruct (decide (k ∈ d.*1)) as [Hin|Hin].
      * by rewrite decide_True by by right.
      * by rewrite decide_False by (rewrite not_elem_of_cons; tauto).
Qed.

Lemma keys_set_prefix {V} k (v : V) d : keys d `prefix_of` keys (set k v d).
Proof.
  rewrite keys_set_order. case_decide; [done|]. by apply prefix_app_r.
Qed.

(** The tagging of a record in [fetch_state_water_quality]: the
    lower-case [state_id] and [state_name] are always those of the
    request; the upper-case [STATE_ID] and [STATE_NAME] keep the value
    the API sent and are filled in only when absent; every other field
    is left as it was, and the keys the record had keep their order,
    new ones being added after them. *)
Theorem tag_record_fields (state_id : Z) (record : item) :
  let tagged := tag_record state_id record in
  get "state_id" tagged = Some (PInt state_id)
  ∧ get "state_name" tagged = Some (PStr (state_name_of state_id))
  ∧ get "STATE_ID" tagged
    = Some (default (PInt state_id) (get "STATE_ID" record))
  ∧ get "STATE_NAME" tagged
    = Some (default (PStr (state_name_of state_id)) (get "STATE_NAME" record))
  ∧ (∀ k, k ∉ ["STATE_ID"; "STATE_NAME"; "state_id"; "state_name"] →
          get k tagged = get k record)
  ∧ keys record `prefix_of` keys tagged.
Proof.
  intros tagged. unfold tagged, tag_record, has.
  assert (∀ k (d : item),
             get k (if bool_decide (k ∈ keys d) then d
                    else set k (PInt state_id) d)
             = Some (default (PInt state_id) (get k d))) as Hid.
  { intros k d. case_bool_decide as Hk.
    - destruct (get k d) eqn:Hget; [done|]. by apply get_None in Hget.
    - apply get_None in Hk. by rewrite Hk, get_set_eq. }
  assert (∀ k (d : item),
             get k (if bool_decide (k ∈ keys d) then d
                    else set k (PStr (state_name_of state_id)) d)
             = Some (default (PStr (state_name_of state_id)) (get k d))) as Hname.
  { intros k d. case_bool_decide as Hk.
    - destruct (get k d) eqn:Hget; [done|]. by apply get_None in Hget.
    - apply get_None in Hk. by rewrite Hk, get_set_eq. }
  split_and!.
  - by rewrite get_set_ne, get_set_eq.
  - by rewrite get_set_eq.
  - rewrite !get_set_ne by done.
    case_bool_decide; [by rewrite Hid|].
    by rewrite get_set_ne, Hid.
  - rewrite !get_set_ne by done. rewrite Hname.
    case_bool_decide; [done|]. by rewrite get_set_ne.
  - intros k Hk. rewrite !not_elem_of_cons in Hk.
    rewrite !get_set_ne by naive_solver.
    repeat case_bool_decide; rewrite ?get_set_ne by naive_solver; done.
  - etrans; [|apply keys_set_prefix]. etrans; [|apply keys_set_prefix].
    repeat case_bool_decide;
      repeat (first [done | etrans; [|apply keys_set_prefix]]).
Qed.

End WaterQualityRecords.

(** ** The water-quality scrape loop (waterquality_fg1.py) *)

Section WaterQualityScrape.
Import Py Dom Eff WaterQuality WaterQualityRun.

Lemma fetch_state_water_quality_spec env state_id tr :
  ∃ result,
    fetch_state_water_quality env state_id tr
    = (Return result, tr ++ [quality_get state_id])
    ∧ match r_error result with
      | Some _ => []
      | None => default [] (r_data result)
      end
      = Scraped.answer_rows state_id
          (http_get env tr WaterQualityApi (PInt state_id)).
Proof.
  unfold fetch_state_water_quality, quality_get, Scraped.answer_rows. unfold_m.
  destruct (http_get env tr WaterQualityApi (PInt state_id)) as [e|response].
  - by eexists.
  - case_bool_decide; [by eexists|].
    eexists. split; [done|]. unfold quality_page, error_result.
    destruct (json response) as [payload|e]; [|done].
    destruct (j_error payload); [done|].
    by destruct (default [] (j_crwqi payload)).
Qed.

Lemma elem_of_headers_fold (data : list item) (headers : gset string) k :
  k ∈ foldl (fun hs row => hs ∪ list_to_set (keys row)) headers data
  ↔ k ∈ headers ∨ ∃ it, it ∈ data ∧ k ∈ keys it.
Proof.
  revert headers. induction data as [|row data IH]; intros headers; simpl.
  - split; [by left|]. intros [?|(it & Hit & _)]; [done|].
    by apply elem_of_nil in Hit.
  - rewrite IH, elem_of_union, elem_of_list_to_set. split.
    + intros [[?|?]|(it & Hit & Hk)]; [by left|right..].
      * exists row. split; [left|done].
      * exists it. split; [by right|done].
    + intros [?|(it & Hit & Hk)]; [by left; left|].
      apply elem_of_cons in Hit as [->|Hit]; [by left; right|].
      right. by exists it.
Qed.

Lemma scrape_loop_spec env state_ids all_rows headers tr :
  ∃ headers',
    scrape_loop env state_ids all_rows headers tr
    = (Return (all_rows ++ Scraped.quality_rows env tr state_ids, headers'),
       tr ++ (quality_get <$> state_ids))
    ∧ ∀ k, k ∈ headers'
           ↔ k ∈ headers
             ∨ ∃ it, it ∈ Scraped.quality_rows env tr state_ids ∧ k ∈ keys it.
Proof.
  revert all_rows headers tr.
  induction state_ids as [|state_id rest IH]; intros all_rows headers tr.
  - exists headers. simpl. rewrite !app_nil_r. split; [done|].
    intros k. split; [by left|]. intros [?|(it & Hit & _)]; [done|].
    by apply elem_of_nil in Hit.
  - destruct (fetch_state_water_quality_spec env state_id tr)
      as (result & Hfetch & Hrows).
    cbn [Scraped.quality_rows]. rewrite <-Hrows.
    fold (quality_get state_id).
    change (scrape_loop env (state_id :: rest) all_rows headers tr)
      with (bind (fetch_state_water_quality env state_id)
              (fun result =>
                 match r_error result with
                 | Some _ => scrape_loop env rest all_rows headers
                 | None =>
                     match r_data result with
                     | Some data =>
                         if bool_decide (data ≠ [])
                         then scrape_loop env rest (all_rows ++ data)
                                (foldl (fun hs row => hs ∪ list_to_set (keys row))
                                   headers data)
                         else scrape_loop env rest all_rows headers
                     | None => scrape_loop env rest all_rows headers
                     end
                 end) tr).
    unfold bind. rewrite Hfetch.
    assert (tr ++ (quality_get <$> state_id :: rest)
            = (tr ++ [quality_get state_id]) ++ (quality_get <$> rest)) as ->
      by (by rewrite <-app_assoc).
    assert (∃ headers',
      scrape_loop env rest all_rows headers (tr ++ [quality_get state_id])
      = (Return (all_rows ++ [] ++ Scraped.quality_rows env
                                     (tr ++ [quality_get state_id]) rest,
                 headers'),
         (tr ++ [quality_get state_id]) ++ (quality_get <$> rest))
      ∧ ∀ k, k ∈ headers'
             ↔ k ∈ headers
               ∨ ∃ it, it ∈ [] ++ Scraped.quality_rows env
                                     (tr ++ [quality_get state_id]) rest
                       ∧ k ∈ keys it) as Hskip.
    { apply IH. }
    destruct (r_error result); [exact Hskip|].
    destruct (r_data result) as [data|]; [|exact Hskip].
    simpl default. case_bool_decide as Hdata.
    2:{ subst data. exact Hskip. }
    destruct (IH (all_rows ++ data)
                (foldl (fun hs row => hs ∪ list_to_set (keys row)) headers data)
                (tr ++ [quality_get state_id])) as (headers' & Hrun & Hk).
    exists headers'. split.
    + rewrite Hrun. by rewrite <-!app_assoc.
    + intros k. rewrite Hk, elem_of_headers_fold. split.
      * intros [[?|(it & Hit & Hkeys)]|(it & Hit & Hkeys)]; [by left|right..];
          exists it; (split; [|done]); apply elem_of_app; [by left|by right].
      * intros [?|(it & Hit & Hkeys)]; [by left; left|].
        apply elem_of_app in Hit as [Hit|Hit]; [left; right|right];
          by exists it.
Qed.

Lemma quality_rows_tagged env tr state_ids :
  Forall (fun it => ∃ state_id record,
              state_id ∈ state_ids ∧ it = tag_record state_id record)
    (Scraped.quality_rows env tr state_ids).
Proof.
  revert tr. induction state_ids as [|state_id rest IH]; intros tr; [constructor|].
  cbn [Scraped.quality_rows]. apply Forall_app. split.
  - unfold Scraped.answer_rows.
    destruct (http_get env tr WaterQualityApi (PInt state_id)) as [e|r]; [done|].
    case_bool_decide; [done|].
    destruct (json r) as [payload|e]; [|done].
    destruct (j_error payload); [done|].
    apply Forall_fmap, Forall_true. intros record.
    exists state_id, record. split; [left|done].
  - eapply Forall_impl; [apply IH|]. intros it (id & record & Hid & ->).
    exists id, record. split; [by right|done].
Qed.

(** A run of [scrape_waterquality] makes exactly one API request per
    state of [STATE_MAPPING], in the mapping's order, each with timeout
    30, and never raises.  The rows it collects are exactly those the
    answers give, state after state: the tagged records of every answer
    that is a JSON object without error, nothing for a request or a
    payload that fails.  It fails exactly when these are no rows at
    all.  Otherwise it returns them with a header list that is sorted,
    free of duplicates and holds exactly the keys that occur in some
    row.  Every row carries the id and the name of one of the 16
    states under [state_id] and [state_name]. *)
Theorem scrape_waterquality_runs (env : Env) :
  let rows := Scraped.quality_rows env [] STATE_MAPPING.*1 in
  ∃ scraped,
    run (scrape_waterquality env)
    = (Return scraped, (fun kv => quality_get kv.1) <$> STATE_MAPPING)
    ∧ (rows = [] →
       scraped = ScrapeFailed "No water quality data found from any state")
    ∧ (rows ≠ [] →
       ∃ headers,
         scraped = ScrapeOk headers rows
         ∧ Sorted str_le headers
         ∧ NoDup headers
         ∧ ∀ k, k ∈ headers ↔ ∃ it, it ∈ rows ∧ k ∈ keys it)
    ∧ Forall (fun it => ∃ state_id,
                  state_id ∈ STATE_MAPPING.*1
                  ∧ get "state_id" it = Some (PInt state_id)
                  ∧ get "state_name" it
                    = Some (PStr (state_name_of state_id))) rows.
Proof.
  intros rows.
  destruct (scrape_loop_spec env (fst <$> STATE_MAPPING) [] ∅ [])
    as (headers & Hrun & Hk).
  fold rows in Hrun, Hk.
  unfold run, scrape_waterquality. unfold_m. rewrite Hrun.
  rewrite <-list_fmap_compose. simpl app.
  assert (Forall (fun it => ∃ state_id,
                    state_id ∈ STATE_MAPPING.*1
                    ∧ get "state_id" it = Some (PInt state_id)
                    ∧ get "state_name" it
                      = Some (PStr (state_name_of state_id))) rows) as Htagged.
  { eapply Forall_impl; [apply quality_rows_tagged|].
    intros it (id & record & Hid & ->).
    exists id. split; [done|]. unfold tag_record. split.
    - by rewrite get_set_ne, get_set_eq.
    - by rewrite get_set_eq. }
  destruct rows as [|row rows'] eqn:Hrows.
  - eexists. split; [done|]. by split_and!.
  - eexists. split; [done|]. split_and!; [done| |done].
    intros _. exists (sorted headers). split_and!.
    + done.
    + apply sorted_spec.
    + unfold sorted. rewrite merge_sort_Permutation. apply NoDup_elements.
    + intros k. rewrite (proj2 (sorted_spec headers)), Hk. split.
      * intros [Hempty|?]; [|done]. by apply elem_of_empty in Hempty.
      * by right.
Qed.

End WaterQualityScrape.

(** ** The regrouping by state (waterquality_fg1.py, handler) *)

Section WaterQualityRegroup.
Import Py Dom Eff WaterQuality WaterQualityRun.

Lemma group_append_keys key row groups :
  (group_append key row groups).*1
  = if decide (key ∈ groups.*1) then groups.*1 else groups.*1 ++ [key].
Proof.
  induction groups as [|[k rs] groups IH]; csimpl; [done|].
  destruct (decide (k = key)) as [->|Hne]; csimpl.
  - by rewrite decide_True by left.
  - rewrite IH. destruct (decide (key ∈ groups.*1)) as [Hin|Hin].
    + by rewrite decide_True by by right.
    + by rewrite decide_False by (rewrite not_elem_of_cons; naive_solver).
Qed.

Lemma group_append_rows key row groups :
  mjoin (group_append key row groups).*2 ≡ₚ mjoin groups.*2 ++ [row].
Proof.
  induction groups as [|[k rs] groups IH]; csimpl; [done|].
  case_decide; csimpl.
  - rewrite <-!app_assoc. f_equiv. apply Permutation_app_comm.
  - by rewrite IH, app_assoc.
Qed.

Lemma group_append_head key row groups :
  Forall (fun g => g.2 ≠ []) groups →
  head (mjoin (group_append key row groups).*2)
  = head (mjoin groups.*2 ++ [row]).
Proof.
  destruct groups as [|[k rs] groups]; csimpl; [done|].
  intros Hne. apply Forall_cons_1 in Hne as [Hrs _]. simpl in Hrs.
  destruct rs as [|r rs]; [done|].
  by case_decide.
Qed.

Lemma group_append_filter key row groups rows :
  key = state_key row →
  NoDup groups.*1 →
  (key ∉ groups.*1 → rows_of_state key rows = []) →
  Forall (fun g => g.2 = rows_of_state g.1 rows) groups →
  Forall (fun g => g.2 = rows_of_state g.1 (rows ++ [row]))
    (group_append key row groups).
Proof.
  intros ->. unfold rows_of_state.
  induction groups as [|[k rs] groups IH]; csimpl; intros Hnodup Hnew Hgroups.
  - apply Forall_singleton. simpl. rewrite filter_app, Hnew by apply not_elem_of_nil.
    rewrite filter_cons_True by done. done.
  - apply NoDup_cons in Hnodup as [Hk Hnodup].
    apply Forall_cons_1 in Hgroups as [Hrs Hgroups]. simpl in Hrs.
    case_decide as Heq.
    + subst k. apply Forall_cons. split.
      * simpl. rewrite filter_app, <-Hrs. by rewrite filter_cons_True by done.
      * rewrite Forall_forall in Hgroups. apply Forall_forall.
        intros [k' rs'] Hin. pose proof (Hgroups _ Hin) as Hrs'. simpl in *.
        rewrite filter_app, <-Hrs'.
        rewrite filter_cons_False, filter_nil, app_nil_r; [done|].
        intros Hsame. apply Hk. rewrite Hsame.
        apply list_elem_of_fmap. by exists (k', rs').
    + apply Forall_cons. split.
      * simpl. rewrite filter_app, <-Hrs.
        rewrite filter_cons_False, filter_nil, app_nil_r; [done|]. congruence.
      * apply IH; [done| |done]. intros Hnotin. apply Hnew.
        rewrite not_elem_of_cons. split; [congruence|done].
Qed.

Lemma rows_by_state_spec rows :
  let groups := rows_by_state rows in
  NoDup groups.*1
  ∧ Forall (fun g => g.2 = rows_of_state g.1 rows ∧ g.2 ≠ []) groups
  ∧ (∀ row, row ∈ rows → state_key row ∈ groups.*1)
  ∧ mjoin groups.*2 ≡ₚ rows
  ∧ head (mjoin groups.*2) = head rows.
Proof.
  unfold rows_by_state.
  induction rows as [|row rows IH] using rev_ind; simpl.
  - split_and!; [constructor|constructor| |done|done].
    intros row Hrow. by apply elem_of_nil in Hrow.
  - rewrite foldl_app. simpl.
    destruct IH as (Hnodup & Hgroups & Hkeys & Hperm & Hhead).
    set (groups := foldl _ [] rows) in *.
    assert (state_key row ∉ groups.*1 → rows_of_state (state_key row) rows = [])
      as Hnew.
    { intros Hnotin. unfold rows_of_state.
      destruct (filter _ rows) as [|r rs] eqn:Hf; [done|].
      assert (r ∈ filter (fun r => state_key r = state_key row) rows) as Hr
        by (rewrite Hf; left).
      apply list_elem_of_filter in Hr as [Hsame Hr].
      destruct Hnotin. rewrite <-Hsame. by apply Hkeys. }
    assert (Forall (fun g => g.2 = rows_of_state g.1 (rows ++ [row]))
              (group_append (state_key row) row groups)) as Hfilter.
    { apply group_append_filter; [done|done|done|].
      eapply Forall_impl; [exact Hgroups|]. by intros g [? _]. }
    split_and!.
    + rewrite group_append_keys. case_decide; [done|].
      apply NoDup_app. split_and!; [done| |apply NoDup_singleton].
      intros k Hk Hk'. apply list_elem_of_singleton in Hk'. by subst.
    + rewrite Forall_forall in Hfilter. apply Forall_forall.
      intros g Hg. split; [by apply Hfilter|].
      rewrite (Hfilter g Hg). unfold rows_of_state. intros Hnil.
      assert (g.1 ∈ (group_append (state_key row) row groups).*1) as Hin.
      { apply list_elem_of_fmap. by exists g. }
      rewrite group_append_keys in Hin.
      rewrite filter_app in Hnil. apply app_eq_nil in Hnil as [Hold Hlast].
      destruct (decide (state_key row = g.1)) as [Hsame|Hdiff].
      { by rewrite filter_cons_True in Hlast by done. }
      assert (g.1 ∈ groups.*1) as Hin'.
      { case_decide; [done|].
        apply elem_of_app in Hin as [?|Hin]; [done|].
        apply list_elem_of_singleton in Hin. congruence. }
      apply list_elem_of_fmap in Hin' as (g' & Hfst & Hg').
      rewrite Forall_forall in Hgroups.
      destruct (Hgroups g' Hg') as [Hrows Hne].
      apply Hne. rewrite Hrows. unfold rows_of_state. by rewrite <-Hfst.
    + intros r Hr. rewrite group_append_keys.
      apply elem_of_app in Hr as [Hr|Hr].
      * case_decide; [by apply Hkeys|]. apply elem_of_app. left. by apply Hkeys.
      * apply list_elem_of_singleton in Hr as ->.
        case_decide; [done|]. apply elem_of_app. right. left.
    + by rewrite group_append_rows, Hperm.
    + rewrite group_append_head.
      * destruct (mjoin groups.*2) as [|r rs] eqn:Hjoin.
        -- apply Permutation_nil_l in Hperm. by subst.
        -- destruct rows as [|r' rows']; [by apply Permutation_nil_r in Hperm|].
           simpl in *. done.
      * eapply Forall_impl; [exact Hgroups|]. by intros g [_ ?].
Qed.

Lemma flatten_state_results (groups : list (pyval * list item)) :
  Encoder.flatten
    ((fun '(state_name, state_rows) =>
        mkResult None (Some state_name) (Some (length state_rows))
          (Some state_rows)) <$> groups)
  = mjoin groups.*2.
Proof.
  induction groups as [|[k rs] groups IH]; csimpl; [done|].
  unfold Encoder.flatten. simpl. rewrite flatten_from. by rewrite IH.
Qed.

(** The regrouping of [handler] before the upload loses nothing: there
    is one result per state name that occurs, in the order of first
    occurrence; the result of a state holds exactly the rows of that
    state, in the order of the scrape, and is never empty, with their
    number under [count]; the rows that [save_to_obs] flattens again are
    a rearrangement of the scraped rows, and the first row stays the
    first, so the columns of the CSV are those of the first scraped
    row. *)
Theorem regroup_keeps_rows (rows : list item) :
  let results := state_results_of rows in
  NoDup (r_state <$> results)
  ∧ Forall (fun r => ∃ state_name,
                r = mkResult None (Some state_name)
                      (Some (length (rows_of_state state_name rows)))
                      (Some (rows_of_state state_name rows))
                ∧ rows_of_state state_name rows ≠ []) results
  ∧ Encoder.flatten results ≡ₚ rows
  ∧ fieldnames_of (Encoder.flatten results) = fieldnames_of rows.
Proof.
  intros results.
  destruct (rows_by_state_spec rows) as (Hnodup & Hgroups & _ & Hperm & Hhead).
  simpl in *.
  assert (results
          = (fun '(state_name, state_rows) =>
               mkResult None (Some state_name) (Some (length state_rows))
                 (Some state_rows)) <$> rows_by_state rows) as -> by done.
  split_and!.
  - rewrite <-list_fmap_compose.
    apply (NoDup_fmap_2 Some) in Hnodup.
    rewrite <-list_fmap_compose in Hnodup.
    erewrite list_fmap_ext; [exact Hnodup|]. by intros i [k rs] _.
  - apply Forall_fmap. eapply Forall_impl; [exact Hgroups|].
    intros [k rs] [Hrs Hne]. simpl in *. exists k. by rewrite <-Hrs.
  - by rewrite flatten_state_results.
  - rewrite flatten_state_results. unfold fieldnames_of, Encoder.fieldnames_of.
    destruct (mjoin (rows_by_state rows).*2) as [|r rs];
      destruct rows as [|r' rows']; simplify_eq/=; done.
Qed.

End WaterQualityRegroup.

(** ** The dam handler: selection of the states and the scrape
    (demlevel_fg1.py) *)

Section DamStates.
Import Py Dom Eff DamLevel DamRequest.

Lemma flatten_cons r results :
  Encoder.flatten (r :: results)
  = default [] (r_data r) ++ Encoder.flatten results.
Proof.
  unfold Encoder.flatten at 1. simpl. rewrite flatten_from.
  by destruct (r_data r).
Qed.

Lemma flatten_app results1 results2 :
  Encoder.flatten (results1 ++ results2)
  = Encoder.flatten results1 ++ Encoder.flatten results2.
Proof.
  induction results1 as [|r results1 IH]; [done|].
  rewrite <-app_comm_cons, !flatten_cons, IH. by rewrite app_assoc.
Qed.

Lemma dam_page_spec state_id state_name soup :
  let result := dam_page state_id state_name soup in
  r_state result = Some (PStr state_name)
  ∧ r_count result = length <$> r_data result
  ∧ Forall (fun it => get "state_id" it = Some (PInt state_id)
                      ∧ get "state_name" it = Some (PStr state_name))
      (default [] (r_data result)).
Proof.
  unfold dam_page, error_result.
  destruct (find_table_by_class "table" soup) as [table|];
    [|by split_and!; [..|constructor]].
  destruct (t_thead table) as [head_cells|]; [|by split_and!; [..|constructor]].
  destruct (t_tbody table) as [rows|]; [|by split_and!; [..|constructor]].
  simpl. split_and!; [done|done|].
  rewrite dam_rows_filter. apply Forall_fmap, Forall_true. intros tr.
  unfold compose, dam_point. split.
  - by rewrite get_set_ne, get_set_eq.
  - by rewrite get_set_eq.
Qed.

Lemma scrape_dam_data_spec env state_id tr :
  scrape_dam_data env state_id (state_name_of state_id) tr
  = (Return (Scraped.dam_result state_id (http_get env tr DamPage (PInt state_id))),
     tr ++ [dam_get state_id]).
Proof.
  unfold scrape_dam_data, dam_get, Scraped.dam_result. unfold_m.
  destruct (http_get env tr DamPage (PInt state_id)) as [e|response]; [done|].
  by case_bool_decide.
Qed.

Lemma dam_result_spec state_id answer :
  let result := Scraped.dam_result state_id answer in
  r_state result = Some (PStr (state_name_of state_id))
  ∧ r_count result = length <$> r_data result
  ∧ Forall (fun it => get "state_id" it = Some (PInt state_id)
                      ∧ get "state_name" it = Some (PStr (state_name_of state_id)))
      (default [] (r_data result)).
Proof.
  unfold Scraped.dam_result.
  destruct answer as [e|r]; [by split_and!; [..|constructor]|].
  case_bool_decide; [by split_and!; [..|constructor]|].
  apply dam_page_spec.
Qed.

Lemma scrape_all_spec env state_ids results tr :
  scrape_all env state_ids results tr
  = (Return (results ++ Scraped.dam_results env tr state_ids),
     tr ++ (dam_get <$> state_ids)).
Proof.
  revert results tr.
  induction state_ids as [|state_id rest IH]; intros results tr.
  - simpl. by rewrite !app_nil_r.
  - cbn [scrape_all Scraped.dam_results]. unfold_m.
    rewrite scrape_dam_data_spec, IH. csimpl. by rewrite <-!app_assoc.
Qed.

Lemma dam_results_spec env tr state_ids :
  let results := Scraped.dam_results env tr state_ids in
  r_state <$> results
  = (fun state_id => Some (PStr (state_name_of state_id))) <$> state_ids
  ∧ Forall (fun r => r_count r = length <$> r_data r) results
  ∧ Forall (fun it => ∃ state_id,
                state_id ∈ state_ids
                ∧ get "state_id" it = Some (PInt state_id)
                ∧ get "state_name" it = Some (PStr (state_name_of state_id)))
      (Encoder.flatten results).
Proof.
  revert tr. induction state_ids as [|state_id rest IH]; intros tr.
  - by split_and!; [..|constructor].
  - cbn [Scraped.dam_results].
    destruct (IH (tr ++ [HttpGet DamPage (PInt state_id) 60]))
      as (Hstates & Hcounts & Hall).
    destruct (dam_result_spec state_id (http_get env tr DamPage (PInt state_id)))
      as (Hstate & Hcount & Hrows).
    split_and!.
    + csimpl. by rewrite Hstate, Hstates.
    + by apply Forall_cons.
    + rewrite flatten_cons. apply Forall_app. split.
      * eapply Forall_impl; [exact Hrows|]. intros it [Hid Hname].
        exists state_id. split; [left|done].
      * eapply Forall_impl; [exact Hall|]. intros it (id & Hin & Hit).
        exists id. split; [by right|done].
Qed.

Lemma total_dams_rows results :
  Forall (fun r => r_count r = length <$> r_data r) results →
  total_dams results = length (Encoder.flatten results).
Proof.
  unfold total_dams. induction 1 as [|r results Hr _ IH]; [done|].
  rewrite flatten_cons, length_app, <-IH. csimpl.
  rewrite Hr. by destruct (r_data r).
Qed.

(** The scrape of the dam handler makes exactly one page request per
    selected state id, in the order given, each with timeout 60, and
    never raises.  Its results are those the answers give, state after
    state: an error result for a request that raised or was answered
    with a status in 400-599, else the result of the page.  There is
    one result per state id, labelled with the name of the state; every
    record carries the id and the name of its state; and [total_dams],
    the sum of the [count] fields, is the number of records in the
    results. *)
Theorem dam_scrape_runs (env : Env) (state_ids : list Z) :
  let results := Scraped.dam_results env [] state_ids in
  run (scrape_all env state_ids []) = (Return results, dam_get <$> state_ids)
  ∧ r_state <$> results
    = (fun state_id => Some (PStr (state_name_of state_id))) <$> state_ids
  ∧ total_dams results = length (Encoder.flatten results)
  ∧ Forall (fun it => ∃ state_id,
                state_id ∈ state_ids
                ∧ get "state_id" it = Some (PInt state_id)
                ∧ get "state_name" it = Some (PStr (state_name_of state_id)))
      (Encoder.flatten results).
Proof.
  intros results.
  destruct (dam_results_spec env [] state_ids) as (Hstates & Hcounts & Hrows).
  split_and!; [|done| |done].
  - unfold run. by rewrite scrape_all_spec.
  - by apply total_dams_rows.
Qed.

Lemma find_state_id_elem name state_id :
  find_state_id name = Some state_id →
  ∃ v, (state_id, v) ∈ STATE_MAPPING ∧ lower v = lower name.
Proof.
  unfold find_state_id. intros Hfind.
  destruct (filter _ STATE_MAPPING) as [|[k v] matches] eqn:Hfilter;
    simplify_eq/=.
  assert ((state_id, v) ∈ filter (fun kv => lower kv.2 = lower name) STATE_MAPPING)
    as Hin by (rewrite Hfilter; left).
  apply list_elem_of_filter in Hin as [Hlow Hin]. by exists v.
Qed.

Lemma find_state_id_match name state_id v :
  (state_id, v) ∈ STATE_MAPPING → lower v = lower name →
  found (find_state_id name) = Some state_id.
Proof.
  intros Hin Hlow. unfold find_state_id. rewrite <-Hlow. clear Hlow.
  unfold STATE_MAPPING in Hin.
  repeat (apply elem_of_cons in Hin as [Hin|Hin];
          [by simplify_eq; vm_compute|]).
  by apply elem_of_nil in Hin.
Qed.

Lemma find_state_id_none name :
  (∀ state_id v, (state_id, v) ∈ STATE_MAPPING → lower v ≠ lower name) →
  find_state_id name = None.
Proof.
  intros Hnone. destruct (find_state_id name) as [state_id|] eqn:Hfind; [|done].
  apply find_state_id_elem in Hfind as (v & Hin & Hlow). by destruct (Hnone _ _ Hin).
Qed.

(** The selection of the states from the request body, when no
    ["state_id"] is given.  A ["state"] name is looked up without regard
    to case: a name of the mapping selects its id, and any other name is
    answered with status 400 before any request or upload is made.
    Under ["states"] the names are looked up in the same way, but a name
    that is not in the mapping is dropped without an error: the ids
    selected are exactly those of the names that match. *)
Theorem dam_state_selection (env : Env) (name : string)
    (state_ids : option (list Z)) (names : list string) (states : option (list string)) :
  (∀ state_id v, (state_id, v) ∈ STATE_MAPPING → lower v = lower name →
      select_states (mkBody None (Some name) state_ids states)
      = Selected [state_id])
  ∧ ((∀ state_id v, (state_id, v) ∈ STATE_MAPPING → lower v ≠ lower name) →
      run (handler_body env (mkBody None (Some name) state_ids states))
      = (Return (mkReply 400
                   (Some ("State '" +:+ name +:+ "' not found in mapping"))), []))
  ∧ ∃ selected,
      select_states (mkBody None None None (Some names)) = Selected selected
      ∧ ∀ state_id, state_id ∈ selected
          ↔ ∃ n v, n ∈ names ∧ (state_id, v) ∈ STATE_MAPPING ∧ lower v = lower n.
Proof.
  split_and!.
  - intros state_id v Hin Hlow. unfold select_states. simpl.
    by rewrite (find_state_id_match _ _ _ Hin Hlow).
  - intros Hnone. unfold handler_body, select_states. simpl.
    by rewrite (find_state_id_none _ Hnone).
  - eexists. split; [done|]. intros state_id.
    rewrite list_elem_of_omap. split.
    + intros (n & Hn & Hfound). exists n.
      unfold found in Hfound.
      destruct (find_state_id n) as [k|] eqn:Hfind; [|done].
      case_bool_decide; simplify_eq.
      apply find_state_id_elem in Hfind as (v & Hin & Hlow). by exists v.
    + intros (n & v & Hn & Hin & Hlow). exists n. split; [done|].
      by eapply find_state_id_match.
Qed.

Lemma dam_state_selection_witness :
  select_states (mkBody None (Some (Unicode.chr 0x212A +:+ "EDAH")) None None)
  = Selected [2]
  ∧ run (handler_body Examples.dam_online
           (mkBody None (Some "Atlantis") None None))
    = (Return (mkReply 400 (Some "State 'Atlantis' not found in mapping")), []).
Proof.
  split.
  - destruct (dam_state_selection Examples.dam_online
                (Unicode.chr 0x212A +:+ "EDAH") None [] None) as (Hsel & _ & _).
    apply (Hsel 2 "Kedah"); [|by vm_compute].
    apply (bool_decide_unpack _). vm_compute. exact I.
  - destruct (dam_state_selection Examples.dam_online "Atlantis" None [] None)
      as (_ & Hnone & _).
    apply Hnone. intros state_id v Hin. unfold STATE_MAPPING in Hin.
    repeat (apply elem_of_cons in Hin as [Hin|Hin];
            [by simplify_eq; vm_compute|]).
    by apply elem_of_nil in Hin.
Defined.

End DamStates.

(** ** The parser of the new rainfall page
    (rainfall_fn(bs-csv)/rainfall_fg.py) *)

Section RainfallNewPage.
Import Py Dom Eff RainfallNew.

Lemma slice_chunk {A} (i n : nat) (l : list A) :
  (i ≤ length l)%nat →
  slice (Some (Z.of_nat i)) (Some (Z.of_nat (i + n))) l = take n (drop i l).
Proof.
  intros Hi. unfold slice, clamp_index.
  destruct (Z.ltb_spec (Z.of_nat i) 0) as [Hneg|_]; [lia|].
  destruct (Z.ltb_spec (Z.of_nat (i + n)) 0) as [Hneg|_]; [lia|].
  rewrite (Z.min_l (Z.of_nat i)), Nat2Z.id by lia.
  destruct (decide (i + n ≤ length l)%nat) as [Hle|Hgt].
  - rewrite Z.min_l by lia. f_equal. lia.
  - rewrite Z.min_r by lia.
    rewrite !take_ge; [done|rewrite length_drop; lia..].
Qed.

Lemma keep_rows_filter state_code state_name columns rows :
  foldl (keep_row state_code state_name columns) [] rows
  = Rainfall.make_item state_code state_name columns
      <$> filter (fun row => length row = length columns) rows.
Proof.
  induction rows as [|row rows IH] using rev_ind; [done|].
  rewrite foldl_app, filter_app, fmap_app, IH. simpl.
  unfold keep_row at 1. rewrite filter_cons, filter_nil.
  case_bool_decide as Hlen; case_decide as Hlen'; try done.
  by rewrite app_nil_r.
Qed.

Lemma range_step_count (len n : nat) :
  n ≠ 0%nat →
  ((len + n - 1) / n
   = len / n + (if decide (len `mod` n = 0) then 0 else 1))%nat.
Proof.
  intros Hn.
  pose proof (Nat.div_mod_eq len n) as Hdiv.
  pose proof (Nat.mod_upper_bound len n Hn) as Hmod.
  case_decide as Hr; symmetry.
  - apply (Nat.div_unique _ _ _ (n - 1)); lia.
  - apply (Nat.div_unique _ _ _ (len `mod` n - 1)); lia.
Qed.

Lemma group_rows_complete {A} (n : nat) (l : list A) :
  n ≠ 0%nat →
  filter (fun row => length row = n)
    ((fun i => slice (Some (Z.of_nat i)) (Some (Z.of_nat (i + n))) l)
       <$> range_step (length l) n)
  = (fun j => take n (drop (j * n) l)) <$> seq 0 (length l / n).
Proof.
  intros Hn. unfold range_step.
  pose proof (Nat.div_mod_eq (length l) n) as Hdiv.
  pose proof (Nat.mod_upper_bound (length l) n Hn) as Hmod.
  assert (∀ j, (j < length l / n)%nat → (j * n + n ≤ length l)%nat) as Hfull.
  { intros j Hj. nia. }
  assert (filter (fun row => length row = n)
            ((fun i => slice (Some (Z.of_nat i)) (Some (Z.of_nat (i + n))) l)
               <$> ((fun j => j * n)%nat <$> seq 0 (length l / n)))
          = (fun j => take n (drop (j * n) l)) <$> seq 0 (length l / n))
    as Hcomplete.
  { rewrite <-list_fmap_compose.
    rewrite filter_all.
    - apply list_fmap_ext. intros i j Hj. apply lookup_seq in Hj as [-> Hj].
      simpl. apply slice_chunk. specialize (Hfull _ Hj). lia.
    - apply Forall_fmap, Forall_forall. intros j Hj.
      apply elem_of_seq in Hj as [_ Hj]. specialize (Hfull _ Hj). simpl.
      rewrite slice_chunk by lia. rewrite length_take, length_drop. lia. }
  rewrite range_step_count by done. case_decide as Hr.
  - by rewrite Nat.add_0_r.
  - rewrite Nat.add_1_r, seq_S, !fmap_app, filter_app, Hcomplete. simpl.
    rewrite filter_cons_False, filter_nil, app_nil_r; [done|].
    rewrite slice_chunk by nia. rewrite length_take, length_drop. nia.
Qed.

(** [parse_state_page_new] does not follow the rows of the page: it
    takes all the cells of the body in document order and cuts them
    into groups of as many cells as there are columns.  With [n]
    columns and [m] cells it returns [m / n] records (rounded down), the
    [i]-th built from the cells [i*n] to [i*n + n - 1]; the cells left
    over at the end are dropped.  A header without column labels and a
    body with cells make it raise. *)
Theorem new_page_groups (soup : Document) (state_code state_name : string)
    (table : Table) (head_cells : list Cell) (body_rows : list Row) :
  find_table_by_id "normaltable1" soup = Some table →
  t_thead table = Some head_cells →
  t_tbody table = Some body_rows →
  let columns := columns_of (text_spaced <$> find_th head_cells) in
  let td_values := text_spaced <$> mjoin (find_td <$> body_rows) in
  let ncols := length columns in
  (ncols ≠ 0%nat →
   ∃ items,
     parse_state_page_new soup state_code state_name = Return items
     ∧ length items = (length td_values / ncols)%nat
     ∧ ∀ i, (i < length items)%nat →
            items !! i
            = Some (Rainfall.make_item state_code state_name columns
                      (take ncols (drop (i * ncols) td_values))))
  ∧ (ncols = 0%nat → td_values ≠ [] →
     parse_state_page_new soup state_code state_name
     = Raise "range() arg 3 must not be zero").
Proof.
  intros Htable Hhead Hbody columns td_values ncols.
  unfold parse_state_page_new. rewrite Htable, Hhead, Hbody.
  fold columns td_values ncols. unfold group_rows. fold ncols. split.
  - intros Hn. rewrite bool_decide_false by done.
    destruct td_values as [|v values] eqn:Hvalues.
    { exists []. rewrite Nat.Div0.div_0_l. split_and!; [done|done|].
      simpl. lia. }
    rewrite <-Hvalues. clear Hvalues.
    eexists. split; [done|].
    rewrite keep_rows_filter. fold ncols. rewrite group_rows_complete by done.
    rewrite !length_fmap, length_seq. split; [done|].
    intros i Hi. rewrite !list_lookup_fmap, lookup_seq_lt by done. done.
  - intros Hn Hvalues. rewrite bool_decide_true by done.
    by destruct td_values.
Qed.

Lemma new_page_groups_witness :
  ∃ items,
    parse_state_page_new [split_table] "JHR" "Johor" = Return items
    ∧ length items = 1%nat
    ∧ items !! 0%nat
      = Some (Rainfall.make_item "JHR" "Johor"
                ["No."; "Station ID"; "Station"; "District"; "Last Updated";
                 "01/01"; "02/01"; "Rainfall from Midnight"; "Total 1 Hour"]
                ["1"; "0123"; "Sg. Muar"; "Muar"; "01/01 10:00";
                 "0.0"; "1.5"; "2.0"; "0.5"]).
Proof.
  destruct (new_page_groups [split_table] "JHR" "Johor" split_table _ _
              eq_refl eq_refl eq_refl) as [Hgroups _].
  destruct Hgroups as (items & Hparse & Hlen & Hitems); [by vm_compute|].
  exists items. split; [exact Hparse|]. split; [exact Hlen|].
  apply Hitems. rewrite Hlen. vm_compute. lia.
Defined.

End RainfallNewPage.

(** ** The rainfall handler (rainfall_fg1.py) *)

Section RainfallPipeline.
Import Py Dom Eff CsvText RainfallHandler.

Lemma items_to_csv_returns all_items :
  ∃ content, Rainfall.items_to_csv all_items = Return content
             ∧ (all_items = [] → content = "").
Proof.
  destruct all_items as [|it rest]; [by exists ""|].
  rewrite items_to_csv_cons. by eexists.
Qed.

(** The handler of rainfall_fg1.py never uploads and never answers.
    It fetches the pages of the 15 states, at most three requests for
    each, and turns the records into CSV; then [upload_to_obs] raises,
    for want of the OBS keys or, with the keys, at its call of
    [putContent], which Python refuses.  The handler catches nothing,
    so every run ends in that exception, with a trace made of the page
    requests alone: no upload and no start of a CDM job. *)
Theorem rainfall_handler_runs (env : Env) (obs_keys_set : bool)
    (type_error : string) :
  ∃ all_items requests,
    Rainfall.scrape_states env Rainfall.STATE_MAP [] [] = (Return all_items, requests)
    ∧ (length requests ≤ 45)%nat
    ∧ Forall (fun e => ∃ state_name,
                e = HttpGet RainfallPage (PStr state_name) Rainfall.REQUEST_TIMEOUT)
        requests
    ∧ run (handler env obs_keys_set type_error)
      = (Raise (if obs_keys_set then type_error
                else "OBS_AK and OBS_SK environment variables must be set"),
         requests).
Proof.
  destruct (scrape_states_spec env Rainfall.STATE_MAP [] [])
    as (all_items & requests & Hrun & Hlen & Hrequests).
  destruct (items_to_csv_returns all_items) as (content & Hcsv & _).
  simpl app in Hrun.
  exists all_items, requests.
  split_and!; [exact Hrun|exact Hlen|exact Hrequests|].
  unfold run, handler, upload_to_obs. unfold_m. rewrite Hrun, Hcsv.
  by destruct obs_keys_set.
Qed.

End RainfallPipeline.
